(** * startup-data-api: generation and ingestion pipeline

    A shallow embedding of [generate_data.py] (name registry, progress
    checkpoint, record generator, batch orchestrator) and of the
    [/load-data] endpoint of [main.py] with the row classes of [models.py].

    Python values are modelled as follows.
    - [str] is [string]; the development covers the ASCII fragment of
      Python's Unicode strings (bytes above 127 are neither cased nor
      whitespace here).
    - a [set] of names is a [gset string];
    - a decoded JSON document is a [json] tree, a [dict] being an
      association list read with first-match lookup;
    - an exception is a value of [exn], and a computation that may raise
      returns a [result];
    - writing text encodes it: [Generator] has the prints and dumps that
      succeed, [Utf8] the batch orchestrator with writes that fail on
      text that cannot be encoded.

    [Crud] has the other endpoints of [main.py] with the request bodies
    of [schemas.py]. *)

From Stdlib Require Import ZArith QArith Ascii String List Bool Lia.
From stdpp Require Import base decidable list gmap strings sets.

Set Warnings "-register-all,-clear-no-such-hyp".
Local Open Scope string_scope.
Local Open Scope list_scope.

(** ** Exceptions and results *)

(** The [ValueError]s raised by [generate_company_data], by message. *)
Inductive value_error :=
| Missing_field (field : string)
| Expected_products (expected got : nat)
| Duplicate_company_name
| Duplicate_product_name.

Inductive exn :=
| ZeroDivisionError
| ValueError (why : value_error)
| TypeError
| KeyError (key : string)
| AttributeError
| IntegrityError
| OtherError (what : string).

Inductive result (A : Type) :=
| Ok (a : A)
| Raise (e : exn).
Arguments Ok {A} a.
Arguments Raise {A} e.

(** ** Python string methods used by the name registry *)

Module PyStr.

(** [str.isspace] on ASCII: TAB..CR, FS..US and the space. *)
Definition is_space (c : ascii) : bool :=
  let n := nat_of_ascii c in
  ((9 <=? n)%nat && (n <=? 13)%nat) || ((28 <=? n)%nat && (n <=? 32)%nat).

Definition lower_char (c : ascii) : ascii :=
  let n := nat_of_ascii c in
  if ((65 <=? n)%nat && (n <=? 90)%nat) then ascii_of_nat (n + 32) else c.

(** [s.lower()] *)
Fixpoint lower (s : string) : string :=
  match s with
  | EmptyString => EmptyString
  | String c s' => String (lower_char c) (lower s')
  end.

Fixpoint lstrip (s : string) : string :=
  match s with
  | EmptyString => EmptyString
  | String c s' => if is_space c then lstrip s' else s
  end.

Fixpoint rstrip (s : string) : string :=
  match s with
  | EmptyString => EmptyString
  | String c s' =>
      match rstrip s' with
      | EmptyString => if is_space c then EmptyString else String c EmptyString
      | r => String c r
      end
  end.

(** [s.strip()] *)
Definition strip (s : string) : string := rstrip (lstrip s).

(** [s.split()] with no separator: maximal runs of non-whitespace. [tok]
    is the token being read. *)
Fixpoint split_from (tok : string) (s : string) : list string :=
  match s with
  | EmptyString => match tok with EmptyString => [] | _ => [tok] end
  | String c s' =>
      if is_space c
      then match tok with
           | EmptyString => split_from EmptyString s'
           | _ => tok :: split_from EmptyString s'
           end
      else split_from (tok ++ String c EmptyString) s'
  end.

Definition split (s : string) : list string := split_from EmptyString s.

(** [needle in hay] for two strings. *)
Fixpoint is_prefix (p s : string) : bool :=
  match p, s with
  | EmptyString, _ => true
  | String a p', String b s' => Ascii.eqb a b && is_prefix p' s'
  | String _ _, EmptyString => false
  end.

Fixpoint is_substring (needle hay : string) : bool :=
  is_prefix needle hay ||
  match hay with
  | EmptyString => false
  | String _ hay' => is_substring needle hay'
  end.

End PyStr.

(** ** The name registry ([generate_data.py], lines 39-40 and 72-90) *)

Module Registry.
Import PyStr.

(** [a / b] on two [len] results. Python computes the correctly rounded
    double of the quotient; the operands here are token counts, and for
    counts below 2^49 the comparison of that double with the double
    [0.7] agrees with the comparison of the exact quotient with 7/10
    (a quotient different from 7/10 differs from it by at least
    1/(10*b)), so the quotient is kept exact. *)
Definition py_truediv (a b : nat) : result Q :=
  match b with
  | O => Raise ZeroDivisionError
  | S _ => Ok (Z.of_nat a # Pos.of_nat b)
  end.

(** Truth value of a set: non-empty. *)
Definition set_truthy (s : gset string) : bool := negb (size s =? 0)%nat.

Definition words (s : string) : gset string := list_to_set (split s).

(** The body of [for existing in used_company_names], over an
    enumeration of the set. *)
Fixpoint scan_existing (name_words : gset string) (entries : list string)
  : result bool :=
  match entries with
  | [] => Ok false
  | existing :: rest =>
      let existing_words := words existing in
      if set_truthy name_words && set_truthy existing_words then
        match py_truediv (size (name_words ∩ existing_words))
                         (Nat.max (size name_words) (size existing_words)) with
        | Raise e => Raise e
        | Ok overlap =>
            if Qle_bool (7 # 10) overlap then Ok true
            else scan_existing name_words rest
        end
      else scan_existing name_words rest
  end.

Definition is_duplicate_company (used_company_names : gset string)
  (company_name : string) : result bool :=
  let name_lower := strip (lower company_name) in
  if bool_decide (name_lower ∈ used_company_names) then Ok true
  else scan_existing (words name_lower) (elements used_company_names).

Definition is_duplicate_product (used_product_names : gset string)
  (product_name : string) : bool :=
  bool_decide (strip (lower product_name) ∈ used_product_names).

(** [used.add(name.lower().strip())], lines 187 and 189. *)
Definition register_name (used : gset string) (name : string) : gset string :=
  {[ strip (lower name) ]} ∪ used.

(** The similarity of §4.1 of the specification, in its words:
    |intersection of the token sets| / max(|tokens_a|, |tokens_b|), as an
    exact fraction (0 when both sets are empty). *)
Definition overlap_ratio (tokens_a tokens_b : gset string) : Q :=
  Z.of_nat (size (tokens_a ∩ tokens_b))
  # Pos.of_nat (Nat.max (size tokens_a) (size tokens_b)).

(** "Similarity at least 0.7" between two non-empty token sets. *)
Definition near_duplicate (name_words : gset string) (existing : string) : bool :=
  set_truthy name_words && set_truthy (words existing)
  && Qle_bool (7 # 10) (overlap_ratio name_words (words existing)).

End Registry.

(** ** Decoded JSON and the Python operations applied to it *)

Inductive json :=
| JNull
| JBool (b : bool)
| JNum (z : Z)
| JFloat (q : Q)
| JStr (s : string)
| JArr (items : list json)
| JObj (members : list (string * json)).

(** A file of the working directory, as [os.path.exists], [open] and
    [json.load] see it. *)
Inductive file :=
| Absent
| Unreadable               (* exists; [open] or the read raises *)
| Undecodable              (* exists; [json.load] raises [JSONDecodeError] *)
| Holds (content : json).  (* exists and decodes to [content] *)

Module Py.
Import PyStr.

(** Lookup in a [dict] kept as an association list (first match). *)
Fixpoint dict_find (key : string) (d : list (string * json)) : option json :=
  match d with
  | [] => None
  | (k, v) :: d' => if String.eqb k key then Some v else dict_find key d'
  end.

(** [d.pop(key, ...)]: the dictionary without [key]; also the filter of
    a comprehension [{k: v for k, v in d.items() if k != key}]. *)
Definition dict_without (key : string) (d : list (string * json))
  : list (string * json) :=
  List.filter (fun kv => negb (String.eqb (fst kv) key)) d.

(** [v[key]] with a [str] key. *)
Definition getitem (v : json) (key : string) : result json :=
  match v with
  | JObj d => match dict_find key d with
              | Some x => Ok x
              | None => Raise (KeyError key)
              end
  | _ => Raise TypeError
  end.

(** [v.get(key, default)]. *)
Definition get (v : json) (key : string) (default : json) : result json :=
  match v with
  | JObj d => Ok (match dict_find key d with Some x => x | None => default end)
  | _ => Raise AttributeError
  end.

(** [len(v)]. *)
Definition len (v : json) : result nat :=
  match v with
  | JArr l => Ok (List.length l)
  | JStr s => Ok (String.length s)
  | JObj d => Ok (List.length d)
  | _ => Raise TypeError
  end.

(** Truth value of [v] in a condition. *)
Definition truthy (v : json) : bool :=
  match v with
  | JNull => false
  | JBool b => b
  | JNum z => negb (z =? 0)%Z
  | JFloat q => negb (Qnum q =? 0)%Z
  | JStr s => negb (String.eqb s EmptyString)
  | JArr l => match l with [] => false | _ => true end
  | JObj d => match d with [] => false | _ => true end
  end.

Fixpoint chars (s : string) : list json :=
  match s with
  | EmptyString => []
  | String c s' => JStr (String c EmptyString) :: chars s'
  end.

(** The items a [for x in v] loop visits. *)
Definition iter (v : json) : result (list json) :=
  match v with
  | JArr l => Ok l
  | JStr s => Ok (chars s)
  | JObj d => Ok (List.map (fun kv => JStr (fst kv)) d)
  | _ => Raise TypeError
  end.

Definition is_str (key : string) (x : json) : bool :=
  match x with JStr s => String.eqb s key | _ => false end.

(** [key in v]. *)
Definition contains (key : string) (v : json) : result bool :=
  match v with
  | JObj d => Ok (match dict_find key d with Some _ => true | None => false end)
  | JArr l => Ok (List.existsb (is_str key) l)
  | JStr s => Ok (is_substring key s)
  | _ => Raise TypeError
  end.

(** [v.lower().strip()]: only a [str] has the method. *)
Definition lower_strip (v : json) : result string :=
  match v with
  | JStr s => Ok (strip (lower s))
  | _ => Raise AttributeError
  end.

(** [l.append(x)]: only a [list] has the method. *)
Definition append (l x : json) : result json :=
  match l with
  | JArr items => Ok (JArr (items ++ [x]))
  | _ => Raise AttributeError
  end.

(** [sep.join(parts)]. *)
Fixpoint join (sep : string) (parts : list string) : string :=
  match parts with
  | [] => EmptyString
  | [p] => p
  | p :: rest => p ++ sep ++ join sep rest
  end.

(** [s.split(sep)] for a one-character separator; empty pieces are kept. *)
Fixpoint split_on (sep : ascii) (piece : string) (s : string) : list string :=
  match s with
  | EmptyString => [piece]
  | String c s' =>
      if Ascii.eqb c sep then piece :: split_on sep EmptyString s'
      else split_on sep (piece ++ String c EmptyString) s'
  end.

Fixpoint drop (n : nat) (s : string) : string :=
  match n, s with
  | O, _ => s
  | S n', String _ s' => drop n' s'
  | S _, EmptyString => EmptyString
  end.

(** [range(a, b)]. *)
Definition range (a b : Z) : list Z :=
  List.map (fun k => (a + Z.of_nat k)%Z) (List.seq 0 (Z.to_nat (b - a))).

(** [random.choice(l)] given the draw [r]; both call sites pass a
    non-empty literal, whose first element is given as [d]. *)
Definition choice {A} (d : A) (l : list A) (r : nat) : A :=
  List.nth (r mod List.length l) l d.

End Py.

(** ** [generate_data.py] *)

Module Generator.
Import PyStr Py Registry.

Record industry_info := { focus : string; products : list string }.

Definition INDUSTRIES : list (string * industry_info) :=
  [ ("FinTech",
     {| focus := "financial technology, payments, banking, investment";
        products := ["payment platforms"; "investment tools";
                     "financial analytics"; "crypto solutions"] |});
    ("HealthTech",
     {| focus := "healthcare technology, telemedicine, health monitoring, medical software";
        products := ["telemedicine platforms"; "health trackers";
                     "medical records systems"; "AI diagnostics"] |});
    ("EdTech",
     {| focus := "educational technology, online learning, student management, skills training";
        products := ["learning platforms"; "course management";
                     "assessment tools"; "skills training"] |});
    ("E-commerce",
     {| focus := "online retail, marketplace, shopping platforms, delivery services";
        products := ["marketplace platforms"; "inventory management";
                     "logistics solutions"; "customer analytics"] |});
    ("SaaS",
     {| focus := "software as a service, business tools, productivity, automation";
        products := ["project management"; "CRM systems";
                     "automation tools"; "collaboration platforms"] |}) ].

Definition TOTAL_COMPANIES : nat := 10.

(** What the script prints, line by line. *)
Inductive line :=
| Banner
| Warning_could_not_load (e : exn)
| Found_companies (n : nat)
| Blank
| Generating_total
| Generating (position : Z) (industry : string)
| Generated (name : json) (nproducts : nat)
| Failed (e : exn)
| Summary (ncompanies nproducts : nat).

(** The module globals, the two files, and what the run has consumed from
    or sent to its surroundings so far. *)
Record world := {
  used_company_names : gset string;
  used_product_names : gset string;
  progress_file : file;          (* generation_progress.json *)
  output_file : file;            (* startup_data.json *)
  api_calls : nat;               (* [client.messages.create] calls made *)
  draws : nat;                   (* [random.choice] draws made *)
  clock_reads : nat;             (* [time.time] readings made *)
  slept_ms : N;                  (* total [time.sleep], in milliseconds *)
  stdout : list line
}.

(** The values interpolated into the prompt template of lines 99-140. *)
Record prompt := {
  p_industry : string;
  p_focus : string;
  p_typical_products : string;
  p_existing_companies : string;
  p_existing_products : string;
  p_num_products : nat
}.

(** The surroundings of the script: the text-generation API, the JSON
    decoder, the random source, the clock and the terminal. The [n]-th
    call of each yields the [n]-th answer. *)
Record env := {
  messages_create : nat -> prompt -> result string;
     (* [client.messages.create(...).content[0].text] *)
  json_loads : string -> result json;
  random_draw : nat -> nat;
  time_time : nat -> Q;
  input_line : string
}.

Definition M (A : Type) : Type := world -> result A * world.

Definition ret {A} (a : A) : M A := fun w => (Ok a, w).
Definition raise {A} (e : exn) : M A := fun w => (Raise e, w).
Definition bind {A B} (m : M A) (k : A -> M B) : M B :=
  fun w => match m w with
           | (Ok a, w') => k a w'
           | (Raise e, w') => (Raise e, w')
           end.
Definition lift {A} (r : result A) : M A := fun w => (r, w).

Notation "'let*' x ':=' m 'in' k" := (bind m (fun x => k))
  (at level 10, x pattern, m at level 100, k at level 200).

Definition set_used_company_names (s : gset string) (w : world) : world :=
  {| used_company_names := s; used_product_names := used_product_names w;
     progress_file := progress_file w; output_file := output_file w;
     api_calls := api_calls w; draws := draws w; clock_reads := clock_reads w;
     slept_ms := slept_ms w; stdout := stdout w |}.

Definition set_used_product_names (s : gset string) (w : world) : world :=
  {| used_company_names := used_company_names w; used_product_names := s;
     progress_file := progress_file w; output_file := output_file w;
     api_calls := api_calls w; draws := draws w; clock_reads := clock_reads w;
     slept_ms := slept_ms w; stdout := stdout w |}.

Definition set_progress_file (f : file) (w : world) : world :=
  {| used_company_names := used_company_names w;
     used_product_names := used_product_names w;
     progress_file := f; output_file := output_file w;
     api_calls := api_calls w; draws := draws w; clock_reads := clock_reads w;
     slept_ms := slept_ms w; stdout := stdout w |}.

Definition set_output_file (f : file) (w : world) : world :=
  {| used_company_names := used_company_names w;
     used_product_names := used_product_names w;
     progress_file := progress_file w; output_file := f;
     api_calls := api_calls w; draws := draws w; clock_reads := clock_reads w;
     slept_ms := slept_ms w; stdout := stdout w |}.

Definition count_api_call (w : world) : world :=
  {| used_company_names := used_company_names w;
     used_product_names := used_product_names w;
     progress_file := progress_file w; output_file := output_file w;
     api_calls := S (api_calls w); draws := draws w;
     clock_reads := clock_reads w; slept_ms := slept_ms w;
     stdout := stdout w |}.

Definition count_draw (w : world) : world :=
  {| used_company_names := used_company_names w;
     used_product_names := used_product_names w;
     progress_file := progress_file w; output_file := output_file w;
     api_calls := api_calls w; draws := S (draws w);
     clock_reads := clock_reads w; slept_ms := slept_ms w;
     stdout := stdout w |}.

Definition count_clock_read (w : world) : world :=
  {| used_company_names := used_company_names w;
     used_product_names := used_product_names w;
     progress_file := progress_file w; output_file := output_file w;
     api_calls := api_calls w; draws := draws w;
     clock_reads := S (clock_reads w); slept_ms := slept_ms w;
     stdout := stdout w |}.

(** [time.sleep] *)
Definition sleep (ms : N) (w : world) : world :=
  {| used_company_names := used_company_names w;
     used_product_names := used_product_names w;
     progress_file := progress_file w; output_file := output_file w;
     api_calls := api_calls w; draws := draws w;
     clock_reads := clock_reads w; slept_ms := (slept_ms w + ms)%N;
     stdout := stdout w |}.

(** [print], of a line whose text can be encoded; [Utf8.print] has the
    other case. *)
Definition print (l : line) (w : world) : world :=
  {| used_company_names := used_company_names w;
     used_product_names := used_product_names w;
     progress_file := progress_file w; output_file := output_file w;
     api_calls := api_calls w; draws := draws w;
     clock_reads := clock_reads w; slept_ms := slept_ms w;
     stdout := stdout w ++ [l] |}.

(** [os.path.exists] *)
Definition exists_file (f : file) : bool :=
  match f with Absent => false | _ => true end.

(** *** Progress checkpoint (lines 42-70) *)

Definition names_json (s : gset string) : json := JArr (List.map JStr (elements s)).

(** Lines 42-54, when the dump succeeds: every string of the document
    can be encoded. [Utf8.save_progress] has the dump that fails. *)
Definition save_progress (E : env) (companies : json) (current_index : Z)
  (w : world) : world :=
  let progress_data :=
    JObj [ ("companies", companies);
           ("current_index", JNum current_index);
           ("total_target", JNum (Z.of_nat TOTAL_COMPANIES));
           ("used_company_names", names_json (used_company_names w));
           ("used_product_names", names_json (used_product_names w));
           ("last_updated", JFloat (time_time E (clock_reads w))) ] in
  set_progress_file (Holds progress_data) (count_clock_read w).

(** Adding the items of a decoded list one by one, as [set.update] does.
    A list or a dict among them is unhashable: [TypeError], the items
    before it staying added. A number, a boolean or null would be added
    by Python; the registry here holds strings only, and such an item is
    beyond this model: [None]. *)
Fixpoint add_all (used : gset string) (items : list json)
  : option (result unit * gset string) :=
  match items with
  | [] => Some (Ok tt, used)
  | JStr s :: rest => add_all ({[ s ]} ∪ used) rest
  | JArr _ :: _ | JObj _ :: _ => Some (Raise TypeError, used)
  | _ => None
  end.

(** [used.update(v)] *)
Definition set_update (used : gset string) (v : json)
  : option (result unit * gset string) :=
  match iter v with
  | Raise e => Some (Raise e, used)
  | Ok items => add_all used items
  end.

(** The [try] block of [load_progress], lines 60-66. *)
Definition load_progress_try (w : world)
  : option (result (json * json) * world) :=
  match progress_file w with
  | Absent | Unreadable | Undecodable =>
      Some (Raise (OtherError "open or json.load"), w)
  | Holds progress_data =>
      match get progress_data "used_company_names" (JArr []) with
      | Raise e => Some (Raise e, w)
      | Ok names =>
          match set_update (used_company_names w) names with
          | None => None
          | Some (Raise e, used) => Some (Raise e, set_used_company_names used w)
          | Some (Ok _, used) =>
              let w1 := set_used_company_names used w in
              match get progress_data "used_product_names" (JArr []) with
              | Raise e => Some (Raise e, w1)
              | Ok pnames =>
                  match set_update (used_product_names w1) pnames with
                  | None => None
                  | Some (Raise e, pused) =>
                      Some (Raise e, set_used_product_names pused w1)
                  | Some (Ok _, pused) =>
                      let w2 := set_used_product_names pused w1 in
                      match get progress_data "companies" (JArr []),
                            get progress_data "current_index" (JNum 0) with
                      | Ok companies, Ok current_index =>
                          Some (Ok (companies, current_index), w2)
                      | Raise e, _ | _, Raise e => Some (Raise e, w2)
                      end
                  end
              end
          end
      end
  end.

Definition load_progress (w : world) : option ((json * json) * world) :=
  if exists_file (progress_file w) then
    match load_progress_try w with
    | None => None
    | Some (Ok r, w') => Some (r, w')
    | Some (Raise e, w') =>
        Some ((JArr [], JNum 0), print (Warning_could_not_load e) w')
    end
  else Some ((JArr [], JNum 0), w).

(** *** Record generator (lines 92-196) *)

Definition newline : ascii := ascii_of_nat 10.

(** Lines 151-158: trimming and removal of a Markdown code fence. *)
Definition clean_response (text : string) : string :=
  let response_text := strip text in
  if is_prefix "```" response_text then
    let lines := split_on newline EmptyString response_text in
    let response_text :=
      join (String newline EmptyString) (removelast (tl lines)) in
    if is_prefix "json" response_text then strip (drop 4 response_text)
    else response_text
  else response_text.

Definition required : list string :=
  ["name"; "tagline"; "description"; "industry"; "founded_year";
   "employee_count"; "headquarters"; "website_url"; "products"].

(** Lines 167-169. *)
Fixpoint check_required (fields : list string) (company_data : json)
  : result unit :=
  match fields with
  | [] => Ok tt
  | field :: rest =>
      match contains field company_data with
      | Raise e => Raise e
      | Ok true => check_required rest company_data
      | Ok false => Raise (ValueError (Missing_field field))
      end
  end.

(** [is_duplicate_company(v)] on a decoded value: [v.lower()] raises
    unless [v] is a string. *)
Definition is_duplicate_company_of (v : json) : M bool :=
  fun w => match v with
           | JStr s => (is_duplicate_company (used_company_names w) s, w)
           | _ => (Raise AttributeError, w)
           end.

Definition is_duplicate_product_of (v : json) : M bool :=
  fun w => match v with
           | JStr s => (Ok (is_duplicate_product (used_product_names w) s), w)
           | _ => (Raise AttributeError, w)
           end.

(** Lines 180-184. The [continue] of line 183 belongs to this loop over
    the products: it moves on to the next product. *)
Fixpoint check_products (attempt : nat) (items : list json) : M unit :=
  match items with
  | [] => ret tt
  | product :: rest =>
      let* name := lift (getitem product "name") in
      let* dup := is_duplicate_product_of name in
      if dup then
        if (attempt <? 4)%nat then check_products attempt rest
        else raise (ValueError Duplicate_product_name)
      else check_products attempt rest
  end.

(** Line 187. *)
Definition register_company (name : json) : M unit :=
  let* n := lift (lower_strip name) in
  fun w => (Ok tt, set_used_company_names ({[ n ]} ∪ used_company_names w) w).

(** Lines 188-189. *)
Fixpoint register_products (items : list json) : M unit :=
  match items with
  | [] => ret tt
  | product :: rest =>
      let* name := lift (getitem product "name") in
      let* n := lift (lower_strip name) in
      let* _ := (fun w => (Ok tt, set_used_product_names
                                    ({[ n ]} ∪ used_product_names w) w)) in
      register_products rest
  end.

Definition call_api (E : env) (p : prompt) : M string :=
  fun w => (messages_create E (api_calls w) p, count_api_call w).

(** How one pass through the body of [for attempt in range(5)] ends
    when it does not raise. *)
Inductive control :=
| Return (company_data : json)
| Continue.

(** The [try] block of lines 144-191. *)
Definition attempt_try (E : env) (p : prompt) (num_products attempt : nat)
  : M control :=
  let* text := call_api E p in
  let* company_data := lift (json_loads E (clean_response text)) in
  let* _ := lift (check_required required company_data) in
  let* products := lift (getitem company_data "products") in
  let* n := lift (len products) in
  if negb (n =? num_products)%nat
  then raise (ValueError (Expected_products num_products n))
  else
    let* name := lift (getitem company_data "name") in
    let* dup := is_duplicate_company_of name in
    if dup then
      if (attempt <? 4)%nat then ret Continue
      else raise (ValueError Duplicate_company_name)
    else
      let* items := lift (iter products) in
      let* _ := check_products attempt items in
      let* _ := register_company name in
      let* _ := register_products items in
      ret (Return company_data).

(** The loop of line 142 over the attempts still [todo]; falling off its
    end returns [None]. *)
Fixpoint attempts (E : env) (p : prompt) (num_products : nat)
  (todo : list nat) : M json :=
  match todo with
  | [] => ret JNull
  | attempt :: rest =>
      fun w =>
        match attempt_try E p num_products attempt w with
        | (Ok (Return company_data), w') => (Ok company_data, w')
        | (Ok Continue, w') => attempts E p num_products rest w'
        | (Raise e, w') =>
            if (attempt =? 4)%nat then (Raise e, w')
            else attempts E p num_products rest (sleep 2000%N w')
        end
  end.

(** Lines 96-97: up to [n] names of the set, or "none yet". *)
Definition existing_names (n : nat) (used : gset string) : string :=
  if set_truthy used then join ", " (List.firstn n (elements used))
  else "none yet".

Definition generate_company_data (E : env) (industry : string)
  (info : industry_info) : M json :=
  fun w =>
    let num_products := choice 3%nat [3; 4]%nat (random_draw E (draws w)) in
    let w := count_draw w in
    let p := {| p_industry := industry;
                p_focus := focus info;
                p_typical_products := join ", " (products info);
                p_existing_companies := existing_names 10 (used_company_names w);
                p_existing_products := existing_names 15 (used_product_names w);
                p_num_products := num_products |} in
    attempts E p num_products (List.seq 0 5) w.

(** The number of products of a company record whose ["products"] is a
    list. *)
Definition product_count (company : json) : option nat :=
  match company with
  | JObj d => match dict_find "products" d with
              | Some (JArr ps) => Some (List.length ps)
              | _ => None
              end
  | _ => None
  end.

(** A product entry a record can be returned with: a dict whose
    ["name"] is a string. *)
Definition named (item : json) : Prop :=
  exists d s, item = JObj d /\ dict_find "name" d = Some (JStr s).

(** *** Batch orchestrator (lines 198-247) *)

(** The [try] block of lines 226-232. [all_companies] is one list
    object, appended to in place: the list as it stands is handed back
    also when a later statement raises. *)
Definition iteration_try (E : env) (i : Z) (industry : string)
  (info : industry_info) (all_companies : json) (w : world)
  : result unit * json * world :=
  match generate_company_data E industry info w with
  | (Raise e, w1) => (Raise e, all_companies, w1)
  | (Ok company, w1) =>
      match append all_companies company with
      | Raise e => (Raise e, all_companies, w1)
      | Ok all_companies' =>
          match getitem company "name" with
          | Raise e => (Raise e, all_companies', w1)
          | Ok name =>
              match getitem company "products" with
              | Raise e => (Raise e, all_companies', w1)
              | Ok prods =>
                  match len prods with
                  | Raise e => (Raise e, all_companies', w1)
                  | Ok n =>
                      let w2 := print (Generated name n) w1 in
                      let w3 := save_progress E all_companies' (i + 1) w2 in
                      (Ok tt, all_companies', sleep 1200%N w3)
                  end
              end
          end
      end
  end.

(** Line 222 with the lookup of line 226: a key of [INDUSTRIES] and its
    entry. *)
Definition pick_industry (E : env) (w : world) : string * industry_info :=
  choice ("FinTech", {| focus := ""; products := [] |}) INDUSTRIES
         (random_draw E (draws w)).

(** The body of the loop of line 221, lines 222-237, when its prints
    and checkpoint writes succeed; [Utf8.iteration] is the body with
    writes that may fail and leave the loop. *)
Definition iteration (E : env) (i : Z) (st : json * world) : json * world :=
  let '(all_companies, w) := st in
  let '(industry, info) := pick_industry E w in
  let w := print (Generating (i + 1) industry) (count_draw w) in
  match iteration_try E i industry info all_companies w with
  | (Ok _, all_companies', w') => (all_companies', w')
  | (Raise e, all_companies', w') =>
      (all_companies', save_progress E all_companies' i (print (Failed e) w'))
  end.

Fixpoint iterations (E : env) (indices : list Z) (st : json * world)
  : json * world :=
  match indices with
  | [] => st
  | i :: rest => iterations E rest (iteration E i st)
  end.

(** Line 246: [sum(len(c["products"]) for c in all_companies)]. *)
Fixpoint sum_products (items : list json) : result nat :=
  match items with
  | [] => Ok O
  | c :: rest =>
      match getitem c "products" with
      | Raise e => Raise e
      | Ok prods =>
          match len prods with
          | Raise e => Raise e
          | Ok n => match sum_products rest with
                    | Raise e => Raise e
                    | Ok m => Ok (n + m)%nat
                    end
          end
      end
  end.

(** Lines 239-247, when the final dump succeeds. *)
Definition completion (all_companies : json) : M unit :=
  fun w =>
    let w1 := set_output_file (Holds (JObj [("companies", all_companies)])) w in
    match len all_companies with
    | Raise e => (Raise e, w1)
    | Ok n =>
        let w2 := if (n =? TOTAL_COMPANIES)%nat && exists_file (progress_file w1)
                  then set_progress_file Absent w1 else w1 in
        match iter all_companies with
        | Raise e => (Raise e, w2)
        | Ok items =>
            match sum_products items with
            | Raise e => (Raise e, w2)
            | Ok total_products => (Ok tt, print (Summary n total_products) w2)
            end
        end
    end.

(** An integer argument of [range]: an [int] or a [bool]. *)
Definition as_index (v : json) : result Z :=
  match v with
  | JNum z => Ok z
  | JBool b => Ok (if b then 1 else 0)%Z
  | _ => Raise TypeError
  end.

(** Lines 208-214: the answer to "Continue?" was not [y]. *)
Definition restart (w : world) : world :=
  set_used_product_names ∅
    (set_used_company_names ∅
       (set_progress_file Absent (set_output_file Absent w))).

(** Lines 201-217: the resume check, giving the list to extend and the
    index to start from. *)
Definition resume_check (E : env) (resume : bool) (w : world)
  : option (result (json * json) * world) :=
  let w := print Banner w in
  match (if resume then load_progress w else Some ((JArr [], JNum 0), w)) with
  | None => None
  | Some ((existing_companies, start_index), w1) =>
      if truthy existing_companies then
        match len existing_companies with
        | Raise e => Some (Raise e, w1)
        | Ok n =>
            let w2 := print (Found_companies n) w1 in
            if negb (String.eqb (lower (strip (input_line E))) "y") then
              Some (Ok (JArr [], JNum 0),
                    print Generating_total (print Blank (restart w2)))
            else
              Some (Ok (existing_companies, start_index),
                    print Generating_total (print Blank w2))
        end
      else Some (Ok (existing_companies, start_index),
                 print Generating_total w1)
  end.

(** Lines 201-237: everything up to the end of the loop. *)
Definition generation (E : env) (resume : bool) (w : world)
  : option (result json * world) :=
  match resume_check E resume w with
  | None => None
  | Some (Raise e, w1) => Some (Raise e, w1)
  | Some (Ok (existing_companies, start_index), w1) =>
      match as_index start_index with
      | Raise e => Some (Raise e, w1)
      | Ok start =>
          let '(all_companies, w2) :=
            iterations E (range start (Z.of_nat TOTAL_COMPANIES))
                       (existing_companies, w1) in
          Some (Ok all_companies, w2)
      end
  end.

Definition generate_all_data (E : env) (resume : bool) (w : world)
  : option (result unit * world) :=
  match generation E resume w with
  | None => None
  | Some (Raise e, w1) => Some (Raise e, w1)
  | Some (Ok all_companies, w1) => Some (completion all_companies w1)
  end.

(** Computations that leave the printed output alone. *)
Definition quiet {A} (m : M A) : Prop := forall w, stdout (snd (m w)) = stdout w.

(** Reading a checkpoint back: its companies and its [current_index]. *)
Definition checkpoint_of (f : file) : option (json * json) :=
  match f with
  | Holds (JObj d) =>
      match dict_find "companies" d, dict_find "current_index" d with
      | Some companies, Some current_index => Some (companies, current_index)
      | _, _ => None
      end
  | _ => None
  end.

(** [d.get(key, default)] on the members of a dict. *)
Definition field_or (d : list (string * json)) (key : string) (default : json)
  : json :=
  match dict_find key d with Some x => x | None => default end.

(** The positions announced by the "[i+1/N] Generating" lines of an
    output. *)
Fixpoint generating_positions (out : list line) : list Z :=
  match out with
  | [] => []
  | Generating position _ :: rest => position :: generating_positions rest
  | _ :: rest => generating_positions rest
  end.

End Generator.

(** ** [models.py] and the [/load-data] endpoint of [main.py] *)

Module Ingest.
Import Py.

(** A row as inserted: its primary key and the column values given. *)
Record company_row := { co_id : json; co_attrs : list (string * json) }.
Record product_row := {
  pr_id : json; pr_company_id : json; pr_attrs : list (string * json) }.

Record store := { companies : list company_row; products : list product_row }.

(** An object passed to [db.add] and not yet flushed. *)
Inductive pending_object :=
| NewCompany (attrs : list (string * json))
| NewProduct (company_id : json) (attrs : list (string * json)).

(** A [Session] with its transaction: the committed rows, the rows
    inserted by flushes of the open transaction, and the objects added
    since the last flush. *)
Record session := {
  committed : store;
  inserted : store;
  pending : list pending_object;
  uuid_draws : nat               (* [uuid.uuid4] calls made *)
}.

(** What [database.py] and the libraries fix: the UUID source, the
    session's autoflush flag, and which keyword names other than the
    mapped columns a row class has as attributes (accepted by the
    constructor, not stored). *)
Record env := {
  uuid4 : nat -> string;
  autoflush : bool;
  other_attribute : string -> bool
}.

(** [models.py]: column names, and those declared [nullable=False]. *)
Definition company_columns : list string :=
  ["id"; "name"; "tagline"; "description"; "industry"; "founded_year";
   "employee_count"; "headquarters"; "website_url"; "created_at"].
Definition company_required : list string :=
  ["name"; "tagline"; "description"; "industry"; "founded_year";
   "employee_count"; "headquarters"].
Definition product_columns : list string :=
  ["id"; "name"; "description"; "target_audience"; "key_features";
   "pricing_model"; "created_at"].
Definition product_required : list string :=
  ["name"; "description"; "target_audience"; "key_features"; "pricing_model"].

Definition mem (k : string) (l : list string) : bool :=
  List.existsb (String.eqb k) l.

(** The declarative constructor, called with keywords: a keyword that is not
    an attribute of the class is a [TypeError]; a value given for a
    relationship attribute must be a mapped object ([None] apart). *)
Fixpoint construct (E : env) (columns relationships : list string)
  (kwargs : list (string * json)) : result (list (string * json)) :=
  match kwargs with
  | [] => Ok []
  | (k, v) :: rest =>
      if mem k columns then
        match construct E columns relationships rest with
        | Ok attrs => Ok ((k, v) :: attrs)
        | Raise e => Raise e
        end
      else if mem k relationships then
        match v with
        | JNull => construct E columns relationships rest
        | _ => Raise AttributeError
        end
      else if other_attribute E k then construct E columns relationships rest
      else Raise TypeError
  end.

(** The value of a column in a row; an attribute never given is NULL. *)
Definition column (k : string) (attrs : list (string * json)) : json :=
  match dict_find k attrs with Some v => v | None => JNull end.

Definition is_null (v : json) : bool :=
  match v with JNull => true | _ => false end.

(** A list or a dict cannot be bound as a statement parameter. *)
Definition bindable (v : json) : bool :=
  match v with JArr _ | JObj _ => false | _ => true end.

(** Equality of two bound scalars, as stored. *)
Definition sql_eq (a b : json) : bool :=
  match a, b with
  | JStr x, JStr y => String.eqb x y
  | JNum x, JNum y => (x =? y)%Z
  | JBool x, JBool y => Bool.eqb x y
  | JFloat x, JFloat y => Qeq_bool x y
  | _, _ => false
  end.

Definition visible_companies (s : session) : list company_row :=
  companies (committed s) ++ companies (inserted s).
Definition visible_products (s : session) : list product_row :=
  products (committed s) ++ products (inserted s).

(** Parameter checks shared by the two INSERTs: every value bindable,
    [created_at] (a [DateTime]) not given a JSON value, the
    [nullable=False] columns not NULL. *)
Definition check_values (required : list string)
  (attrs : list (string * json)) : result unit :=
  if negb (List.forallb (fun kv => bindable (snd kv)) attrs)
  then Raise (OtherError "StatementError")
  else if negb (is_null (column "created_at" attrs))
  then Raise (OtherError "StatementError")
  else if List.existsb (fun k => is_null (column k attrs)) required
  then Raise IntegrityError
  else Ok tt.

Definition with_draw (s : session) : session :=
  {| committed := committed s; inserted := inserted s;
     pending := pending s; uuid_draws := S (uuid_draws s) |}.

(** The primary key of a new row: the [id] given to the constructor, or,
    when none was given, the column default [str(uuid.uuid4())]. *)
Definition primary_key (E : env) (attrs : list (string * json)) (s : session)
  : json * session :=
  if is_null (column "id" attrs)
  then (JStr (uuid4 E (uuid_draws s)), with_draw s)
  else (column "id" attrs, s).

(** INSERT of one company: the primary key and [name] are unique. *)
Definition insert_company (E : env) (attrs : list (string * json))
  (s : session) : result json * session :=
  let '(id, s1) := primary_key E attrs s in
  match check_values company_required attrs with
  | Raise e => (Raise e, s1)
  | Ok _ =>
      if List.existsb (fun r => sql_eq (co_id r) id) (visible_companies s)
      then (Raise IntegrityError, s1)
      else if List.existsb (fun r => sql_eq (column "name" (co_attrs r))
                                            (column "name" attrs))
                           (visible_companies s)
      then (Raise IntegrityError, s1)
      else
        (Ok id,
         {| committed := committed s;
            inserted :=
              {| companies := companies (inserted s)
                              ++ [{| co_id := id; co_attrs := attrs |}];
                 products := products (inserted s) |};
            pending := pending s; uuid_draws := uuid_draws s1 |})
  end.

(** INSERT of one product: [company_id] references an existing company. *)
Definition insert_product (E : env) (company_id : json)
  (attrs : list (string * json)) (s : session) : result unit * session :=
  let '(id, s1) := primary_key E attrs s in
  match check_values product_required attrs with
  | Raise e => (Raise e, s1)
  | Ok _ =>
      if List.existsb (fun r => sql_eq (pr_id r) id) (visible_products s)
      then (Raise IntegrityError, s1)
      else if negb (List.existsb (fun r => sql_eq (co_id r) company_id)
                                 (visible_companies s))
      then (Raise IntegrityError, s1)
      else
        (Ok tt,
         {| committed := committed s;
            inserted :=
              {| companies := companies (inserted s);
                 products := products (inserted s)
                             ++ [{| pr_id := id; pr_company_id := company_id;
                                    pr_attrs := attrs |}] |};
            pending := pending s; uuid_draws := uuid_draws s1 |})
  end.

Definition is_new_company (o : pending_object) : bool :=
  match o with NewCompany _ => true | NewProduct _ _ => false end.

(** The INSERTs of a flush, companies before products (the unit of work
    orders tables by foreign key), each kind in the order added. The
    answer lists the keys given to the companies. *)
Fixpoint insert_all (E : env) (objs : list pending_object) (s : session)
  : result (list json) * session :=
  match objs with
  | [] => (Ok [], s)
  | NewCompany attrs :: rest =>
      match insert_company E attrs s with
      | (Raise e, s1) => (Raise e, s1)
      | (Ok id, s1) =>
          match insert_all E rest s1 with
          | (Raise e, s2) => (Raise e, s2)
          | (Ok ids, s2) => (Ok (id :: ids), s2)
          end
      end
  | NewProduct company_id attrs :: rest =>
      match insert_product E company_id attrs s with
      | (Raise e, s1) => (Raise e, s1)
      | (Ok _, s1) => insert_all E rest s1
      end
  end.

Definition clear_pending (s : session) : session :=
  {| committed := committed s; inserted := inserted s;
     pending := []; uuid_draws := uuid_draws s |}.

(** [db.flush()] *)
Definition flush (E : env) (s : session) : result (list json) * session :=
  let objs := List.filter is_new_company (pending s)
              ++ List.filter (fun o => negb (is_new_company o)) (pending s) in
  match insert_all E objs s with
  | (Raise e, s1) => (Raise e, s1)
  | (Ok ids, s1) => (Ok ids, clear_pending s1)
  end.

(** [db.add(obj)] *)
Definition add (o : pending_object) (s : session) : session :=
  {| committed := committed s; inserted := inserted s;
     pending := pending s ++ [o]; uuid_draws := uuid_draws s |}.

(** [db.rollback()]: the whole open transaction is undone and the
    objects added during it are expunged. *)
Definition rollback (s : session) : session :=
  {| committed := committed s;
     inserted := {| companies := []; products := [] |};
     pending := []; uuid_draws := uuid_draws s |}.

(** [db.commit()] *)
Definition commit (E : env) (s : session) : result unit * session :=
  match flush E s with
  | (Raise e, s1) => (Raise e, s1)
  | (Ok _, s1) =>
      (Ok tt,
       {| committed := {| companies := visible_companies s1;
                          products := visible_products s1 |};
          inserted := {| companies := []; products := [] |};
          pending := []; uuid_draws := uuid_draws s1 |})
  end.

(** The filter [Company.name == v] on one row: [== None] is rendered
    [IS NULL]. *)
Definition name_matches (v : json) (r : company_row) : bool :=
  if is_null v then is_null (column "name" (co_attrs r))
  else sql_eq (column "name" (co_attrs r)) v.

(** [db.query(Company).filter(Company.name == v).first()], as "is there
    such a row". *)
Definition company_exists (E : env) (v : json) (s : session)
  : result bool * session :=
  match (if autoflush E then flush E s else (Ok [], s)) with
  | (Raise e, s1) => (Raise e, s1)
  | (Ok _, s1) =>
      if negb (bindable v) then (Raise (OtherError "StatementError"), s1)
      else
        (Ok (List.existsb (name_matches v) (visible_companies s1)), s1)
  end.

(** A session opened on a store. *)
Definition begin (st : store) (draws : nat) : session :=
  {| committed := st; inserted := {| companies := []; products := [] |};
     pending := []; uuid_draws := draws |}.

(** The endpoint's answer: the 201 body, or the status of the
    [HTTPException] that leaves it. *)
Record response := {
  loaded : nat;
  skipped : nat;
  errors : option (list (json * exn))   (* company name, exception *)
}.

Inductive outcome :=
| Created (body : response)
| HttpError (status : nat).

Inductive staged := Loaded | Skipped.

(** Lines 98-105. *)
Fixpoint add_products (E : env) (company_id : json) (items : list json)
  (s : session) : result unit * session :=
  match items with
  | [] => (Ok tt, s)
  | JObj product_data :: rest =>
      let product_dict := dict_without "id" product_data in
      match dict_find "company_id" product_dict with
      | Some _ => (Raise TypeError, s)
      | None =>
          match construct E product_columns ["company"] product_dict with
          | Raise e => (Raise e, s)
          | Ok attrs =>
              add_products E company_id rest
                           (add (NewProduct company_id attrs) s)
          end
      end
  | _ :: _ => (Raise AttributeError, s)
  end.

(** The [try] block of lines 79-107 for one element of the list. *)
Definition stage_company (E : env) (company_data : json) (s : session)
  : result staged * session :=
  match company_data with
  | JObj d =>
      match dict_find "name" d with
      | None => (Raise (KeyError "name"), s)
      | Some name =>
          match company_exists E name s with
          | (Raise e, s1) => (Raise e, s1)
          | (Ok true, s1) => (Ok Skipped, s1)
          | (Ok false, s1) =>
              let products_data :=
                match dict_find "products" d with
                | Some v => v
                | None => JArr []
                end in
              let company_dict := dict_without "id" (dict_without "products" d) in
              match construct E company_columns ["products"] company_dict with
              | Raise e => (Raise e, s1)
              | Ok attrs =>
                  match flush E (add (NewCompany attrs) s1) with
                  | (Raise e, s2) => (Raise e, s2)
                  | (Ok ids, s2) =>
                      let new_company_id := List.last ids JNull in
                      match iter products_data with
                      | Raise e => (Raise e, s2)
                      | Ok items =>
                          match add_products E new_company_id items s2 with
                          | (Raise e, s3) => (Raise e, s3)
                          | (Ok _, s3) => (Ok Loaded, s3)
                          end
                      end
                  end
              end
          end
      end
  | _ => (Raise TypeError, s)
  end.

(** The loop of lines 77-115 with its three counters. An exception of
    the handler itself (no [get] on a value that is not a dict) leaves
    the loop. *)
Fixpoint stage_all (E : env) (items : list json) (loaded_count skipped_count : nat)
  (errs : list (json * exn)) (s : session)
  : result (nat * nat * list (json * exn)) * session :=
  match items with
  | [] => (Ok (loaded_count, skipped_count, errs), s)
  | company_data :: rest =>
      match stage_company E company_data s with
      | (Ok Loaded, s1) => stage_all E rest (S loaded_count) skipped_count errs s1
      | (Ok Skipped, s1) => stage_all E rest loaded_count (S skipped_count) errs s1
      | (Raise e, s1) =>
          let s2 := rollback s1 in
          match get company_data "name" (JStr "Unknown") with
          | Raise e' => (Raise e', s2)
          | Ok name => stage_all E rest loaded_count skipped_count
                                 (errs ++ [(name, e)]) s2
          end
      end
  end.

(** Lines 47-144. The 400 raised for an empty list at line 68 and the
    500 raised at line 122 are themselves caught at line 139. *)
Definition load_data_from_json (E : env) (f : file) (s : session)
  : outcome * session :=
  match f with
  | Absent => (HttpError 404, s)
  | Unreadable => (HttpError 500, rollback s)
  | Undecodable => (HttpError 400, s)
  | Holds data =>
      match get data "companies" (JArr []) with
      | Raise _ => (HttpError 500, rollback s)
      | Ok companies_data =>
          if negb (truthy companies_data) then (HttpError 500, rollback s)
          else
            match iter companies_data with
            | Raise _ => (HttpError 500, rollback s)
            | Ok items =>
                match stage_all E items 0 0 [] s with
                | (Raise _, s1) => (HttpError 500, rollback s1)
                | (Ok (loaded_count, skipped_count, errs), s1) =>
                    match commit E s1 with
                    | (Raise _, s2) => (HttpError 500, rollback (rollback s2))
                    | (Ok _, s2) =>
                        (Created
                           {| loaded := loaded_count;
                              skipped := skipped_count;
                              errors := match errs with
                                        | [] => None
                                        | _ => Some errs
                                        end |}, s2)
                    end
                end
            end
      end
  end.

(** The elements of the ["companies"] list of an input file. *)
Definition file_companies (f : file) : list json :=
  match f with
  | Holds data =>
      match get data "companies" (JArr []) with
      | Ok companies_data =>
          match iter companies_data with
          | Ok items => items
          | Raise _ => []
          end
      | Raise _ => []
      end
  | _ => []
  end.

(** A company record with a name the query can look for, and found by
    it among the rows the session sees. *)
Definition found (s : session) (c : json) : Prop :=
  exists d v, c = JObj d /\ dict_find "name" d = Some v /\ bindable v = true
              /\ List.existsb (name_matches v) (visible_companies s) = true.

Definition attrs_of (o : pending_object) : list (string * json) :=
  match o with NewCompany attrs => attrs | NewProduct _ attrs => attrs end.

(** [id] is the string of one of the UUID draws [lo], ..., [hi - 1]. *)
Definition drawn (E : env) (lo hi : nat) (id : json) : Prop :=
  exists k, (lo <= k < hi)%nat /\ id = JStr (uuid4 E k).

(** Every row the session sees is a row of the store [st] or has a key
    drawn since draw [lo], and no pending object was given an [id]. *)
Definition keys_drawn (E : env) (st : store) (lo : nat) (s : session) : Prop :=
  (lo <= uuid_draws s)%nat
  /\ (forall r, In r (visible_companies s) ->
        In r (companies st) \/ drawn E lo (uuid_draws s) (co_id r))
  /\ (forall r, In r (visible_products s) ->
        In r (products st) \/ drawn E lo (uuid_draws s) (pr_id r))
  /\ (forall o, In o (pending s) -> is_null (column "id" (attrs_of o)) = true).

(** An input file with every ["id"] key removed from its company
    records and from their product records. *)
Definition without_id (v : json) : json :=
  match v with
  | JObj d => JObj (dict_without "id" d)
  | _ => v
  end.

Definition list_without_ids (v : json) : json :=
  match v with JArr items => JArr (List.map without_id items) | _ => v end.

Definition products_without_ids (kv : string * json) : string * json :=
  match kv with
  | (k, JArr items) =>
      if String.eqb k "products" then (k, JArr (List.map without_id items))
      else kv
  | _ => kv
  end.

Definition company_without_ids (c : json) : json :=
  match c with
  | JObj d => JObj (List.map products_without_ids (dict_without "id" d))
  | _ => c
  end.

Definition companies_without_ids (kv : string * json) : string * json :=
  match kv with
  | (k, JArr items) =>
      if String.eqb k "companies"
      then (k, JArr (List.map company_without_ids items))
      else kv
  | _ => kv
  end.

Definition file_without_ids (f : file) : file :=
  match f with
  | Holds (JObj d) => Holds (JObj (List.map companies_without_ids d))
  | _ => f
  end.

End Ingest.

(** ** Sample inputs *)

Module Samples.
Import Generator.

Definition product (name : string) : json :=
  JObj [("name", JStr name); ("description", JStr "Tracks invoices.");
        ("target_audience", JStr "SMBs with 20-150 employees");
        ("key_features", JStr "Feature 1");
        ("pricing_model", JStr "Subscription")].

Definition company (name : string) (product_names : list string) : json :=
  JObj [("name", JStr name); ("tagline", JStr "Simple books");
        ("description", JStr "A bookkeeping startup.");
        ("industry", JStr "SaaS"); ("founded_year", JNum 2020);
        ("employee_count", JNum 12); ("headquarters", JStr "Pune, India");
        ("website_url", JStr "www.acme.com");
        ("products", JArr (List.map product product_names))].

(** An API that answers every call with the same record. *)
Definition constant_api (answer : json) : env :=
  {| messages_create := fun _ _ => Ok "{...}";
     json_loads := fun _ => Ok answer;
     random_draw := fun _ => 0%nat;
     time_time := fun _ => 0%Q;
     input_line := "y" |}.

(** An API whose every call fails. *)
Definition failing_api : env :=
  {| messages_create := fun _ _ => Raise (OtherError "APIConnectionError");
     json_loads := fun _ => Raise (OtherError "JSONDecodeError");
     random_draw := fun _ => 0%nat;
     time_time := fun _ => 0%Q;
     input_line := "y" |}.

Definition saas : industry_info :=
  {| focus := "software as a service, business tools, productivity, automation";
     products := ["project management"; "CRM systems";
                  "automation tools"; "collaboration platforms"] |}.

(** A fresh process in an empty directory, with given registries. *)
Definition start (company_names product_names : gset string) : world :=
  {| used_company_names := company_names;
     used_product_names := product_names;
     progress_file := Absent; output_file := Absent;
     api_calls := 0; draws := 0; clock_reads := 0; slept_ms := 0%N;
     stdout := [] |}.

End Samples.

Module IngestSamples.
Import Ingest.

Definition product (id name : string) : json :=
  JObj [("id", JStr id); ("name", JStr name);
        ("description", JStr "Tracks invoices.");
        ("target_audience", JStr "SMBs with 20-150 employees");
        ("key_features", JStr "Feature 1");
        ("pricing_model", JStr "Subscription")].

Definition company (id name : string) (products : list json) : json :=
  JObj [("id", JStr id); ("name", JStr name); ("tagline", JStr "Simple books");
        ("description", JStr "A bookkeeping startup.");
        ("industry", JStr "SaaS"); ("founded_year", JNum 2020);
        ("employee_count", JNum 12); ("headquarters", JStr "Pune, India");
        ("website_url", JStr "www.acme.com");
        ("products", JArr products)].

(** A record without a name. *)
Definition nameless : json := JObj [("tagline", JStr "No name given")].

Definition input (companies : list json) : file :=
  Holds (JObj [("companies", JArr companies)]).

(** UUIDs "u0", "u1", ... for the first ten draws. *)
Definition uuids : env :=
  {| uuid4 := fun n => String "u" (String (ascii_of_nat (48 + n)) EmptyString);
     autoflush := true;
     other_attribute := fun _ => false |}.

Definition empty_store : store := {| companies := []; products := [] |}.

End IngestSamples.

(** A string of whitespace only. *)
Fixpoint blank (s : string) : bool :=
  match s with
  | EmptyString => true
  | String c s' => PyStr.is_space c && blank s'
  end.

Module Records.
Import Py.

(** [name.lower().strip()] *)
Definition normal (s : string) : string := PyStr.strip (PyStr.lower s).

(** The name of a company record, when it is a string. *)
Definition company_name (c : json) : option string :=
  match c with
  | JObj d => match dict_find "name" d with
              | Some (JStr s) => Some s
              | _ => None
              end
  | _ => None
  end.

Definition item_name (p : json) : list string :=
  match p with
  | JObj d => match dict_find "name" d with
              | Some (JStr s) => [s]
              | _ => []
              end
  | _ => []
  end.

(** The names of the products of a company record. *)
Definition product_names (c : json) : list string :=
  match c with
  | JObj d => match dict_find "products" d with
              | Some (JArr ps) => List.flat_map item_name ps
              | _ => []
              end
  | _ => []
  end.

(** What a step of the generator leaves as it was: everything but the
    API call counter, the time slept and the two registries. *)
Definition same_surroundings (w w' : Generator.world) : Prop :=
  Generator.progress_file w' = Generator.progress_file w
  /\ Generator.output_file w' = Generator.output_file w
  /\ Generator.draws w' = Generator.draws w
  /\ Generator.clock_reads w' = Generator.clock_reads w
  /\ Generator.stdout w' = Generator.stdout w.

End Records.

Module MoreSamples.
Import Generator.

(** An API whose first four calls fail and whose later calls answer
    with the same record. *)
Definition late_api (answer : json) : env :=
  {| messages_create := fun n _ =>
       if (n <? 4)%nat then Raise (OtherError "APIConnectionError")
       else Ok "{...}";
     json_loads := fun _ => Ok answer;
     random_draw := fun _ => 0%nat;
     time_time := fun _ => 0%Q;
     input_line := "y" |}.

(** An API that answers its first call with one record and every later
    call with another. *)
Definition scripted_api (first later : json) : env :=
  {| messages_create := fun n _ =>
       if (n =? 0)%nat then Ok "first" else Ok "later";
     json_loads := fun text =>
       if String.eqb text "first" then Ok first else Ok later;
     random_draw := fun _ => 0%nat;
     time_time := fun _ => 0%Q;
     input_line := "y" |}.

End MoreSamples.

(** [sep not in s] *)
Fixpoint free_of (sep : ascii) (s : string) : bool :=
  match s with
  | EmptyString => true
  | String c s' => negb (Ascii.eqb c sep) && free_of sep s'
  end.

(** A company record with a list of 3 or 4 products. *)
Definition three_or_four (c : json) : Prop :=
  Generator.product_count c = Some 3%nat \/ Generator.product_count c = Some 4%nat.

(** The number of per-company errors of a response. *)
Definition error_count (body : Ingest.response) : nat :=
  match Ingest.errors body with
  | Some errs => List.length errs
  | None => O
  end.

(** No company is waiting to be flushed. *)
Definition only_products_pending (s : Ingest.session) : Prop :=
  Forall (fun o => Ingest.is_new_company o = false) (Ingest.pending s).

(** ** [schemas.py] and the other endpoints of [main.py] *)

Module Crud.
Import Py Ingest.

(** What a request gets back: the value the handler returns (before the
    framework serialises it by the [response_model]), the status of the
    [HTTPException] it raises, the rejection of its parameters by their
    [Query] bounds (status 422), or an exception no handler catches. *)
Inductive answer (A : Type) :=
| Returns (body : A)
| HTTPException (status_code : nat)
| RequestValidationError
| Unhandled (e : exn).
Arguments Returns {A} body.
Arguments HTTPException {A} status_code.
Arguments RequestValidationError {A}.
Arguments Unhandled {A} e.

(** What a [Query] does before its SELECT: the session flushes what was
    added, if [autoflush] is set. *)
Definition autoflushed (E : env) (s : session) : result unit * session :=
  if autoflush E then
    match flush E s with
    | (Raise e, s1) => (Raise e, s1)
    | (Ok _, s1) => (Ok tt, s1)
    end
  else (Ok tt, s).

(** [db.query(Company).filter(p).first()] *)
Definition first_company (E : env) (p : company_row -> bool) (s : session)
  : result (option company_row) * session :=
  match autoflushed E s with
  | (Raise e, s1) => (Raise e, s1)
  | (Ok _, s1) => (Ok (List.find p (visible_companies s1)), s1)
  end.

(** [db.query(Product).filter(p).first()] *)
Definition first_product (E : env) (p : product_row -> bool) (s : session)
  : result (option product_row) * session :=
  match autoflushed E s with
  | (Raise e, s1) => (Raise e, s1)
  | (Ok _, s1) => (Ok (List.find p (visible_products s1)), s1)
  end.

(** [Company.id == company_id] and the like, on one row. *)
Definition has_id (company_id : string) (r : company_row) : bool :=
  sql_eq (co_id r) (JStr company_id).
Definition has_name (name : string) (r : company_row) : bool :=
  sql_eq (column "name" (co_attrs r)) (JStr name).
Definition has_industry (industry : string) (r : company_row) : bool :=
  sql_eq (column "industry" (co_attrs r)) (JStr industry).
Definition product_has_id (product_id : string) (r : product_row) : bool :=
  sql_eq (pr_id r) (JStr product_id).
Definition of_company (company_id : string) (r : product_row) : bool :=
  sql_eq (pr_company_id r) (JStr company_id).
Definition has_pricing_model (pricing_model : string) (r : product_row) : bool :=
  sql_eq (column "pricing_model" (pr_attrs r)) (JStr pricing_model).

(** A filter applied only [if value:], that is for a parameter that was
    given and is not the empty string. *)
Definition filter_if {A} (value : option string) (p : string -> A -> bool)
  (query : list A) : list A :=
  match value with
  | Some v => if String.eqb v EmptyString then query else List.filter (p v) query
  | None => query
  end.

(** The dict a list endpoint returns; [rows] is its ["companies"] or
    ["products"] entry. *)
Record paginated (A : Type) := {
  total : nat;
  page : Z;
  per_page : Z;
  total_pages : Z;
  rows : list A
}.
Arguments total {A} p.
Arguments page {A} p.
Arguments per_page {A} p.
Arguments total_pages {A} p.
Arguments rows {A} p.

(** [math.ceil(total / per_page)] for [per_page >= 1]. The quotient is a
    float; for a table of fewer than 2^53 rows it is the correctly
    rounded quotient of two exact integers, which is an integer when the
    division is exact and otherwise lies strictly between the same two
    integers as the exact quotient, so that its ceiling is the exact
    one. *)
Definition ceil_div (total per_page : Z) : Z :=
  (- ((- total) / per_page))%Z.

(** Lines 166-182 and 325-341: the count, the page arithmetic, and
    [query.offset(offset).limit(per_page).all()] on the rows the query
    selects, in the order the table yields them. This is the statement
    for an offset the database can bind: an offset of 2^63 or more is no
    SQLite integer, and binding it raises [OverflowError]. Such an
    offset lies beyond the last page of any table. *)
Definition paginate {A} (page per_page : Z) (query : list A) : paginated A :=
  let total := List.length query in
  let total_pages := ceil_div (Z.of_nat total) per_page in
  let offset := ((page - 1) * per_page)%Z in
  {| total := total; page := page; per_page := per_page;
     total_pages := total_pages;
     rows := List.firstn (Z.to_nat per_page)
                         (List.skipn (Z.to_nat offset) query) |}.

(** The bounds [Query(1, ge=1)] and [Query(10, ge=1, le=1000)]. *)
Definition page_bounds (page per_page : Z) : bool :=
  (1 <=? page)%Z && (1 <=? per_page)%Z && (per_page <=? 1000)%Z.

(** Lines 148-182. The count and the page are two statements; the
    second has nothing left to flush. *)
Definition get_companies (E : env) (page per_page : Z)
  (industry : option string) (s : session)
  : answer (paginated company_row) * session :=
  if negb (page_bounds page per_page) then (RequestValidationError, s)
  else
    match autoflushed E s with
    | (Raise e, s1) => (Unhandled e, s1)
    | (Ok _, s1) =>
        let query := filter_if industry has_industry (visible_companies s1) in
        (Returns (paginate page per_page query), s1)
    end.

(** Lines 184-198. *)
Definition get_company_by_id (E : env) (company_id : string) (s : session)
  : answer company_row * session :=
  match first_company E (has_id company_id) s with
  | (Raise e, s1) => (Unhandled e, s1)
  | (Ok None, s1) => (HTTPException 404, s1)
  | (Ok (Some company), s1) => (Returns company, s1)
  end.

(** [company.products], the relationship collection of a company: the
    products whose [company_id] is its key. *)
Definition products_of (company : company_row) (s : session)
  : list product_row :=
  List.filter (fun r => sql_eq (pr_company_id r) (co_id company))
              (visible_products s).

(** [schemas.py], [CompanyCreate]: a body that passed validation. *)
Record CompanyCreate := {
  cc_name : string;
  cc_tagline : string;
  cc_description : string;
  cc_industry : string;
  cc_founded_year : Z;
  cc_employee_count : Z;
  cc_headquarters : string;
  cc_website_url : option string
}.

Definition optional (o : option string) : json :=
  match o with Some v => JStr v | None => JNull end.

(** [company.model_dump()] *)
Definition company_model_dump (company : CompanyCreate) : list (string * json) :=
  [("name", JStr (cc_name company)); ("tagline", JStr (cc_tagline company));
   ("description", JStr (cc_description company));
   ("industry", JStr (cc_industry company));
   ("founded_year", JNum (cc_founded_year company));
   ("employee_count", JNum (cc_employee_count company));
   ("headquarters", JStr (cc_headquarters company));
   ("website_url", optional (cc_website_url company))].

(** Lines 200-225. [db.refresh] reads the new row back, the last one of
    its table. *)
Definition create_company (E : env) (company : CompanyCreate) (s : session)
  : answer company_row * session :=
  match first_company E (has_name (cc_name company)) s with
  | (Raise e, s1) => (Unhandled e, s1)
  | (Ok (Some existing), s1) => (HTTPException 400, s1)
  | (Ok None, s1) =>
      match construct E company_columns ["products"] (company_model_dump company) with
      | Raise e => (HTTPException 500, rollback s1)
      | Ok attrs =>
          match commit E (add (NewCompany attrs) s1) with
          | (Raise e, s2) => (HTTPException 500, rollback s2)
          | (Ok _, s2) =>
              match List.rev (companies (committed s2)) with
              | new_company :: _ => (Returns new_company, s2)
              | [] => (HTTPException 500, rollback s2)
              end
          end
      end
  end.

(** The body of a successful DELETE of a company. *)
Record deleted := { company_name : json; deleted_products : nat }.

(** The rows left by [db.delete(company)]: the unit of work deletes the
    products of the relationship collection, then the company, each by
    its primary key. *)
Definition without_company (company : company_row) (st : store) : store :=
  {| companies :=
       List.filter (fun r => negb (sql_eq (co_id r) (co_id company)))
                   (companies st);
     products :=
       List.filter (fun r => negb (sql_eq (pr_company_id r) (co_id company)))
                   (products st) |}.

(** [db.commit()] with rows marked by [db.delete] or changed by
    [setattr]: what was added is flushed, the change [f] applied, and
    the transaction ends. *)
Definition commit_change (E : env) (f : store -> result store) (s : session)
  : result unit * session :=
  match commit E s with
  | (Raise e, s1) => (Raise e, s1)
  | (Ok _, s1) =>
      match f (committed s1) with
      | Raise e => (Raise e, s)
      | Ok st =>
          (Ok tt, {| committed := st; inserted := inserted s1;
                     pending := pending s1; uuid_draws := uuid_draws s1 |})
      end
  end.

(** Lines 270-300. [len(company.products)] loads the collection with a
    query of its own. *)
Definition delete_company (E : env) (company_id : string) (s : session)
  : answer deleted * session :=
  match first_company E (has_id company_id) s with
  | (Raise e, s1) => (Unhandled e, s1)
  | (Ok None, s1) => (HTTPException 404, s1)
  | (Ok (Some company), s1) =>
      match autoflushed E s1 with
      | (Raise e, s2) => (HTTPException 500, rollback s2)
      | (Ok _, s2) =>
          let product_count := List.length (products_of company s2) in
          match commit_change E (fun st => Ok (without_company company st)) s2 with
          | (Raise e, s3) => (HTTPException 500, rollback s3)
          | (Ok _, s3) =>
              (Returns {| company_name := column "name" (co_attrs company);
                          deleted_products := product_count |}, s3)
          end
      end
  end.

(** Lines 304-341. *)
Definition get_products (E : env) (page per_page : Z)
  (company_id pricing_model : option string) (s : session)
  : answer (paginated product_row) * session :=
  if negb (page_bounds page per_page) then (RequestValidationError, s)
  else
    match autoflushed E s with
    | (Raise e, s1) => (Unhandled e, s1)
    | (Ok _, s1) =>
        let query := filter_if company_id of_company (visible_products s1) in
        let query := filter_if pricing_model has_pricing_model query in
        (Returns (paginate page per_page query), s1)
    end.

(** Lines 343-357. *)
Definition get_product_by_id (E : env) (product_id : string) (s : session)
  : answer product_row * session :=
  match first_product E (product_has_id product_id) s with
  | (Raise e, s1) => (Unhandled e, s1)
  | (Ok None, s1) => (HTTPException 404, s1)
  | (Ok (Some product), s1) => (Returns product, s1)
  end.

(** [schemas.py], [ProductCreate]: a body that passed validation. *)
Record ProductCreate := {
  pc_name : string;
  pc_description : string;
  pc_target_audience : string;
  pc_key_features : string;
  pc_pricing_model : string;
  pc_company_id : string
}.

(** [product.model_dump()] *)
Definition product_model_dump (product : ProductCreate) : list (string * json) :=
  [("name", JStr (pc_name product));
   ("description", JStr (pc_description product));
   ("target_audience", JStr (pc_target_audience product));
   ("key_features", JStr (pc_key_features product));
   ("pricing_model", JStr (pc_pricing_model product));
   ("company_id", JStr (pc_company_id product))].

(** Lines 359-384. The [company_id] keyword is the row's foreign key,
    the other keywords its column values. *)
Definition create_product (E : env) (product : ProductCreate) (s : session)
  : answer product_row * session :=
  match first_company E (has_id (pc_company_id product)) s with
  | (Raise e, s1) => (Unhandled e, s1)
  | (Ok None, s1) => (HTTPException 404, s1)
  | (Ok (Some company), s1) =>
      let kwargs := product_model_dump product in
      match construct E product_columns ["company"]
                      (dict_without "company_id" kwargs) with
      | Raise e => (HTTPException 500, rollback s1)
      | Ok attrs =>
          match commit E (add (NewProduct (column "company_id" kwargs) attrs) s1) with
          | (Raise e, s2) => (HTTPException 500, rollback s2)
          | (Ok _, s2) =>
              match List.rev (products (committed s2)) with
              | new_product :: _ => (Returns new_product, s2)
              | [] => (HTTPException 500, rollback s2)
              end
          end
      end
  end.

(** The rows left by [db.delete(product)]. *)
Definition without_product (product : product_row) (st : store) : store :=
  {| companies := companies st;
     products :=
       List.filter (fun r => negb (sql_eq (pr_id r) (pr_id product)))
                   (products st) |}.

(** Lines 420-447; the answer carries the product's name. *)
Definition delete_product (E : env) (product_id : string) (s : session)
  : answer json * session :=
  match first_product E (product_has_id product_id) s with
  | (Raise e, s1) => (Unhandled e, s1)
  | (Ok None, s1) => (HTTPException 404, s1)
  | (Ok (Some product), s1) =>
      match commit_change E (fun st => Ok (without_product product st)) s1 with
      | (Raise e, s2) => (HTTPException 500, rollback s2)
      | (Ok _, s2) => (Returns (column "name" (pr_attrs product)), s2)
      end
  end.

(** A field of an update body: left out, given as [null], or given a
    value. *)
Inductive field (A : Type) :=
| Unset
| Null
| Given (value : A).
Arguments Unset {A}.
Arguments Null {A}.
Arguments Given {A} value.

(** [schemas.py], [CompanyUpdate]: a body that passed validation. *)
Record CompanyUpdate := {
  cu_name : field string;
  cu_tagline : field string;
  cu_description : field string;
  cu_industry : field string;
  cu_founded_year : field Z;
  cu_employee_count : field Z;
  cu_headquarters : field string;
  cu_website_url : field string
}.

(** [schemas.py], [ProductUpdate]. *)
Record ProductUpdate := {
  pu_name : field string;
  pu_description : field string;
  pu_target_audience : field string;
  pu_key_features : field string;
  pu_pricing_model : field string
}.

Definition dump_field {A} (key : string) (to_json : A -> json) (f : field A)
  : list (string * json) :=
  match f with
  | Unset => []
  | Null => [(key, JNull)]
  | Given value => [(key, to_json value)]
  end.

(** [company_update.model_dump(exclude_unset=True)] *)
Definition company_update_dump (u : CompanyUpdate) : list (string * json) :=
  dump_field "name" JStr (cu_name u)
  ++ dump_field "tagline" JStr (cu_tagline u)
  ++ dump_field "description" JStr (cu_description u)
  ++ dump_field "industry" JStr (cu_industry u)
  ++ dump_field "founded_year" JNum (cu_founded_year u)
  ++ dump_field "employee_count" JNum (cu_employee_count u)
  ++ dump_field "headquarters" JStr (cu_headquarters u)
  ++ dump_field "website_url" JStr (cu_website_url u).

(** [product_update.model_dump(exclude_unset=True)] *)
Definition product_update_dump (u : ProductUpdate) : list (string * json) :=
  dump_field "name" JStr (pu_name u)
  ++ dump_field "description" JStr (pu_description u)
  ++ dump_field "target_audience" JStr (pu_target_audience u)
  ++ dump_field "key_features" JStr (pu_key_features u)
  ++ dump_field "pricing_model" JStr (pu_pricing_model u).

(** [setattr(row, field, value)] on the column values of a row. *)
Fixpoint setattr (attrs : list (string * json)) (field : string) (value : json)
  : list (string * json) :=
  match attrs with
  | [] => [(field, value)]
  | (k, v) :: rest =>
      if String.eqb k field then (k, value) :: rest
      else (k, v) :: setattr rest field value
  end.

(** The loop of lines 257-258 and 407-408. *)
Definition setattrs (attrs update_data : list (string * json))
  : list (string * json) :=
  List.fold_left (fun a kv => setattr a (fst kv) (snd kv)) update_data attrs.

(** A [nullable=False] column set to NULL by an UPDATE. *)
Definition nulls_required (required : list string)
  (update_data : list (string * json)) : bool :=
  List.existsb (fun kv => mem (fst kv) required && is_null (snd kv)) update_data.

(** The UPDATE of a company: the changed columns of the row with the
    key of [company]; [name] stays unique. *)
Definition with_company (company : company_row)
  (update_data : list (string * json)) (st : store) : result store :=
  let attrs := setattrs (co_attrs company) update_data in
  if nulls_required company_required update_data then Raise IntegrityError
  else if negb (sql_eq (column "name" (co_attrs company)) (column "name" attrs))
          && List.existsb
               (fun r => negb (sql_eq (co_id r) (co_id company))
                         && sql_eq (column "name" (co_attrs r))
                                   (column "name" attrs))
               (companies st)
  then Raise IntegrityError
  else
    Ok {| companies :=
            List.map (fun r => if sql_eq (co_id r) (co_id company)
                               then {| co_id := co_id r;
                                       co_attrs := setattrs (co_attrs r) update_data |}
                               else r)
                     (companies st);
          products := products st |}.

(** The UPDATE of a product. *)
Definition with_product (product : product_row)
  (update_data : list (string * json)) (st : store) : result store :=
  if nulls_required product_required update_data then Raise IntegrityError
  else
    Ok {| companies := companies st;
          products :=
            List.map (fun r => if sql_eq (pr_id r) (pr_id product)
                               then {| pr_id := pr_id r;
                                       pr_company_id := pr_company_id r;
                                       pr_attrs := setattrs (pr_attrs r) update_data |}
                               else r)
                     (products st) |}.

(** [company_update.name], and its truth value in a condition. *)
Definition field_truthy (f : field string) : option string :=
  match f with
  | Given value => if String.eqb value EmptyString then None else Some value
  | _ => None
  end.

(** Lines 227-268. *)
Definition update_company (E : env) (company_id : string)
  (company_update : CompanyUpdate) (s : session)
  : answer company_row * session :=
  match first_company E (has_id company_id) s with
  | (Raise e, s1) => (Unhandled e, s1)
  | (Ok None, s1) => (HTTPException 404, s1)
  | (Ok (Some company), s1) =>
      let conflict :=
        match field_truthy (cu_name company_update) with
        | Some name =>
            if negb (is_str name (column "name" (co_attrs company)))
            then first_company E (has_name name) s1
            else (Ok None, s1)
        | None => (Ok None, s1)
        end in
      match conflict with
      | (Raise e, s2) => (Unhandled e, s2)
      | (Ok (Some existing), s2) => (HTTPException 400, s2)
      | (Ok None, s2) =>
          let update_data := company_update_dump company_update in
          match commit_change E (with_company company update_data) s2 with
          | (Raise e, s3) => (HTTPException 500, rollback s3)
          | (Ok _, s3) =>
              match List.find (has_id company_id) (companies (committed s3)) with
              | Some company' => (Returns company', s3)
              | None => (HTTPException 500, rollback s3)
              end
          end
      end
  end.

(** Lines 386-418. *)
Definition update_product (E : env) (product_id : string)
  (product_update : ProductUpdate) (s : session)
  : answer product_row * session :=
  match first_product E (product_has_id product_id) s with
  | (Raise e, s1) => (Unhandled e, s1)
  | (Ok None, s1) => (HTTPException 404, s1)
  | (Ok (Some product), s1) =>
      let update_data := product_update_dump product_update in
      match commit_change E (with_product product update_data) s1 with
      | (Raise e, s2) => (HTTPException 500, rollback s2)
      | (Ok _, s2) =>
          match List.find (product_has_id product_id)
                          (products (committed s2)) with
          | Some product' => (Returns product', s2)
          | None => (HTTPException 500, rollback s2)
          end
      end
  end.

(** Lines 451-472: the two counts of the ["statistics"] entry. *)
Definition health_check (E : env) (s : session) : answer (nat * nat) * session :=
  match autoflushed E s with
  | (Raise e, s1) => (HTTPException 503, s1)
  | (Ok _, s1) =>
      (Returns (List.length (visible_companies s1),
                List.length (visible_products s1)), s1)
  end.

(** The row a [create_company] stores when the session has made [draws]
    UUID draws. *)
Definition created (E : env) (c : CompanyCreate) (draws : nat) : company_row :=
  {| co_id := JStr (uuid4 E draws); co_attrs := company_model_dump c |}.

(** The row a [create_product] stores. *)
Definition created_product (E : env) (p : ProductCreate) (draws : nat)
  : product_row :=
  {| pr_id := JStr (uuid4 E draws);
     pr_company_id := JStr (pc_company_id p);
     pr_attrs := dict_without "company_id" (product_model_dump p) |}.

(** Every product refers to a stored company. *)
Definition referential (st : store) : Prop :=
  forall p, In p (products st) ->
    List.existsb (fun r => sql_eq (co_id r) (pr_company_id p)) (companies st)
    = true.

(** The rows of a page that was answered. *)
Definition rows_of {A} (a : answer (paginated A)) : list A :=
  match a with Returns r => rows r | _ => [] end.

End Crud.

(** ** The orchestrator with the encoding of what it writes

    [print] and [json.dump(..., ensure_ascii=False)] encode their text
    as UTF-8 and raise [UnicodeEncodeError] on a string that cannot be
    encoded (a lone surrogate, which [json.loads] accepts as an escape).
    [Generator] describes the writes that succeed; here a write may
    fail, and the loop of [generate_all_data] may be left by the
    exception. Which strings can be encoded is given by [utf8]. *)

Module Utf8.
Import PyStr Py Registry Generator.

Definition UnicodeEncodeError : exn := OtherError "UnicodeEncodeError".

(** Every string of a document, keys included, can be encoded. *)
Fixpoint dumps (utf8 : string -> bool) (v : json) : bool :=
  match v with
  | JStr s => utf8 s
  | JArr items => List.forallb (dumps utf8) items
  | JObj members =>
      (fix members_dump (d : list (string * json)) : bool :=
         match d with
         | [] => true
         | (k, x) :: d' => utf8 k && dumps utf8 x && members_dump d'
         end) members
  | _ => true
  end.

(** The document [save_progress] dumps (lines 44-51). *)
Definition progress_data (E : env) (companies : json) (current_index : Z)
  (w : world) : json :=
  JObj [ ("companies", companies);
         ("current_index", JNum current_index);
         ("total_target", JNum (Z.of_nat TOTAL_COMPANIES));
         ("used_company_names", names_json (used_company_names w));
         ("used_product_names", names_json (used_product_names w));
         ("last_updated", JFloat (time_time E (clock_reads w))) ].

(** The text of that document can be encoded: its keys are literals,
    its strings those of [companies] and of the two registries. *)
Definition checkpoint_dumps (utf8 : string -> bool) (companies : json)
  (w : world) : bool :=
  dumps utf8 companies
  && List.forallb utf8 (elements (used_company_names w))
  && List.forallb utf8 (elements (used_product_names w)).

(** Lines 42-54. The file is opened for writing, which empties it, and
    the dump writes the document piece by piece: when a piece cannot be
    encoded the file is left with a proper prefix of the document, which
    is not JSON. *)
Definition save_progress (utf8 : string -> bool) (E : env) (companies : json)
  (current_index : Z) : M unit :=
  fun w =>
    if checkpoint_dumps utf8 companies w
    then (Ok tt,
          set_progress_file (Holds (progress_data E companies current_index w))
                            (count_clock_read w))
    else (Raise UnicodeEncodeError,
          set_progress_file Undecodable (count_clock_read w)).

(** The text of a line can be encoded. Only the line of line 229 holds
    text of a record, the company name; a name that is not a [str] is
    formatted by [repr], which escapes what cannot be printed. The
    messages of the exceptions printed at lines 68 and 235 are taken to
    be encodable. *)
Definition printable (utf8 : string -> bool) (l : line) : bool :=
  match l with
  | Generated (JStr name) _ => utf8 name
  | _ => true
  end.

(** [print]: the line is encoded before any of it is written. *)
Definition print (utf8 : string -> bool) (l : line) : M unit :=
  fun w =>
    if printable utf8 l then (Ok tt, Generator.print l w)
    else (Raise UnicodeEncodeError, w).

(** The [try] block of lines 226-232. *)
Definition iteration_try (utf8 : string -> bool) (E : env) (i : Z)
  (industry : string) (info : industry_info) (all_companies : json) (w : world)
  : result unit * json * world :=
  match generate_company_data E industry info w with
  | (Raise e, w1) => (Raise e, all_companies, w1)
  | (Ok company, w1) =>
      match append all_companies company with
      | Raise e => (Raise e, all_companies, w1)
      | Ok all_companies' =>
          match getitem company "name" with
          | Raise e => (Raise e, all_companies', w1)
          | Ok name =>
              match getitem company "products" with
              | Raise e => (Raise e, all_companies', w1)
              | Ok prods =>
                  match len prods with
                  | Raise e => (Raise e, all_companies', w1)
                  | Ok n =>
                      match print utf8 (Generated name n) w1 with
                      | (Raise e, w2) => (Raise e, all_companies', w2)
                      | (Ok _, w2) =>
                          match save_progress utf8 E all_companies' (i + 1) w2 with
                          | (Raise e, w3) => (Raise e, all_companies', w3)
                          | (Ok _, w3) => (Ok tt, all_companies', sleep 1200%N w3)
                          end
                      end
                  end
              end
          end
      end
  end.

(** The body of the loop of line 221, lines 222-237: an exception
    raised in the handler itself leaves the loop. *)
Definition iteration (utf8 : string -> bool) (E : env) (i : Z)
  (st : json * world) : result json * world :=
  let '(all_companies, w) := st in
  let '(industry, info) := pick_industry E w in
  match print utf8 (Generating (i + 1) industry) (count_draw w) with
  | (Raise e, w0) => (Raise e, w0)
  | (Ok _, w0) =>
      match iteration_try utf8 E i industry info all_companies w0 with
      | (Ok _, all_companies', w') => (Ok all_companies', w')
      | (Raise e, all_companies', w') =>
          match print utf8 (Failed e) w' with
          | (Raise e', w1) => (Raise e', w1)
          | (Ok _, w1) =>
              match save_progress utf8 E all_companies' i w1 with
              | (Raise e', w2) => (Raise e', w2)
              | (Ok _, w2) => (Ok all_companies', w2)
              end
          end
      end
  end.

Fixpoint iterations (utf8 : string -> bool) (E : env) (indices : list Z)
  (st : json * world) : result json * world :=
  match indices with
  | [] => (Ok (fst st), snd st)
  | i :: rest =>
      match iteration utf8 E i st with
      | (Raise e, w) => (Raise e, w)
      | (Ok all_companies, w) => iterations utf8 E rest (all_companies, w)
      end
  end.

(** Lines 239-247: the final dump may fail as a checkpoint dump does. *)
Definition completion (utf8 : string -> bool) (all_companies : json) : M unit :=
  fun w =>
    if dumps utf8 all_companies then Generator.completion all_companies w
    else (Raise UnicodeEncodeError, set_output_file Undecodable w).

(** Lines 201-237. *)
Definition generation (utf8 : string -> bool) (E : env) (resume : bool)
  (w : world) : option (result json * world) :=
  match resume_check E resume w with
  | None => None
  | Some (Raise e, w1) => Some (Raise e, w1)
  | Some (Ok (existing_companies, start_index), w1) =>
      match as_index start_index with
      | Raise e => Some (Raise e, w1)
      | Ok start =>
          Some (iterations utf8 E (range start (Z.of_nat TOTAL_COMPANIES))
                           (existing_companies, w1))
      end
  end.

Definition generate_all_data (utf8 : string -> bool) (E : env) (resume : bool)
  (w : world) : option (result unit * world) :=
  match generation utf8 E resume w with
  | None => None
  | Some (Raise e, w1) => Some (Raise e, w1)
  | Some (Ok all_companies, w1) => Some (completion utf8 all_companies w1)
  end.

(** A lone surrogate as its three bytes, and the strings without one:
    those that are valid UTF-8 in this respect. *)
Definition surrogate : string :=
  String (ascii_of_nat 237) (String (ascii_of_nat 160)
    (String (ascii_of_nat 128) EmptyString)).

Fixpoint no_surrogate (s : string) : bool :=
  match s with
  | String a ((String b _) as s') =>
      negb ((nat_of_ascii a =? 237)%nat && (160 <=? nat_of_ascii b)%nat)
      && no_surrogate s'
  | _ => true
  end.

End Utf8.

Module Utf8Samples.

(** A company name that holds a lone surrogate, and a record with it. *)
Definition name : string := "Acme " ++ Utf8.surrogate.

Definition company : json :=
  Samples.company name ["Ledger"; "Payroll"; "Taxes"].

End Utf8Samples.

(** * Properties *)

(** ** Strings *)

Section StringFacts.
Import PyStr.

Lemma split_from_lstrip (s : string) :
  split_from EmptyString (lstrip s) = split_from EmptyString s.
Proof.
  induction s as [|c s IH]; simpl; [reflexivity|].
  destruct (is_space c) eqn:Hc; [exact IH|].
  simpl. rewrite Hc. reflexivity.
Qed.

Lemma split_from_rstrip (s : string) :
  forall tok, split_from tok (rstrip s) = split_from tok s.
Proof.
  induction s as [|c s IH]; intros tok; simpl; [reflexivity|].
  destruct (rstrip s) as [|a r] eqn:Hr.
  - destruct (is_space c) eqn:Hc; simpl.
    + rewrite <- (IH EmptyString). simpl. destruct tok; reflexivity.
    + rewrite Hc. rewrite <- IH. reflexivity.
  - cbn [split_from]. rewrite <- !IH. reflexivity.
Qed.

Lemma split_strip (s : string) : split (strip s) = split s.
Proof.
  unfold split, strip. rewrite split_from_rstrip. apply split_from_lstrip.
Qed.

Lemma append_not_empty (a : string) (c : ascii) :
  (a ++ String c EmptyString)%string <> EmptyString.
Proof. destruct a; discriminate. Qed.

Lemma split_from_nil (s : string) :
  forall tok, split_from tok s = [] -> tok = EmptyString /\ lstrip s = EmptyString.
Proof.
  induction s as [|c s IH]; intros tok; simpl.
  - destruct tok; [auto | discriminate].
  - destruct (is_space c) eqn:Hc.
    + destruct tok; [|discriminate]. intros H. apply IH in H. tauto.
    + intros H. apply IH in H. destruct H as [H _].
      exfalso. exact (append_not_empty _ _ H).
Qed.

Lemma split_nil_strip (s : string) : split s = [] -> strip s = EmptyString.
Proof.
  intros H. apply split_from_nil in H. destruct H as [_ H].
  unfold strip. rewrite H. reflexivity.
Qed.

End StringFacts.

(** ** Name registry *)

Section RegistryFacts.
Import PyStr Registry.

Lemma set_truthy_size (s : gset string) :
  set_truthy s = true <-> (0 < size s)%nat.
Proof.
  unfold set_truthy. destruct (size s =? 0)%nat eqn:H; simpl.
  - apply Nat.eqb_eq in H. split; [discriminate | lia].
  - apply Nat.eqb_neq in H. split; [lia | reflexivity].
Qed.

Lemma set_truthy_empty (s : gset string) :
  set_truthy s = false <-> s = ∅.
Proof.
  unfold set_truthy. destruct (size s =? 0)%nat eqn:H; simpl.
  - apply Nat.eqb_eq in H. apply size_empty_iff in H.
    split; [intros _; apply leibniz_equiv; exact H | reflexivity].
  - apply Nat.eqb_neq in H. split; [discriminate|].
    intros ->. exfalso. apply H. apply size_empty.
Qed.

(** The guarded division never fails: on non-empty sets the loop body
    computes exactly [overlap_ratio]. *)
Lemma truediv_guarded (a b : gset string) :
  set_truthy a = true ->
  py_truediv (size (a ∩ b)) (Nat.max (size a) (size b)) = Ok (overlap_ratio a b).
Proof.
  intros Ha. apply set_truthy_size in Ha. unfold py_truediv, overlap_ratio.
  destruct (Nat.max (size a) (size b)) eqn:Hm; [lia | reflexivity].
Qed.

(** The loop of lines 80-85 answers whether some entry is a near
    duplicate, whatever the order of enumeration. *)
Lemma scan_existing_existsb (name_words : gset string) (entries : list string) :
  scan_existing name_words entries
  = Ok (List.existsb (near_duplicate name_words) entries).
Proof.
  induction entries as [|e rest IH]; simpl; [reflexivity|].
  unfold near_duplicate at 1.
  destruct (set_truthy name_words) eqn:Hn; simpl; [|exact IH].
  destruct (set_truthy (words e)) eqn:He; simpl; [|exact IH].
  rewrite (truediv_guarded _ _ Hn).
  destruct (Qle_bool (7 # 10) (overlap_ratio name_words (words e))); simpl;
    [reflexivity | exact IH].
Qed.

Lemma is_duplicate_company_eq (used : gset string) (name : string) :
  is_duplicate_company used name
  = Ok (bool_decide (strip (lower name) ∈ used)
        || List.existsb (near_duplicate (words (strip (lower name))))
                        (elements used)).
Proof.
  unfold is_duplicate_company. rewrite scan_existing_existsb.
  destruct (bool_decide (strip (lower name) ∈ used)); reflexivity.
Qed.

Lemma existsb_elements (f : string -> bool) (used : gset string) :
  List.existsb f (elements used) = true <-> exists e, e ∈ used /\ f e = true.
Proof.
  rewrite List.existsb_exists. split; intros (e & He & Hf); exists e; split; auto.
  - apply elem_of_elements, list_elem_of_In; exact He.
  - apply list_elem_of_In, elem_of_elements; exact He.
Qed.

Lemma words_strip (s : string) : words (strip s) = words s.
Proof. unfold words. rewrite split_strip. reflexivity. Qed.

Lemma overlap_ratio_comm (a b : gset string) :
  overlap_ratio a b = overlap_ratio b a.
Proof.
  unfold overlap_ratio.
  rewrite (Nat.max_comm (size a)).
  replace (a ∩ b) with (b ∩ a) by (apply leibniz_equiv; set_solver).
  reflexivity.
Qed.

Lemma overlap_ratio_truthy (a b : gset string) :
  (7 # 10 <= overlap_ratio a b)%Q -> set_truthy a = true /\ set_truthy b = true.
Proof.
  unfold overlap_ratio, Qle. simpl. intros H.
  assert (Hi : (0 < size (a ∩ b))%nat) by lia.
  assert (Ha : (size (a ∩ b) <= size a)%nat) by (apply subseteq_size; set_solver).
  assert (Hb : (size (a ∩ b) <= size b)%nat) by (apply subseteq_size; set_solver).
  split; apply set_truthy_size; lia.
Qed.

End RegistryFacts.

Section RegistryClaims.
Import PyStr Registry.

(** C3. Once [A] is registered (stored lowercased and trimmed),
    [is_duplicate_company B] answers true whenever [B] equals [A] after
    lowercasing and trimming, or the token-overlap ratio of the two names
    is at least 0.7. *)
Theorem registered_name_blocks_near_duplicates
  (used : gset string) (A B : string) :
  strip (lower B) = strip (lower A)
  \/ (7 # 10 <= overlap_ratio (words (lower A)) (words (lower B)))%Q ->
  is_duplicate_company (register_name used A) B = Ok true.
Proof.
  intros H. rewrite is_duplicate_company_eq. f_equal.
  apply orb_true_iff. destruct H as [Hexact | Hratio].
  - left. apply bool_decide_eq_true. unfold register_name.
    rewrite Hexact. set_solver.
  - right. apply existsb_elements. exists (strip (lower A)). split.
    + unfold register_name. set_solver.
    + unfold near_duplicate. rewrite !words_strip.
      rewrite overlap_ratio_comm.
      destruct (overlap_ratio_truthy _ _ Hratio) as [Ha Hb].
      rewrite Ha, Hb. simpl. apply Qle_bool_iff. exact Hratio.
Qed.

Lemma registered_name_blocks_near_duplicates_witness :
  is_duplicate_company (register_name ∅ "Acme Data Labs") " ACME data Labs  " = Ok true
  /\ is_duplicate_company (register_name ∅ "a b c d e f g h i j")
                          "a b c d e f g x y z" = Ok true.
Proof.
  split.
  - apply registered_name_blocks_near_duplicates. left. vm_compute. reflexivity.
  - apply registered_name_blocks_near_duplicates. right. vm_compute.
    intros H; discriminate H.
Defined.

(** C9. [is_duplicate_company] always returns an answer: no division by
    zero arises. A queried name without tokens is flagged exactly when
    its normal form is in the registry, and a registered entry without
    tokens flags a name only by being equal to its normal form. *)
Theorem is_duplicate_company_total (used : gset string) (name : string) :
  (exists b, is_duplicate_company used name = Ok b)
  /\ (words (strip (lower name)) = ∅ ->
      is_duplicate_company used name
      = Ok (bool_decide (strip (lower name) ∈ used)))
  /\ (forall entry, words entry = ∅ ->
      (is_duplicate_company ({[ entry ]} ∪ used) name = Ok true
       <-> strip (lower name) = entry
           \/ is_duplicate_company used name = Ok true)).
Proof.
  split; [|split].
  - rewrite is_duplicate_company_eq. eauto.
  - intros Hw. rewrite is_duplicate_company_eq. f_equal.
    rewrite Hw.
    replace (List.existsb (near_duplicate ∅) (elements used)) with false.
    + apply orb_false_r.
    + symmetry. induction (elements used) as [|e l IH]; simpl; [reflexivity|].
      rewrite <- IH. reflexivity.
  - intros entry Hentry. rewrite !is_duplicate_company_eq.
    set (nw := words (strip (lower name))).
    assert (Hnear : near_duplicate nw entry = false).
    { unfold near_duplicate. rewrite Hentry.
      replace (set_truthy ∅) with false by reflexivity.
      rewrite andb_false_r. reflexivity. }
    split.
    + intros H. injection H as H. apply orb_true_iff in H.
      destruct H as [H | H].
      * apply bool_decide_eq_true in H. apply elem_of_union in H.
        destruct H as [H | H].
        -- left. apply elem_of_singleton in H. exact H.
        -- right. f_equal. apply orb_true_iff. left.
           apply bool_decide_eq_true. exact H.
      * apply existsb_elements in H. destruct H as (e & He & Hf).
        apply elem_of_union in He. destruct He as [He | He].
        -- apply elem_of_singleton in He. subst e. congruence.
        -- right. f_equal. apply orb_true_iff. right.
           apply existsb_elements. eauto.
    + intros [H | H]; f_equal; apply orb_true_iff.
      * left. apply bool_decide_eq_true. set_solver.
      * injection H as H. apply orb_true_iff in H. destruct H as [H | H].
        -- left. apply bool_decide_eq_true. apply bool_decide_eq_true in H.
           set_solver.
        -- right. apply existsb_elements. apply existsb_elements in H.
           destruct H as (e & He & Hf). exists e. split; [set_solver | exact Hf].
Qed.

Lemma is_duplicate_company_total_witness :
  is_duplicate_company {[ "acme" ]} "   " = Ok false
  /\ (is_duplicate_company ({[ "" ]} ∪ {[ "acme" ]}) "Acme Labs" = Ok true
      <-> strip (lower "Acme Labs") = ""
          \/ is_duplicate_company {[ "acme" ]} "Acme Labs" = Ok true).
Proof.
  split.
  - rewrite (proj1 (proj2 (is_duplicate_company_total {[ "acme" ]} "   ")));
      vm_compute; reflexivity.
  - apply (proj2 (proj2 (is_duplicate_company_total {[ "acme" ]} "Acme Labs"))).
    vm_compute. reflexivity.
Defined.

End RegistryClaims.

(** ** Record generator *)

Section GeneratorFacts.
Import PyStr Py Registry Generator.

Lemma bind_ok {A B} (m : M A) (k : A -> M B) (w w' : world) (b : B) :
  bind m k w = (Ok b, w') ->
  exists a w1, m w = (Ok a, w1) /\ k a w1 = (Ok b, w').
Proof.
  unfold bind. destruct (m w) as [[a|e] w1]; [eauto | discriminate].
Qed.

Lemma lift_ok {A} (r : result A) (w w' : world) (a : A) :
  lift r w = (Ok a, w') -> r = Ok a /\ w' = w.
Proof. unfold lift. intros H. injection H as -> ->. auto. Qed.

(** The product check passes only over named products, and changes
    nothing. *)
Lemma check_products_ok (attempt : nat) (items : list json) :
  forall w w', check_products attempt items w = (Ok tt, w') ->
               w' = w /\ Forall named items.
Proof.
  induction items as [|product rest IH]; intros w w' H; simpl in H.
  - injection H as <-. auto.
  - apply bind_ok in H. destruct H as (name & w1 & Hname & H).
    apply lift_ok in Hname. destruct Hname as [Hname ->].
    apply bind_ok in H. destruct H as (dup & w2 & Hdup & H).
    unfold is_duplicate_product_of in Hdup.
    destruct name as [| | | |s| |]; try discriminate Hdup.
    injection Hdup as <- <-.
    assert (Hn : named product).
    { unfold getitem in Hname. destruct product as [| | | | | |d]; try discriminate.
      destruct (dict_find "name" d) eqn:Hd; [|discriminate].
      injection Hname as ->. exists d, s. auto. }
    assert (Hrest : check_products attempt rest w = (Ok tt, w')).
    { destruct (is_duplicate_product (used_product_names w) s); [|exact H].
      destruct (attempt <? 4)%nat; [exact H | discriminate H]. }
    apply IH in Hrest. destruct Hrest as [-> Hall]. auto.
Qed.

Lemma named_not_str (s : string) : ~ named (JStr s).
Proof. intros (d & n & H & _). discriminate. Qed.

(** A list-like value of positive length whose items are all named is a
    list. *)
Lemma named_items_list (products : json) (n : nat) (items : list json) :
  len products = Ok n -> (0 < n)%nat -> iter products = Ok items ->
  Forall named items -> products = JArr items /\ List.length items = n.
Proof.
  intros Hlen Hpos Hiter Hall.
  destruct products as [| | | |s|l|d]; try discriminate Hlen; simpl in *.
  - injection Hlen as <-. injection Hiter as <-.
    destruct s; simpl in *; [lia|].
    inversion Hall as [|? ? Hx _]. destruct (named_not_str _ Hx).
  - injection Hlen as <-. injection Hiter as <-. auto.
  - injection Hlen as <-. injection Hiter as <-.
    destruct d; simpl in *; [lia|].
    inversion Hall as [|? ? Hx _]. destruct (named_not_str _ Hx).
Qed.

(** What a returned record looks like. *)
Lemma attempt_try_return (E : env) (p : prompt) (num_products attempt : nat)
  (w w' : world) (c : json) :
  (0 < num_products)%nat ->
  attempt_try E p num_products attempt w = (Ok (Return c), w') ->
  product_count c = Some num_products
  /\ exists d s ps, c = JObj d /\ dict_find "name" d = Some (JStr s)
                 /\ dict_find "products" d = Some (JArr ps)
                 /\ Forall named ps.
Proof.
  intros Hpos H. unfold attempt_try in H.
  apply bind_ok in H. destruct H as (text & w1 & _ & H).
  apply bind_ok in H. destruct H as (cd & w2 & Hcd & H).
  apply lift_ok in Hcd. destruct Hcd as [_ ->].
  apply bind_ok in H. destruct H as (u & w2 & Hreq & H).
  apply lift_ok in Hreq. destruct Hreq as [_ ->].
  apply bind_ok in H. destruct H as (prods & w2 & Hprods & H).
  apply lift_ok in Hprods. destruct Hprods as [Hprods ->].
  apply bind_ok in H. destruct H as (n & w2 & Hlen & H).
  apply lift_ok in Hlen. destruct Hlen as [Hlen ->].
  destruct (n =? num_products)%nat eqn:Hn; simpl in H; [|discriminate H].
  apply Nat.eqb_eq in Hn. subst n.
  apply bind_ok in H. destruct H as (name & w2 & Hname & H).
  apply lift_ok in Hname. destruct Hname as [Hname ->].
  apply bind_ok in H. destruct H as (dup & w2 & Hdup & H).
  unfold is_duplicate_company_of in Hdup.
  destruct name as [| | | |s| |]; try discriminate Hdup.
  assert (w2 = w1) by congruence. subst w2.
  destruct dup.
  { destruct (attempt <? 4)%nat; discriminate H. }
  apply bind_ok in H. destruct H as (items & w2 & Hiter & H).
  apply lift_ok in Hiter. destruct Hiter as [Hiter ->].
  apply bind_ok in H. destruct H as ([] & w2 & Hcheck & H).
  apply check_products_ok in Hcheck. destruct Hcheck as [-> Hall].
  apply bind_ok in H. destruct H as (u1 & w2 & _ & H).
  apply bind_ok in H. destruct H as (u2 & w3 & _ & H).
  injection H as <- <-.
  destruct (named_items_list _ _ _ Hlen Hpos Hiter Hall) as [-> Hlength].
  unfold getitem in Hprods, Hname.
  destruct cd as [| | | | | |d]; try discriminate Hprods.
  destruct (dict_find "products" d) as [x|] eqn:Hp; [|discriminate Hprods].
  injection Hprods as ->.
  destruct (dict_find "name" d) as [x|] eqn:Hnm; [|discriminate Hname].
  injection Hname as ->.
  split.
  - simpl. rewrite Hp. congruence.
  - exists d, s, items. auto.
Qed.

(** The last attempt never ends in [continue]. *)
Lemma attempt_try_last (E : env) (p : prompt) (num_products : nat) (w w' : world) :
  attempt_try E p num_products 4 w <> (Ok Continue, w').
Proof.
  intros H. unfold attempt_try in H.
  apply bind_ok in H. destruct H as (text & w1 & _ & H).
  apply bind_ok in H. destruct H as (cd & w2 & _ & H).
  apply bind_ok in H. destruct H as (u & w3 & _ & H).
  apply bind_ok in H. destruct H as (prods & w4 & _ & H).
  apply bind_ok in H. destruct H as (n & w5 & _ & H).
  destruct (negb (n =? num_products)%nat); [discriminate H|].
  apply bind_ok in H. destruct H as (name & w6 & _ & H).
  apply bind_ok in H. destruct H as (dup & w7 & _ & H).
  destruct dup; [discriminate H|].
  apply bind_ok in H. destruct H as (items & w8 & _ & H).
  apply bind_ok in H. destruct H as (u1 & w9 & _ & H).
  apply bind_ok in H. destruct H as (u2 & w10 & _ & H).
  apply bind_ok in H. destruct H as (u3 & w11 & _ & H).
  discriminate H.
Qed.

(** A loop that still has attempt 4 to make returns only what one of its
    attempts returned. *)
Lemma attempts_return (E : env) (p : prompt) (num_products : nat)
  (todo : list nat) :
  In 4%nat todo ->
  forall w w' c, attempts E p num_products todo w = (Ok c, w') ->
  exists attempt w1, In attempt todo
     /\ attempt_try E p num_products attempt w1 = (Ok (Return c), w').
Proof.
  induction todo as [|attempt rest IH]; intros Hin w w' c H; [destruct Hin|].
  simpl in H.
  destruct (attempt_try E p num_products attempt w) as [[[cd|]|e] w1] eqn:Htry.
  - injection H as <- <-. exists attempt, w. split; [left; reflexivity | exact Htry].
  - destruct Hin as [-> | Hin].
    + destruct (attempt_try_last _ _ _ _ _ Htry).
    + destruct (IH Hin _ _ _ H) as (a & w2 & Ha & Hr).
      exists a, w2. split; [right; exact Ha | exact Hr].
  - destruct (attempt =? 4)%nat eqn:Ha4; [discriminate H|].
    destruct Hin as [-> | Hin]; [discriminate Ha4|].
    destruct (IH Hin _ _ _ H) as (a & w2 & Ha & Hr).
    exists a, w2. split; [right; exact Ha | exact Hr].
Qed.

Lemma choice_3_4 (r : nat) :
  choice 3%nat [3; 4]%nat r = 3%nat \/ choice 3%nat [3; 4]%nat r = 4%nat.
Proof.
  unfold choice. simpl List.length.
  assert (H : (r mod 2 < 2)%nat) by (apply Nat.mod_upper_bound; lia).
  destruct (r mod 2)%nat as [|[|n]]; simpl; [auto | auto | lia].
Qed.

End GeneratorFacts.

Section GeneratorClaims.
Import PyStr Py Registry Generator.

(** C4. A record returned by [generate_company_data] has a list of
    products whose length is the count drawn before the first API call,
    and that count is 3 or 4. *)
Theorem generated_company_product_count
  (E : env) (industry : string) (info : industry_info) (w w' : world)
  (c : json) :
  generate_company_data E industry info w = (Ok c, w') ->
  product_count c = Some (choice 3%nat [3; 4]%nat (random_draw E (draws w)))
  /\ (product_count c = Some 3%nat \/ product_count c = Some 4%nat).
Proof.
  unfold generate_company_data. intros H.
  set (n := choice 3%nat [3; 4]%nat (random_draw E (draws w))) in *.
  apply attempts_return in H; [|simpl; tauto].
  destruct H as (attempt & w1 & _ & H).
  assert (Hn : n = 3%nat \/ n = 4%nat) by apply choice_3_4.
  apply attempt_try_return in H; [|lia].
  destruct H as [H _]. split; [exact H|].
  rewrite H. destruct Hn as [-> | ->]; auto.
Qed.

Lemma generated_company_product_count_witness :
  product_count (Samples.company "Acme" ["Ledger"; "Payroll"; "Taxes"]) = Some 3%nat
  /\ (product_count (Samples.company "Acme" ["Ledger"; "Payroll"; "Taxes"]) = Some 3%nat
      \/ product_count (Samples.company "Acme" ["Ledger"; "Payroll"; "Taxes"]) = Some 4%nat).
Proof.
  eapply (generated_company_product_count
            (Samples.constant_api (Samples.company "Acme" ["Ledger"; "Payroll"; "Taxes"]))
            "SaaS" Samples.saas (Samples.start ∅ ∅)).
  vm_compute. reflexivity.
Defined.

(** C2, as the code behaves. With "ledger" already registered, a first
    attempt whose payload has the product "Ledger" is returned after a
    single API call, and its names are registered: the [continue] of
    line 183 resumes the loop over the products, not the loop over the
    attempts. *)
Theorem duplicate_product_returned_on_first_attempt :
  let E := Samples.constant_api (Samples.company "Acme" ["Ledger"; "Payroll"; "Taxes"]) in
  let w := Samples.start ∅ {[ "ledger" ]} in
  is_duplicate_product (used_product_names w) "Ledger" = true
  /\ exists w',
       generate_company_data E "SaaS" Samples.saas w
       = (Ok (Samples.company "Acme" ["Ledger"; "Payroll"; "Taxes"]), w')
       /\ api_calls w' = 1%nat
       /\ used_company_names w' = {[ "acme" ]}
       /\ used_product_names w' = {[ "ledger"; "payroll"; "taxes" ]}.
Proof.
  split; [vm_compute; reflexivity|].
  eexists. split; [vm_compute; reflexivity|].
  split; [reflexivity|]. split; apply leibniz_equiv; set_solver.
Qed.

End GeneratorClaims.

(** ** Progress checkpoint *)

Section CheckpointFacts.
Import PyStr Py Registry Generator.

Lemma add_all_strings (names : list string) :
  forall used, add_all used (List.map JStr names)
               = Some (Ok tt, list_to_set names ∪ used).
Proof.
  induction names as [|n rest IH]; intros used; simpl.
  - do 2 f_equal. apply leibniz_equiv. set_solver.
  - rewrite IH. do 2 f_equal. apply leibniz_equiv. set_solver.
Qed.

Lemma set_update_strings (used : gset string) (names : list string) :
  set_update used (JArr (List.map JStr names))
  = Some (Ok tt, list_to_set names ∪ used).
Proof. unfold set_update. simpl. apply add_all_strings. Qed.

End CheckpointFacts.

Section CheckpointClaims.
Import PyStr Py Registry Generator.

(** C5. [load_progress] returns ([], 0) and leaves the world, hence both
    registries, untouched when the checkpoint is missing; whenever the
    file exists and reading it raises (unreadable, not JSON, not a JSON
    object, ...) it prints the warning and returns ([], 0); on a
    checkpoint whose name lists are lists of strings it adds them to the
    two registries and returns the stored companies and index. *)
Theorem load_progress_cases :
  (forall w, progress_file w = Absent ->
     load_progress w = Some ((JArr [], JNum 0), w))
  /\ (forall w, progress_file w = Unreadable \/ progress_file w = Undecodable
                \/ (exists j, progress_file w = Holds j
                              /\ forall d, j <> JObj d) ->
     exists e, load_progress w
               = Some ((JArr [], JNum 0), print (Warning_could_not_load e) w))
  /\ (forall w e w', exists_file (progress_file w) = true ->
     load_progress_try w = Some (Raise e, w') ->
     load_progress w
     = Some ((JArr [], JNum 0), print (Warning_could_not_load e) w'))
  /\ (forall w d company_names product_names,
     progress_file w = Holds (JObj d) ->
     field_or d "used_company_names" (JArr []) = JArr (List.map JStr company_names) ->
     field_or d "used_product_names" (JArr []) = JArr (List.map JStr product_names) ->
     load_progress w
     = Some ((field_or d "companies" (JArr []),
              field_or d "current_index" (JNum 0)),
             set_used_product_names
               (list_to_set product_names ∪ used_product_names w)
               (set_used_company_names
                  (list_to_set company_names ∪ used_company_names w) w))).
Proof.
  split; [|split; [|split]].
  - intros w H. unfold load_progress. rewrite H. reflexivity.
  - intros w [H | [H | (j & H & Hj)]]; unfold load_progress, load_progress_try;
      rewrite H; simpl; eauto.
    destruct j; simpl; eauto. destruct (Hj members). reflexivity.
  - intros w e w' Hex Htry. unfold load_progress. rewrite Hex, Htry. reflexivity.
  - intros w d cn pn Hf Hc Hp. unfold load_progress, load_progress_try.
    rewrite Hf. simpl. fold (field_or d "used_company_names" (JArr [])).
    rewrite Hc, set_update_strings.
    fold (field_or d "used_product_names" (JArr [])).
    rewrite Hp. simpl used_product_names. rewrite set_update_strings.
    reflexivity.
Qed.

Lemma load_progress_cases_witness :
  let w := Samples.start {[ "acme" ]} ∅ in
  let checkpoint :=
    [("companies", JArr [Samples.company "Globex" ["Ledger"]]);
     ("current_index", JNum 1);
     ("used_company_names", JArr [JStr "globex"]);
     ("used_product_names", JArr [JStr "ledger"])] in
  load_progress w = Some ((JArr [], JNum 0), w)
  /\ (exists e, load_progress (set_progress_file Undecodable w)
                = Some ((JArr [], JNum 0),
                        print (Warning_could_not_load e)
                              (set_progress_file Undecodable w)))
  /\ load_progress (set_progress_file (Holds (JArr [])) w)
     = Some ((JArr [], JNum 0),
             print (Warning_could_not_load AttributeError)
                   (set_progress_file (Holds (JArr [])) w))
  /\ load_progress (set_progress_file (Holds (JObj checkpoint)) w)
     = Some ((JArr [Samples.company "Globex" ["Ledger"]], JNum 1),
             set_used_product_names
               (list_to_set ["ledger"] ∪ ∅)
               (set_used_company_names
                  (list_to_set ["globex"] ∪ {[ "acme" ]})
                  (set_progress_file (Holds (JObj checkpoint)) w))).
Proof.
  intros w checkpoint.
  destruct load_progress_cases as (Hmissing & Hbroken & Hraise & Hload).
  split; [|split; [|split]].
  - apply Hmissing. reflexivity.
  - apply Hbroken. right. left. reflexivity.
  - apply Hraise; reflexivity.
  - exact (Hload (set_progress_file (Holds (JObj checkpoint)) w) checkpoint
                 ["globex"] ["ledger"] eq_refl eq_refl eq_refl).
Defined.

End CheckpointClaims.

(** ** Batch orchestrator *)

Section OrchestratorFacts.
Import PyStr Py Registry Generator.

Lemma quiet_bind {A B} (m : M A) (k : A -> M B) :
  quiet m -> (forall a, quiet (k a)) -> quiet (bind m k).
Proof.
  intros Hm Hk w. unfold bind. specialize (Hm w).
  destruct (m w) as [[a|e] w1]; simpl in *; [|exact Hm].
  rewrite Hk. exact Hm.
Qed.

Lemma quiet_lift {A} (r : result A) : quiet (lift r).
Proof. intros w. reflexivity. Qed.

Lemma quiet_ret {A} (a : A) : quiet (ret a).
Proof. intros w. reflexivity. Qed.

Lemma quiet_raise {A} (e : exn) : quiet (@raise A e).
Proof. intros w. reflexivity. Qed.

Lemma quiet_check_products (attempt : nat) (items : list json) :
  quiet (check_products attempt items).
Proof.
  induction items as [|product rest IH]; simpl; [apply quiet_ret|].
  apply quiet_bind; [apply quiet_lift|]. intros name.
  apply quiet_bind.
  - intros w. unfold is_duplicate_product_of. destruct name; reflexivity.
  - intros dup. destruct dup; [|exact IH].
    destruct (attempt <? 4)%nat; [exact IH | apply quiet_raise].
Qed.

Lemma quiet_register_products (items : list json) :
  quiet (register_products items).
Proof.
  induction items as [|product rest IH]; simpl; [apply quiet_ret|].
  apply quiet_bind; [apply quiet_lift|]. intros name.
  apply quiet_bind; [apply quiet_lift|]. intros n.
  apply quiet_bind; [intros w; reflexivity|]. intros _. exact IH.
Qed.

Lemma quiet_attempt_try (E : env) (p : prompt) (num_products attempt : nat) :
  quiet (attempt_try E p num_products attempt).
Proof.
  unfold attempt_try.
  apply quiet_bind; [intros w; reflexivity|]. intros text.
  apply quiet_bind; [apply quiet_lift|]. intros company_data.
  apply quiet_bind; [apply quiet_lift|]. intros _.
  apply quiet_bind; [apply quiet_lift|]. intros prods.
  apply quiet_bind; [apply quiet_lift|]. intros n.
  destruct (negb (n =? num_products)%nat); [apply quiet_raise|].
  apply quiet_bind; [apply quiet_lift|]. intros name.
  apply quiet_bind.
  { intros w. unfold is_duplicate_company_of. destruct name; reflexivity. }
  intros dup. destruct dup.
  { destruct (attempt <? 4)%nat; [apply quiet_ret | apply quiet_raise]. }
  apply quiet_bind; [apply quiet_lift|]. intros items.
  apply quiet_bind; [apply quiet_check_products|]. intros _.
  apply quiet_bind.
  { unfold register_company. apply quiet_bind; [apply quiet_lift|].
    intros n0 w. reflexivity. }
  intros _. apply quiet_bind; [apply quiet_register_products|].
  intros _. apply quiet_ret.
Qed.

Lemma quiet_attempts (E : env) (p : prompt) (num_products : nat)
  (todo : list nat) : quiet (attempts E p num_products todo).
Proof.
  induction todo as [|attempt rest IH]; [apply quiet_ret|].
  intros w. simpl.
  pose proof (quiet_attempt_try E p num_products attempt w) as H.
  destruct (attempt_try E p num_products attempt w) as [[[cd|]|e] w1];
    simpl in *.
  - exact H.
  - rewrite IH. exact H.
  - destruct (attempt =? 4)%nat; simpl; [exact H|].
    rewrite IH. exact H.
Qed.

Lemma quiet_generate_company_data (E : env) (industry : string)
  (info : industry_info) : quiet (generate_company_data E industry info).
Proof.
  intros w. unfold generate_company_data. rewrite quiet_attempts. reflexivity.
Qed.

Lemma generating_positions_app (a b : list line) :
  generating_positions (a ++ b) = generating_positions a ++ generating_positions b.
Proof.
  induction a as [|l a IH]; simpl; [reflexivity|].
  destruct l; simpl; rewrite IH; reflexivity.
Qed.

Lemma stdout_save (E : env) (all : json) (i : Z) (w : world) :
  stdout (save_progress E all i w) = stdout w.
Proof. reflexivity. Qed.

Lemma stdout_print (l : line) (w : world) : stdout (print l w) = stdout w ++ [l].
Proof. reflexivity. Qed.

Lemma stdout_sleep (ms : N) (w : world) : stdout (sleep ms w) = stdout w.
Proof. reflexivity. Qed.

(** One pass through the loop body announces its own position and no
    other. *)
Lemma iteration_positions (E : env) (i : Z) (st : json * world) :
  generating_positions (stdout (snd (iteration E i st)))
  = generating_positions (stdout (snd st)) ++ [(i + 1)%Z].
Proof.
  destruct st as [all_companies w]. unfold iteration.
  destruct (pick_industry E w) as [industry info].
  set (w0 := print (Generating (i + 1) industry) (count_draw w)).
  assert (H0 : generating_positions (stdout w0)
               = generating_positions (stdout w) ++ [(i + 1)%Z]).
  { unfold w0. rewrite stdout_print, generating_positions_app. reflexivity. }
  unfold iteration_try.
  pose proof (quiet_generate_company_data E industry info w0) as Hq.
  destruct (generate_company_data E industry info w0) as [[company|e] w1];
    cbn [snd] in Hq;
    repeat match goal with
           | |- context [match ?x with Ok _ => _ | Raise _ => _ end] => destruct x
           end;
    cbn [snd];
    rewrite ?stdout_sleep, ?stdout_save, ?stdout_print,
            ?generating_positions_app, Hq, H0;
    simpl; rewrite ?app_nil_r; reflexivity.
Qed.

Lemma iterations_positions (E : env) (indices : list Z) :
  forall st,
  generating_positions (stdout (snd (iterations E indices st)))
  = generating_positions (stdout (snd st))
    ++ List.map (fun i => (i + 1)%Z) indices.
Proof.
  induction indices as [|i rest IH]; intros st; simpl.
  - symmetry. apply app_nil_r.
  - rewrite IH, iteration_positions, <- app_assoc. reflexivity.
Qed.

(** Every pass through the loop body ends with a checkpoint on disk. *)
Lemma iteration_saves (E : env) (i : Z) (st : json * world) :
  exists_file (progress_file (snd (iteration E i st))) = true.
Proof.
  destruct st as [all_companies w]. unfold iteration.
  destruct (pick_industry E w) as [industry info].
  destruct (iteration_try _ _ _ _ _ _) as [[[u|e] all'] w'] eqn:H;
    [|reflexivity].
  unfold iteration_try in H.
  destruct (generate_company_data _ _ _ _) as [[company|e] w1]; [|discriminate].
  destruct (append all_companies company); [|discriminate].
  destruct (getitem company "name"); [|discriminate].
  destruct (getitem company "products"); [|discriminate].
  destruct (len a1); [|discriminate].
  injection H as _ _ <-. reflexivity.
Qed.

Lemma iterations_save (E : env) (indices : list Z) :
  forall st,
  indices <> [] \/ exists_file (progress_file (snd st)) = true ->
  exists_file (progress_file (snd (iterations E indices st))) = true.
Proof.
  induction indices as [|i rest IH]; intros st H; simpl.
  - destruct H as [H | H]; [congruence | exact H].
  - apply IH. right. apply iteration_saves.
Qed.

Lemma range_spec (a b i : Z) :
  In i (range a b) <-> (a <= i < b)%Z.
Proof.
  unfold range. rewrite in_map_iff. split.
  - intros (k & <- & Hk). apply in_seq in Hk. lia.
  - intros H. exists (Z.to_nat (i - a)). split; [lia|]. apply in_seq. lia.
Qed.

Lemma range_nonempty (a b : Z) : (a < b)%Z -> range a b <> [].
Proof.
  intros H Hnil. assert (Hin : In a (range a b)) by (apply range_spec; lia).
  rewrite Hnil in Hin. destruct Hin.
Qed.


Lemma stdout_restart (w : world) : stdout (restart w) = stdout w.
Proof. reflexivity. Qed.

Lemma load_progress_try_frame (w w' : world) (r : result (json * json)) :
  load_progress_try w = Some (r, w') ->
  progress_file w' = progress_file w /\ stdout w' = stdout w.
Proof.
  unfold load_progress_try. intros H.
  destruct (progress_file w) eqn:Hf; try (injection H as <- <-; auto).
  destruct (get content "used_company_names" (JArr [])) as [names|e];
    [|injection H as <- <-; auto].
  destruct (set_update (used_company_names w) names) as [[[u|e] used]|];
    [| injection H as <- <-; auto | discriminate H].
  destruct (get content "used_product_names" (JArr [])) as [pnames|e];
    [|injection H as <- <-; auto].
  destruct (set_update _ pnames) as [[[u'|e] pused]|];
    [| injection H as <- <-; auto | discriminate H].
  destruct (get content "companies" (JArr [])), (get content "current_index" (JNum 0));
    injection H as <- <-; auto.
Qed.

Lemma load_progress_frame (w w' : world) (r : json * json) :
  load_progress w = Some (r, w') ->
  progress_file w' = progress_file w
  /\ generating_positions (stdout w') = generating_positions (stdout w)
  /\ (r = (JArr [], JNum 0) \/ exists_file (progress_file w') = true).
Proof.
  unfold load_progress. intros H.
  destruct (exists_file (progress_file w)) eqn:Hex;
    [|injection H as <- <-; auto].
  destruct (load_progress_try w) as [[[v|e] w1]|] eqn:Htry; [| |discriminate H];
    apply load_progress_try_frame in Htry; destruct Htry as [Hp Hs];
    injection H as <- <-.
  - rewrite Hp, Hs, Hex. auto.
  - rewrite stdout_print, generating_positions_app, Hs. simpl.
    rewrite app_nil_r. auto.
Qed.

(** After the resume check, either the run starts from index 0 or the
    checkpoint it resumes from is still on disk; nothing was announced. *)
Lemma resume_check_frame (E : env) (resume : bool) (w w1 : world)
  (existing start_index : json) :
  resume_check E resume w = Some (Ok (existing, start_index), w1) ->
  (start_index = JNum 0 \/ exists_file (progress_file w1) = true)
  /\ generating_positions (stdout w1) = generating_positions (stdout w).
Proof.
  unfold resume_check. intros H.
  set (w0 := print Banner w) in *.
  assert (H0 : generating_positions (stdout w0) = generating_positions (stdout w)).
  { unfold w0. rewrite stdout_print, generating_positions_app. simpl.
    apply app_nil_r. }
  assert (Hload : exists ex si w2,
             (if resume then load_progress w0 else Some ((JArr [], JNum 0), w0))
             = Some ((ex, si), w2)
             /\ generating_positions (stdout w2) = generating_positions (stdout w)
             /\ (si = JNum 0 \/ exists_file (progress_file w2) = true)).
  { destruct resume.
    - destruct (load_progress w0) as [[[ex si] w2]|] eqn:Hl; [|discriminate H].
      exists ex, si, w2. apply load_progress_frame in Hl.
      destruct Hl as (_ & Hs & Hr). split; [reflexivity|]. split; [congruence|].
      destruct Hr as [Hr | Hr]; [left; congruence | right; exact Hr].
    - exists (JArr []), (JNum 0), w0. auto. }
  destruct Hload as (ex & si & w2 & Hl & Hs & Hr). rewrite Hl in H.
  destruct (truthy ex).
  - destruct (len ex) as [n|e]; [|discriminate H].
    destruct (negb (lower (strip (input_line E)) =? "y")%string);
      injection H as <- <- <-.
    + split; [left; reflexivity|].
      repeat rewrite ?stdout_print, ?stdout_restart, ?generating_positions_app.
      simpl. rewrite !app_nil_r. exact Hs.
    + split; [exact Hr|].
      repeat rewrite ?stdout_print, ?generating_positions_app.
      simpl. rewrite !app_nil_r. exact Hs.
  - injection H as <- <- <-. split; [exact Hr|].
    rewrite stdout_print, generating_positions_app. simpl.
    rewrite app_nil_r. exact Hs.
Qed.


Lemma completion_frame (all_companies : json) (w : world) :
  output_file (snd (completion all_companies w))
  = Holds (JObj [("companies", all_companies)])
  /\ generating_positions (stdout (snd (completion all_companies w)))
     = generating_positions (stdout w)
  /\ progress_file (snd (completion all_companies w))
     = match len all_companies with
       | Ok n => if (n =? TOTAL_COMPANIES)%nat then Absent else progress_file w
       | Raise _ => progress_file w
       end.
Proof.
  unfold completion.
  destruct (len all_companies) as [n|e]; [|auto].
  assert (Hp : progress_file
                 (if (n =? TOTAL_COMPANIES)%nat
                     && exists_file (progress_file
                          (set_output_file (Holds (JObj [("companies", all_companies)])) w))
                  then set_progress_file Absent
                         (set_output_file (Holds (JObj [("companies", all_companies)])) w)
                  else set_output_file (Holds (JObj [("companies", all_companies)])) w)
               = if (n =? TOTAL_COMPANIES)%nat then Absent else progress_file w).
  { destruct (n =? TOTAL_COMPANIES)%nat; simpl; [|reflexivity].
    destruct (progress_file w) eqn:Hpf; simpl; rewrite ?Hpf; reflexivity. }
  destruct ((n =? TOTAL_COMPANIES)%nat && _) eqn:Hc;
    destruct (iter all_companies) as [items|e]; simpl; auto;
    destruct (sum_products items); simpl; auto;
    rewrite generating_positions_app; simpl; rewrite app_nil_r; auto.
Qed.

End OrchestratorFacts.

Section OrchestratorClaims.
Import PyStr Py Registry Generator.

Lemma generate_company_data_shape (E : env) (industry : string)
  (info : industry_info) (w w' : world) (c : json) :
  generate_company_data E industry info w = (Ok c, w') ->
  exists name prods n,
    getitem c "name" = Ok name /\ getitem c "products" = Ok prods
    /\ len prods = Ok n.
Proof.
  unfold generate_company_data. intros H.
  apply attempts_return in H; [|simpl; tauto].
  destruct H as (attempt & w1 & _ & H).
  apply attempt_try_return in H;
    [|destruct (choice_3_4 (random_draw E (draws w))) as [-> | ->]; lia].
  destruct H as (_ & d & s & ps & -> & Hn & Hp & _).
  exists (JStr s), (JArr ps), (List.length ps). simpl. rewrite Hn, Hp. auto.
Qed.



End OrchestratorClaims.

(** ** Ingestion endpoint *)

Section IngestFacts.
Import Py Ingest.
Variable E : env.

Lemma sql_eq_refl (v : json) :
  bindable v = true -> is_null v = false -> sql_eq v v = true.
Proof.
  destruct v; simpl; try discriminate; intros _ _.
  - apply Bool.eqb_reflx.
  - apply Z.eqb_refl.
  - apply Qeq_bool_iff. reflexivity.
  - apply String.eqb_refl.
Qed.

Lemma dict_find_without (k key : string) (d : list (string * json)) :
  k <> key -> dict_find k (dict_without key d) = dict_find k d.
Proof.
  intros Hne. induction d as [|[k' v] d IH]; simpl; [reflexivity|].
  destruct (String.eqb k' key) eqn:Hk; simpl.
  - apply String.eqb_eq in Hk. subst k'.
    destruct (String.eqb key k) eqn:Hk2; [|exact IH].
    apply String.eqb_eq in Hk2. congruence.
  - rewrite IH. reflexivity.
Qed.

Lemma dict_find_without_same (key : string) (d : list (string * json)) :
  dict_find key (dict_without key d) = None.
Proof.
  induction d as [|[k' v] d IH]; simpl; [reflexivity|].
  destruct (String.eqb k' key) eqn:Hk; simpl; [exact IH|].
  rewrite Hk. exact IH.
Qed.

(** The constructor keeps the values given for columns, and invents
    none. *)
Lemma construct_column (columns relationships : list string) (k : string) :
  forall kwargs attrs,
  construct E columns relationships kwargs = Ok attrs ->
  (mem k columns = true -> dict_find k attrs = dict_find k kwargs)
  /\ (dict_find k kwargs = None -> dict_find k attrs = None).
Proof.
  induction kwargs as [|[k' v] rest IH]; intros attrs H; simpl in H.
  - injection H as <-. auto.
  - destruct (mem k' columns) eqn:Hc.
    + destruct (construct E columns relationships rest) as [attrs'|e] eqn:Hr;
        [|discriminate H].
      injection H as <-. destruct (IH _ eq_refl) as [IH1 IH2]. simpl.
      destruct (String.eqb k' k); [split; [reflexivity | discriminate] | auto].
    + assert (Hk : mem k columns = true -> String.eqb k' k = false).
      { intros Hm. destruct (String.eqb k' k) eqn:Hk; [|reflexivity].
        apply String.eqb_eq in Hk. congruence. }
      assert (Hrest : construct E columns relationships rest = Ok attrs).
      { destruct (mem k' relationships).
        - destruct v; try discriminate H; exact H.
        - destruct (other_attribute E k'); [exact H | discriminate H]. }
      destruct (IH _ Hrest) as [IH1 IH2]. simpl. split.
      * intros Hm. rewrite (Hk Hm). auto.
      * destruct (String.eqb k' k); [discriminate | auto].
Qed.

(** *** Rows only accumulate while nothing is rolled back *)

Lemma insert_company_ok (attrs : list (string * json)) (s s' : session) (id : json) :
  insert_company E attrs s = (Ok id, s') ->
  committed s' = committed s
  /\ pending s' = pending s
  /\ visible_companies s' = visible_companies s ++ [{| co_id := id; co_attrs := attrs |}]
  /\ id = fst (primary_key E attrs s)
  /\ uuid_draws s' = uuid_draws (snd (primary_key E attrs s))
  /\ check_values company_required attrs = Ok tt.
Proof.
  unfold insert_company. destruct (primary_key E attrs s) as [id0 s1].
  destruct (check_values company_required attrs) as [[]|e]; [|discriminate].
  destruct (List.existsb _ _); [discriminate|].
  destruct (List.existsb _ _); [discriminate|].
  intros H. injection H as <- <-. unfold visible_companies. simpl.
  rewrite app_assoc. auto 10.
Qed.

Lemma insert_product_ok (cid : json) (attrs : list (string * json)) (s s' : session) :
  insert_product E cid attrs s = (Ok tt, s') ->
  committed s' = committed s
  /\ pending s' = pending s
  /\ visible_companies s' = visible_companies s.
Proof.
  unfold insert_product. destruct (primary_key E attrs s) as [id0 s1].
  destruct (check_values product_required attrs) as [[]|e]; [|discriminate].
  destruct (List.existsb _ _); [discriminate|].
  destruct (negb _); [discriminate|].
  intros H. injection H as <-. unfold visible_companies. simpl. auto.
Qed.

Lemma insert_all_ok (objs : list pending_object) :
  forall s s' ids,
  insert_all E objs s = (Ok ids, s') ->
  committed s' = committed s
  /\ pending s' = pending s
  /\ incl (visible_companies s) (visible_companies s')
  /\ (forall attrs, In (NewCompany attrs) objs ->
        exists r, In r (visible_companies s') /\ co_attrs r = attrs
                  /\ check_values company_required attrs = Ok tt).
Proof.
  induction objs as [|o rest IH]; intros s s' ids H; simpl in H.
  - injection H as <- <-. split; [reflexivity|]. split; [reflexivity|].
    split; [apply incl_refl|]. intros attrs [].
  - destruct o as [attrs | cid attrs].
    + destruct (insert_company E attrs s) as [[id|e] s1] eqn:Hi; [|discriminate H].
      destruct (insert_all E rest s1) as [[ids'|e] s2] eqn:Hr; [|discriminate H].
      injection H as <- <-.
      apply insert_company_ok in Hi. destruct Hi as (Hc & Hp & Hv & _ & _ & Hchk).
      destruct (IH _ _ _ Hr) as (Hc' & Hp' & Hv' & Hin).
      split; [congruence|]. split; [congruence|]. split.
      * intros r Hr0. apply Hv'. rewrite Hv. apply in_or_app. left. exact Hr0.
      * intros a [Ha | Ha]; [|apply Hin; exact Ha].
        injection Ha as <-. exists {| co_id := id; co_attrs := attrs |}.
        split; [|split; [reflexivity | exact Hchk]].
        apply Hv'. rewrite Hv. apply in_or_app. right. left. reflexivity.
    + destruct (insert_product E cid attrs s) as [[[]|e] s1] eqn:Hi; [|discriminate H].
      apply insert_product_ok in Hi. destruct Hi as (Hc & Hp & Hv).
      destruct (IH _ _ _ H) as (Hc' & Hp' & Hv' & Hin).
      split; [congruence|]. split; [congruence|]. split.
      * rewrite <- Hv. exact Hv'.
      * intros a [Ha | Ha]; [discriminate Ha | apply Hin; exact Ha].
Qed.

Lemma flush_ok (s s' : session) (ids : list json) :
  flush E s = (Ok ids, s') ->
  committed s' = committed s
  /\ pending s' = []
  /\ incl (visible_companies s) (visible_companies s')
  /\ (forall attrs, In (NewCompany attrs) (pending s) ->
        exists r, In r (visible_companies s') /\ co_attrs r = attrs
                  /\ check_values company_required attrs = Ok tt).
Proof.
  unfold flush. destruct (insert_all E _ s) as [[ids'|e] s1] eqn:Hi; [|discriminate].
  intros H. injection H as <- <-.
  apply insert_all_ok in Hi. destruct Hi as (Hc & Hp & Hv & Hin).
  split; [exact Hc|]. split; [reflexivity|]. split; [exact Hv|].
  intros attrs Ha. apply Hin. apply in_or_app. left.
  apply filter_In. split; [exact Ha | reflexivity].
Qed.

Lemma flush_nothing (s : session) :
  pending s = [] -> flush E s = (Ok [], s).
Proof.
  intros H. unfold flush. rewrite H. simpl. unfold clear_pending.
  destruct s; simpl in *. subst. reflexivity.
Qed.

Lemma company_exists_ok (v : json) (s s' : session) (b : bool) :
  company_exists E v s = (Ok b, s') ->
  committed s' = committed s
  /\ incl (visible_companies s) (visible_companies s')
  /\ bindable v = true
  /\ b = List.existsb (name_matches v) (visible_companies s').
Proof.
  unfold company_exists.
  destruct (autoflush E).
  - destruct (flush E s) as [[ids|e] s1] eqn:Hf; [|discriminate].
    apply flush_ok in Hf. destruct Hf as (Hc & _ & Hv & _).
    destruct (bindable v); simpl; [|discriminate].
    intros H. injection H as <- <-. auto.
  - destruct (bindable v); simpl; [|discriminate].
    intros H. injection H as <- <-. split; [reflexivity|].
    split; [apply incl_refl | auto].
Qed.

Lemma add_products_ok (cid : json) (items : list json) :
  forall s s', add_products E cid items s = (Ok tt, s') ->
  committed s' = committed s /\ visible_companies s' = visible_companies s.
Proof.
  induction items as [|item rest IH]; intros s s' H; simpl in H.
  - injection H as <-. auto.
  - destruct item; try discriminate H.
    destruct (dict_find "company_id" _); [discriminate H|].
    destruct (construct E product_columns ["company"] _); [|discriminate H].
    apply IH in H. exact H.
Qed.


Lemma existsb_incl {A} (f : A -> bool) (l l' : list A) :
  incl l l' -> List.existsb f l = true -> List.existsb f l' = true.
Proof.
  intros Hi H. apply List.existsb_exists in H. destruct H as (x & Hx & Hf).
  apply List.existsb_exists. exists x. split; [apply Hi; exact Hx | exact Hf].
Qed.

Lemma check_values_name (attrs : list (string * json)) :
  check_values company_required attrs = Ok tt ->
  is_null (column "name" attrs) = false.
Proof.
  unfold check_values.
  destruct (negb (List.forallb _ attrs)); [discriminate|].
  destruct (negb (is_null (column "created_at" attrs))); [discriminate|].
  destruct (List.existsb _ company_required) eqn:H; [discriminate|].
  intros _. simpl in H. apply orb_false_iff in H. tauto.
Qed.

Lemma found_incl (s s' : session) (c : json) :
  incl (visible_companies s) (visible_companies s') -> found s c -> found s' c.
Proof.
  intros Hi (d & v & Hc & Hn & Hb & Hf). exists d, v.
  split; [exact Hc|]. split; [exact Hn|]. split; [exact Hb|].
  exact (existsb_incl _ _ _ Hi Hf).
Qed.

(** A company that was loaded or skipped is in the session afterwards,
    and nothing the session saw before is gone. *)
Lemma stage_company_ok (c : json) (s s' : session) (st : staged) :
  stage_company E c s = (Ok st, s') ->
  committed s' = committed s
  /\ incl (visible_companies s) (visible_companies s')
  /\ found s' c.
Proof.
  unfold stage_company. destruct c as [| | | | | |d]; try discriminate.
  destruct (dict_find "name" d) as [v|] eqn:Hname; [|discriminate].
  destruct (company_exists E v s) as [[[|]|e] s1] eqn:Hq; [| |discriminate].
  - intros H. injection H as _ <-.
    apply company_exists_ok in Hq. destruct Hq as (Hc & Hv & Hb & Hex).
    split; [exact Hc|]. split; [exact Hv|]. exists d, v. auto.
  - apply company_exists_ok in Hq. destruct Hq as (Hc & Hv & Hb & _).
    destruct (construct E company_columns ["products"] _) as [attrs|e] eqn:Hcon;
      [|discriminate].
    destruct (flush E (add (NewCompany attrs) s1)) as [[ids|e] s2] eqn:Hf;
      [|discriminate].
    destruct (iter _) as [items|e]; [|discriminate].
    destruct (add_products E _ items s2) as [[[]|e] s3] eqn:Ha; [|discriminate].
    intros H. injection H as _ <-.
    apply flush_ok in Hf. destruct Hf as (Hc2 & _ & Hv2 & Hin).
    apply add_products_ok in Ha. destruct Ha as (Hc3 & Hv3).
    destruct (Hin attrs) as (r & Hr & Hattrs & Hchk).
    { simpl. apply in_or_app. right. left. reflexivity. }
    split; [simpl in Hc2; congruence|]. split.
    + rewrite Hv3. intros x Hx. apply Hv2. apply Hv. exact Hx.
    + exists d, v. split; [reflexivity|]. split; [exact Hname|].
      split; [exact Hb|]. rewrite Hv3. apply List.existsb_exists.
      exists r. split; [exact Hr|].
      assert (Hcol : column "name" (co_attrs r) = v).
      { rewrite Hattrs. unfold column.
        destruct (construct_column _ _ "name" _ _ Hcon) as [Hk _].
        rewrite (Hk eq_refl).
        rewrite !dict_find_without by discriminate. rewrite Hname. reflexivity. }
      apply check_values_name in Hchk. rewrite <- Hattrs, Hcol in Hchk.
      unfold name_matches. rewrite Hcol, Hchk. apply sql_eq_refl; assumption.
Qed.

Lemma stage_all_bounds (items : list json) :
  forall l k errs s l' k' errs' s',
  stage_all E items l k errs s = (Ok (l', k', errs'), s') ->
  (l <= l' <= l + List.length items)%nat.
Proof.
  induction items as [|c rest IH]; intros l k errs s l' k' errs' s' H; simpl in H.
  - injection H as <- _ _ _. lia.
  - destruct (stage_company E c s) as [[[|]|e] s1].
    + apply IH in H. simpl. lia.
    + apply IH in H. simpl. lia.
    + destruct (get c "name" (JStr "Unknown")); [|discriminate H].
      apply IH in H. simpl. lia.
Qed.

(** If every company of the list was loaded, each is in the session at
    the end. *)
Lemma stage_all_loaded (items : list json) :
  forall l k errs s k' errs' s',
  stage_all E items l k errs s = (Ok ((l + List.length items)%nat, k', errs'), s') ->
  incl (visible_companies s) (visible_companies s')
  /\ Forall (found s') items.
Proof.
  induction items as [|c rest IH]; intros l k errs s k' errs' s' H; simpl in H.
  - injection H as _ _ _ <-. split; [apply incl_refl | constructor].
  - destruct (stage_company E c s) as [[[|]|e] s1] eqn:Hc.
    + replace (l + S (List.length rest))%nat
        with (S l + List.length rest)%nat in H by lia.
      apply stage_company_ok in Hc. destruct Hc as (_ & Hv & Hfound).
      apply IH in H. destruct H as (Hv' & Hall).
      split; [intros x Hx; apply Hv', Hv, Hx|].
      constructor; [exact (found_incl _ _ _ Hv' Hfound) | exact Hall].
    + apply stage_all_bounds in H. simpl in H. lia.
    + destruct (get c "name" (JStr "Unknown")); [|discriminate H].
      apply stage_all_bounds in H. simpl in H. lia.
Qed.

Lemma stage_all_errors_grow (items : list json) :
  forall l k errs s l' k' errs' s',
  stage_all E items l k errs s = (Ok (l', k', errs'), s') ->
  (List.length errs <= List.length errs')%nat.
Proof.
  induction items as [|c rest IH]; intros l k errs s l' k' errs' s' H; simpl in H.
  - injection H as _ _ <- _. lia.
  - destruct (stage_company E c s) as [[[|]|e] s1].
    + exact (IH _ _ _ _ _ _ _ _ H).
    + exact (IH _ _ _ _ _ _ _ _ H).
    + destruct (get c "name" (JStr "Unknown")); [|discriminate H].
      apply IH in H. rewrite length_app in H. simpl in H. lia.
Qed.

(** If no company of the list was reported, each is in the session at
    the end, loaded or skipped. *)
Lemma stage_all_clean (items : list json) :
  forall l k errs s l' k' s',
  stage_all E items l k errs s = (Ok (l', k', errs), s') ->
  incl (visible_companies s) (visible_companies s')
  /\ Forall (found s') items.
Proof.
  induction items as [|c rest IH]; intros l k errs s l' k' s' H; simpl in H.
  - injection H as _ _ <-. split; [apply incl_refl | constructor].
  - destruct (stage_company E c s) as [[st|e] s1] eqn:Hc.
    + apply stage_company_ok in Hc. destruct Hc as (_ & Hv & Hfound).
      assert (Hrest : incl (visible_companies s1) (visible_companies s')
                      /\ Forall (found s') rest)
        by (destruct st; exact (IH _ _ _ _ _ _ _ H)).
      destruct Hrest as (Hv' & Hall).
      split; [intros x Hx; apply Hv', Hv, Hx|].
      constructor; [exact (found_incl _ _ _ Hv' Hfound) | exact Hall].
    + destruct (get c "name" (JStr "Unknown")); [|discriminate H].
      apply stage_all_errors_grow in H. rewrite length_app in H.
      simpl in H. lia.
Qed.

(** Companies already in a session with nothing pending are all
    skipped, and the session stays as it is. *)
Lemma stage_all_found (items : list json) (s : session) :
  pending s = [] -> Forall (found s) items ->
  forall l k errs,
  stage_all E items l k errs s = (Ok (l, (k + List.length items)%nat, errs), s).
Proof.
  intros Hp Hall. induction Hall as [|c rest Hc _ IH]; intros l k errs; simpl.
  - rewrite Nat.add_0_r. reflexivity.
  - destruct Hc as (d & v & -> & Hn & Hb & Hf).
    unfold stage_company. rewrite Hn. unfold company_exists.
    replace (if autoflush E then flush E s else (Ok [], s)) with (Ok (@nil json), s)
      by (destruct (autoflush E); [rewrite (flush_nothing s Hp)|]; reflexivity).
    rewrite Hb. simpl. rewrite Hf.
    replace (k + S (List.length rest))%nat with (S k + List.length rest)%nat by lia.
    apply IH.
Qed.

Lemma commit_ok (s s' : session) :
  commit E s = (Ok tt, s') ->
  pending s' = []
  /\ inserted s' = {| companies := []; products := [] |}
  /\ incl (visible_companies s) (visible_companies s').
Proof.
  unfold commit. destruct (flush E s) as [[ids|e] s1] eqn:Hf; [|discriminate].
  intros H. injection H as <-. apply flush_ok in Hf.
  destruct Hf as (_ & _ & Hv & _). split; [reflexivity|]. split; [reflexivity|].
  unfold visible_companies at 2. simpl. rewrite app_nil_r. exact Hv.
Qed.

Lemma commit_nothing (s : session) :
  pending s = [] -> inserted s = {| companies := []; products := [] |} ->
  commit E s = (Ok tt, s).
Proof.
  intros Hp Hi. unfold commit. rewrite (flush_nothing s Hp).
  unfold visible_companies, visible_products. rewrite Hi. simpl.
  rewrite !app_nil_r. destruct s as [[cs ps] ins pe n]; simpl in *. subst.
  reflexivity.
Qed.

End IngestFacts.

Section IngestClaims.
Import Py Ingest.

(** C8. If a load of the file into a store answers 201 and has loaded
    every company of the file (or, more generally, reports no error, so
    that every company was loaded or was already there), then a second
    load of the same file, in a new session on the resulting store,
    answers [loaded = 0], [skipped] = the number of companies of the
    file and no errors, and leaves the store as it was. *)
Theorem second_load_skips_everything
  (E : env) (f : file) (st : store) (draws : nat) (body : response)
  (s1 : session) :
  load_data_from_json E f (begin st draws) = (Created body, s1) ->
  loaded body = List.length (file_companies f) \/ errors body = None ->
  load_data_from_json E f (begin (committed s1) (uuid_draws s1))
  = (Created {| loaded := 0;
                skipped := List.length (file_companies f);
                errors := None |},
     begin (committed s1) (uuid_draws s1)).
Proof.
  unfold load_data_from_json, file_companies.
  destruct f as [| | |data]; try discriminate.
  destruct (get data "companies" (JArr [])) as [cd|e]; [|discriminate].
  destruct (negb (truthy cd)); [discriminate|].
  destruct (iter cd) as [items|e]; [|discriminate].
  destruct (stage_all E items 0 0 [] (begin st draws))
    as [[[[l k] errs]|e] s0] eqn:Hstage; [|discriminate].
  destruct (commit E s0) as [[[]|e] s2] eqn:Hcommit; [|discriminate].
  intros H Hl. injection H as <- <-. simpl in Hl.
  assert (Hall : Forall (found s0) items).
  { destruct Hl as [-> | Hl].
    - apply (stage_all_loaded E items 0) in Hstage. tauto.
    - destruct errs; [|discriminate Hl].
      apply stage_all_clean in Hstage. tauto. }
  apply commit_ok in Hcommit. destruct Hcommit as (Hp & Hi & Hv).
  assert (Hs2 : begin (committed s2) (uuid_draws s2) = s2).
  { destruct s2; simpl in *. subst. reflexivity. }
  rewrite Hs2.
  rewrite (stage_all_found E items s2 Hp).
  - rewrite (commit_nothing E s2 Hp Hi). reflexivity.
  - eapply Forall_impl; [exact Hall|]. intros c. apply found_incl. exact Hv.
Qed.

Lemma second_load_skips_everything_witness :
  let f := IngestSamples.input
             [IngestSamples.company "c-1" "Acme"
                [IngestSamples.product "p-1" "Ledger";
                 IngestSamples.product "p-2" "Payroll"];
              IngestSamples.company "c-2" "Globex"
                [IngestSamples.product "p-3" "Taxes"]] in
  let s1 := snd (load_data_from_json IngestSamples.uuids f
                   (begin IngestSamples.empty_store 0)) in
  load_data_from_json IngestSamples.uuids f (begin (committed s1) (uuid_draws s1))
  = (Created {| loaded := 0; skipped := 2; errors := None |},
     begin (committed s1) (uuid_draws s1)).
Proof.
  intros f s1.
  apply (second_load_skips_everything IngestSamples.uuids f
           IngestSamples.empty_store 0
           {| loaded := 2; skipped := 0; errors := None |} s1).
  - vm_compute. reflexivity.
  - left. reflexivity.
Defined.

(** C1, as the code behaves. Of three companies, the second without a
    name: the answer counts two as loaded and reports the second, but
    the rollback of line 110 has discarded the first company together
    with its products, and the commit persists the third alone. *)
Theorem rollback_discards_companies_staged_before :
  let f := IngestSamples.input
             [IngestSamples.company "c-1" "Acme"
                [IngestSamples.product "p-1" "Ledger"];
              IngestSamples.nameless;
              IngestSamples.company "c-3" "Initech"
                [IngestSamples.product "p-3" "Taxes"]] in
  exists s',
    load_data_from_json IngestSamples.uuids f (begin IngestSamples.empty_store 0)
    = (Created {| loaded := 2; skipped := 0;
                  errors := Some [(JStr "Unknown", KeyError "name")] |}, s')
    /\ List.map (fun r => column "name" (co_attrs r)) (companies (committed s'))
       = [JStr "Initech"]
    /\ List.map (fun r => column "name" (pr_attrs r)) (products (committed s'))
       = [JStr "Taxes"].
Proof.
  intros f. eexists. split; [vm_compute; reflexivity|].
  split; reflexivity.
Qed.

End IngestClaims.

(** *** The ["id"] keys of the file are not read *)

Section Erasure.
Import Py Ingest.
Variable E : env.

Lemma dict_without_comm (a b : string) (d : list (string * json)) :
  dict_without a (dict_without b d) = dict_without b (dict_without a d).
Proof.
  induction d as [|[k v] d IH]; simpl; [reflexivity|].
  destruct (String.eqb k b) eqn:Hb, (String.eqb k a) eqn:Ha; simpl;
    rewrite ?Ha, ?Hb; simpl; rewrite IH; reflexivity.
Qed.

Lemma dict_without_idem (a : string) (d : list (string * json)) :
  dict_without a (dict_without a d) = dict_without a d.
Proof.
  induction d as [|[k v] d IH]; simpl; [reflexivity|].
  destruct (String.eqb k a) eqn:Ha; simpl; rewrite ?Ha; simpl; rewrite IH;
    reflexivity.
Qed.

Lemma products_without_ids_key (kv : string * json) :
  fst (products_without_ids kv) = fst kv.
Proof.
  destruct kv as [k v]. destruct v; simpl; try reflexivity.
  destruct (String.eqb k "products"); reflexivity.
Qed.

Lemma products_without_ids_other (kv : string * json) :
  String.eqb (fst kv) "products" = false -> products_without_ids kv = kv.
Proof.
  destruct kv as [k v]. simpl. intros H. destruct v; simpl; try reflexivity.
  rewrite H. reflexivity.
Qed.

Lemma dict_without_products_map (d : list (string * json)) :
  dict_without "products" (List.map products_without_ids d)
  = dict_without "products" d.
Proof.
  induction d as [|kv d IH]; simpl; [reflexivity|].
  rewrite products_without_ids_key.
  destruct (String.eqb (fst kv) "products") eqn:Hk; simpl; [exact IH|].
  rewrite (products_without_ids_other kv Hk), IH. reflexivity.
Qed.

Lemma dict_find_products_map (k : string) (d : list (string * json)) :
  dict_find k (List.map products_without_ids d)
  = if String.eqb k "products" then option_map list_without_ids (dict_find k d)
    else dict_find k d.
Proof.
  induction d as [|[k' v] d IH]; simpl.
  - destruct (String.eqb k "products"); reflexivity.
  - destruct v; simpl;
      try (rewrite IH; destruct (String.eqb k' k), (String.eqb k "products");
           reflexivity).
    destruct (String.eqb k' "products") eqn:Hp'; simpl; rewrite IH;
      destruct (String.eqb k' k) eqn:Hk, (String.eqb k "products") eqn:Hp;
      try reflexivity;
      apply String.eqb_eq in Hk; subst k'; congruence.
Qed.

Lemma add_products_without_ids (cid : json) (items : list json) :
  forall s, add_products E cid (List.map without_id items) s
            = add_products E cid items s.
Proof.
  induction items as [|item rest IH]; intros s; simpl; [reflexivity|].
  destruct item; simpl; try reflexivity.
  rewrite dict_without_idem.
  destruct (dict_find "company_id" _); [reflexivity|].
  destruct (construct E product_columns ["company"] _); [|reflexivity].
  apply IH.
Qed.

Lemma stage_company_without_ids (c : json) (s : session) :
  stage_company E (company_without_ids c) s = stage_company E c s.
Proof.
  destruct c as [| | | | | |d]; try reflexivity.
  unfold company_without_ids, stage_company.
  rewrite (dict_find_products_map "name"). simpl String.eqb. cbv iota.
  rewrite dict_find_without by discriminate.
  destruct (dict_find "name" d) as [v|]; [|reflexivity].
  destruct (company_exists E v s) as [[[|]|e] s1]; try reflexivity.
  rewrite dict_without_products_map.
  rewrite (dict_without_comm "products" "id"), dict_without_idem.
  rewrite <- (dict_without_comm "products" "id").
  destruct (construct E company_columns ["products"] _) as [attrs|e];
    [|reflexivity].
  destruct (flush E (add (NewCompany attrs) s1)) as [[ids|e] s2]; [|reflexivity].
  rewrite (dict_find_products_map "products"). simpl String.eqb. cbv iota.
  rewrite dict_find_without by discriminate.
  destruct (dict_find "products" d) as [pd|]; simpl; [|reflexivity].
  destruct pd; simpl; try reflexivity.
  rewrite add_products_without_ids. reflexivity.
Qed.

Lemma get_name_without_ids (c : json) (default : json) :
  get (company_without_ids c) "name" default = get c "name" default.
Proof.
  destruct c as [| | | | | |d]; try reflexivity. simpl.
  rewrite (dict_find_products_map "name"). simpl String.eqb. cbv iota.
  rewrite dict_find_without by discriminate. reflexivity.
Qed.

Lemma stage_all_without_ids (items : list json) :
  forall l k errs s,
  stage_all E (List.map company_without_ids items) l k errs s
  = stage_all E items l k errs s.
Proof.
  induction items as [|c rest IH]; intros l k errs s; simpl; [reflexivity|].
  rewrite stage_company_without_ids, get_name_without_ids.
  destruct (stage_company E c s) as [[[|]|e] s1]; rewrite ?IH; try reflexivity.
  destruct (get c "name" (JStr "Unknown")); [apply IH | reflexivity].
Qed.

Lemma dict_find_companies_map (d : list (string * json)) :
  dict_find "companies" (List.map companies_without_ids d)
  = option_map (fun v => match v with
                         | JArr items => JArr (List.map company_without_ids items)
                         | _ => v
                         end)
               (dict_find "companies" d).
Proof.
  induction d as [|[k v] d IH]; simpl; [reflexivity|].
  destruct (String.eqb k "companies") eqn:Hk.
  - destruct v; simpl; rewrite ?Hk; simpl; rewrite ?Hk; reflexivity.
  - destruct v; simpl; rewrite ?Hk; simpl; rewrite ?Hk; exact IH.
Qed.

Lemma load_without_ids (f : file) (s : session) :
  load_data_from_json E (file_without_ids f) s = load_data_from_json E f s.
Proof.
  destruct f as [| | |data]; try reflexivity.
  destruct data as [| | | | | |d]; try reflexivity.
  unfold file_without_ids, load_data_from_json, get.
  rewrite dict_find_companies_map.
  destruct (dict_find "companies" d) as [cd|]; simpl; [|reflexivity].
  destruct cd as [| | | | |items|]; try reflexivity.
  destruct items as [|c rest]; [reflexivity|].
  cbn [truthy List.map negb iter].
  change (company_without_ids c :: List.map company_without_ids rest)
    with (List.map company_without_ids (c :: rest)).
  rewrite stage_all_without_ids. reflexivity.
Qed.

End Erasure.

(** *** Primary keys come from the UUID source *)

Section Keys.
Import Py Ingest.
Variable E : env.
Variable st : store.
Variable lo : nat.

Lemma drawn_mono (hi hi' : nat) (id : json) :
  (hi <= hi')%nat -> drawn E lo hi id -> drawn E lo hi' id.
Proof. intros Hle (k & Hk & Hid). exists k. split; [lia | exact Hid]. Qed.

Lemma primary_key_drawn (attrs : list (string * json)) (s : session) :
  is_null (column "id" attrs) = true -> (lo <= uuid_draws s)%nat ->
  drawn E lo (uuid_draws (snd (primary_key E attrs s))) (fst (primary_key E attrs s))
  /\ uuid_draws (snd (primary_key E attrs s)) = S (uuid_draws s).
Proof.
  intros Hnull Hlo. unfold primary_key. rewrite Hnull. simpl.
  split; [|reflexivity]. exists (uuid_draws s). split; [lia | reflexivity].
Qed.

Lemma keys_drawn_draws (s s' : session) :
  keys_drawn E st lo s ->
  committed s' = committed s -> inserted s' = inserted s ->
  pending s' = pending s -> (uuid_draws s <= uuid_draws s')%nat ->
  keys_drawn E st lo s'.
Proof.
  intros (Hlo & Hc & Hp & Hpe) Hcom Hins Hpen Hle.
  unfold keys_drawn, visible_companies, visible_products in *.
  rewrite Hcom, Hins, Hpen.
  split; [lia|]. split; [|split; [|exact Hpe]].
  - intros r Hr. destruct (Hc r Hr) as [H | H]; [left; exact H|].
    right. exact (drawn_mono _ _ _ Hle H).
  - intros r Hr. destruct (Hp r Hr) as [H | H]; [left; exact H|].
    right. exact (drawn_mono _ _ _ Hle H).
Qed.

Lemma insert_company_keys (attrs : list (string * json)) (s s' : session)
  (r : result json) :
  insert_company E attrs s = (r, s') ->
  is_null (column "id" attrs) = true ->
  keys_drawn E st lo s -> keys_drawn E st lo s'.
Proof.
  intros H Hnull Hk. pose proof Hk as (Hlo & Hc & Hp & Hpe).
  destruct (primary_key_drawn attrs s Hnull Hlo) as [Hd Hn].
  unfold insert_company in H.
  destruct (primary_key E attrs s) as [id s1] eqn:Hpk. simpl in Hd, Hn.
  assert (Hs1 : s1 = with_draw s).
  { unfold primary_key in Hpk. rewrite Hnull in Hpk. congruence. }
  assert (Hraise : keys_drawn E st lo s1).
  { subst s1. apply (keys_drawn_draws s); auto. simpl. lia. }
  destruct (check_values company_required attrs); [|injection H as _ <-; exact Hraise].
  destruct (List.existsb _ _); [injection H as _ <-; exact Hraise|].
  destruct (List.existsb _ _); [injection H as _ <-; exact Hraise|].
  injection H as _ <-.
  unfold keys_drawn, visible_companies, visible_products in *. simpl.
  rewrite Hn. split; [lia|]. split; [|split; [|exact Hpe]].
  - intros x Hx. rewrite app_assoc in Hx. apply in_app_or in Hx.
    destruct Hx as [Hx | [<- | []]].
    + destruct (Hc x Hx) as [H | H]; [left; exact H|].
      right. apply (drawn_mono (uuid_draws s)); [lia | exact H].
    + right. simpl. rewrite <- Hn. exact Hd.
  - intros x Hx. destruct (Hp x Hx) as [H | H]; [left; exact H|].
    right. apply (drawn_mono (uuid_draws s)); [lia | exact H].
Qed.

Lemma insert_product_keys (cid : json) (attrs : list (string * json))
  (s s' : session) (r : result unit) :
  insert_product E cid attrs s = (r, s') ->
  is_null (column "id" attrs) = true ->
  keys_drawn E st lo s -> keys_drawn E st lo s'.
Proof.
  intros H Hnull Hk. pose proof Hk as (Hlo & Hc & Hp & Hpe).
  destruct (primary_key_drawn attrs s Hnull Hlo) as [Hd Hn].
  unfold insert_product in H.
  destruct (primary_key E attrs s) as [id s1] eqn:Hpk. simpl in Hd, Hn.
  assert (Hs1 : s1 = with_draw s).
  { unfold primary_key in Hpk. rewrite Hnull in Hpk. congruence. }
  assert (Hraise : keys_drawn E st lo s1).
  { subst s1. apply (keys_drawn_draws s); auto. simpl. lia. }
  destruct (check_values product_required attrs); [|injection H as _ <-; exact Hraise].
  destruct (List.existsb _ _); [injection H as _ <-; exact Hraise|].
  destruct (negb _); [injection H as _ <-; exact Hraise|].
  injection H as _ <-.
  unfold keys_drawn, visible_companies, visible_products in *. simpl.
  rewrite Hn. split; [lia|]. split; [|split; [|exact Hpe]].
  - intros x Hx. destruct (Hc x Hx) as [H | H]; [left; exact H|].
    right. apply (drawn_mono (uuid_draws s)); [lia | exact H].
  - intros x Hx. rewrite app_assoc in Hx. apply in_app_or in Hx.
    destruct Hx as [Hx | [<- | []]].
    + destruct (Hp x Hx) as [H | H]; [left; exact H|].
      right. apply (drawn_mono (uuid_draws s)); [lia | exact H].
    + right. simpl. rewrite <- Hn. exact Hd.
Qed.

Lemma insert_all_keys (objs : list pending_object) :
  forall s s' r,
  insert_all E objs s = (r, s') ->
  (forall o, In o objs -> is_null (column "id" (attrs_of o)) = true) ->
  keys_drawn E st lo s -> keys_drawn E st lo s'.
Proof.
  induction objs as [|o rest IH]; intros s s' r H Hnull Hk; simpl in H.
  - injection H as _ <-. exact Hk.
  - assert (Ho : is_null (column "id" (attrs_of o)) = true)
      by (apply Hnull; left; reflexivity).
    assert (Hrest : forall o', In o' rest -> is_null (column "id" (attrs_of o')) = true)
      by (intros o' Ho'; apply Hnull; right; exact Ho').
    destruct o as [attrs | cid attrs]; simpl in Ho.
    + destruct (insert_company E attrs s) as [[id|e] s1] eqn:Hi.
      * pose proof (insert_company_keys _ _ _ _ Hi Ho Hk) as Hk1.
        destruct (insert_all E rest s1) as [[ids|e] s2] eqn:Hr;
          injection H as _ <-; exact (IH _ _ _ Hr Hrest Hk1).
      * injection H as _ <-. exact (insert_company_keys _ _ _ _ Hi Ho Hk).
    + destruct (insert_product E cid attrs s) as [[[]|e] s1] eqn:Hi.
      * exact (IH _ _ _ H Hrest (insert_product_keys _ _ _ _ _ Hi Ho Hk)).
      * injection H as _ <-. exact (insert_product_keys _ _ _ _ _ Hi Ho Hk).
Qed.

Lemma flush_keys (s s' : session) (r : result (list json)) :
  flush E s = (r, s') -> keys_drawn E st lo s -> keys_drawn E st lo s'.
Proof.
  unfold flush. intros H Hk.
  destruct (insert_all E _ s) as [[ids|e] s1] eqn:Hi.
  - injection H as _ <-.
    assert (Hk1 : keys_drawn E st lo s1).
    { apply (insert_all_keys _ _ _ _ Hi); [|exact Hk].
      intros o Ho. destruct Hk as (_ & _ & _ & Hpe). apply Hpe.
      apply in_app_or in Ho. destruct Ho as [Ho | Ho];
        apply filter_In in Ho; tauto. }
    destruct Hk1 as (Hlo & Hc & Hp & _).
    split; [exact Hlo|]. split; [exact Hc|]. split; [exact Hp|].
    intros o [].
  - injection H as _ <-. apply (insert_all_keys _ _ _ _ Hi); [|exact Hk].
    intros o Ho. destruct Hk as (_ & _ & _ & Hpe). apply Hpe.
    apply in_app_or in Ho. destruct Ho as [Ho | Ho];
      apply filter_In in Ho; tauto.
Qed.

Lemma rollback_keys (s : session) :
  keys_drawn E st lo s -> keys_drawn E st lo (rollback s).
Proof.
  intros (Hlo & Hc & Hp & _).
  unfold keys_drawn, visible_companies, visible_products in *. simpl.
  rewrite !app_nil_r. split; [exact Hlo|].
  split; [|split; [|intros o []]].
  - intros r Hr. apply Hc. apply in_or_app. left. exact Hr.
  - intros r Hr. apply Hp. apply in_or_app. left. exact Hr.
Qed.

Lemma add_keys (o : pending_object) (s : session) :
  is_null (column "id" (attrs_of o)) = true ->
  keys_drawn E st lo s -> keys_drawn E st lo (add o s).
Proof.
  intros Ho (Hlo & Hc & Hp & Hpe).
  split; [exact Hlo|]. split; [exact Hc|]. split; [exact Hp|].
  simpl. intros o' Ho'. apply in_app_or in Ho'.
  destruct Ho' as [Ho' | [<- | []]]; [apply Hpe; exact Ho' | exact Ho].
Qed.

Lemma commit_keys (s s' : session) (r : result unit) :
  commit E s = (r, s') -> keys_drawn E st lo s -> keys_drawn E st lo s'.
Proof.
  unfold commit. intros H Hk.
  destruct (flush E s) as [[ids|e] s1] eqn:Hf;
    pose proof (flush_keys _ _ _ Hf Hk) as Hk1; injection H as _ <-;
    [|exact Hk1].
  destruct Hk1 as (Hlo & Hc & Hp & _).
  unfold keys_drawn, visible_companies, visible_products in *. simpl.
  rewrite !app_nil_r. split; [exact Hlo|].
  split; [exact Hc|]. split; [exact Hp | intros o []].
Qed.

Lemma company_exists_keys (v : json) (s s' : session) (r : result bool) :
  company_exists E v s = (r, s') -> keys_drawn E st lo s -> keys_drawn E st lo s'.
Proof.
  unfold company_exists. intros H Hk.
  assert (Hpre : forall r1 s1,
            (if autoflush E then flush E s else (Ok [], s)) = (r1, s1) ->
            keys_drawn E st lo s1).
  { intros r1 s1 H1. destruct (autoflush E).
    - exact (flush_keys _ _ _ H1 Hk).
    - injection H1 as _ <-. exact Hk. }
  destruct (if autoflush E then flush E s else (Ok [], s)) as [[ids|e] s1] eqn:H1;
    specialize (Hpre _ _ eq_refl).
  - destruct (negb (bindable v)); injection H as _ <-; exact Hpre.
  - injection H as _ <-. exact Hpre.
Qed.

(** The constructor is never given an ["id"] by the endpoint. *)
Lemma construct_no_id (columns relationships : list string)
  (d attrs : list (string * json)) :
  construct E columns relationships (dict_without "id" d) = Ok attrs ->
  is_null (column "id" attrs) = true.
Proof.
  intros H. destruct (construct_column E _ _ "id" _ _ H) as [_ Hnone].
  unfold column. rewrite Hnone; [reflexivity | apply dict_find_without_same].
Qed.

Lemma add_products_keys (cid : json) (items : list json) :
  forall s s' r,
  add_products E cid items s = (r, s') ->
  keys_drawn E st lo s -> keys_drawn E st lo s'.
Proof.
  induction items as [|item rest IH]; intros s s' r H Hk; simpl in H.
  - injection H as _ <-. exact Hk.
  - destruct item; try (injection H as _ <-; exact Hk).
    destruct (dict_find "company_id" _); [injection H as _ <-; exact Hk|].
    destruct (construct E product_columns ["company"] _) as [attrs|e] eqn:Hc;
      [|injection H as _ <-; exact Hk].
    apply (IH _ _ _ H). apply add_keys; [|exact Hk].
    simpl. exact (construct_no_id _ _ _ _ Hc).
Qed.

Lemma stage_company_keys (c : json) (s s' : session) (r : result staged) :
  stage_company E c s = (r, s') ->
  keys_drawn E st lo s -> keys_drawn E st lo s'.
Proof.
  unfold stage_company. intros H Hk.
  destruct c as [| | | | | |d]; try (injection H as _ <-; exact Hk).
  destruct (dict_find "name" d) as [v|]; [|injection H as _ <-; exact Hk].
  destruct (company_exists E v s) as [[[|]|e] s1] eqn:Hq;
    pose proof (company_exists_keys _ _ _ _ Hq Hk) as Hk1;
    try (injection H as _ <-; exact Hk1).
  destruct (construct E company_columns ["products"] _) as [attrs|e] eqn:Hc;
    [|injection H as _ <-; exact Hk1].
  destruct (flush E (add (NewCompany attrs) s1)) as [[ids|e] s2] eqn:Hf;
    assert (Hk2 : keys_drawn E st lo s2)
      by (apply (flush_keys _ _ _ Hf); apply add_keys; [|exact Hk1];
          simpl; exact (construct_no_id _ _ _ _ Hc));
    [|injection H as _ <-; exact Hk2].
  destruct (iter _) as [items|e]; [|injection H as _ <-; exact Hk2].
  destruct (add_products E _ items s2) as [[[]|e] s3] eqn:Ha;
    injection H as _ <-; exact (add_products_keys _ _ _ _ _ Ha Hk2).
Qed.

Lemma stage_all_keys (items : list json) :
  forall l k errs s r s',
  stage_all E items l k errs s = (r, s') ->
  keys_drawn E st lo s -> keys_drawn E st lo s'.
Proof.
  induction items as [|c rest IH]; intros l k errs s r s' H Hk; simpl in H.
  - injection H as _ <-. exact Hk.
  - destruct (stage_company E c s) as [[[|]|e] s1] eqn:Hc;
      pose proof (stage_company_keys _ _ _ _ Hc Hk) as Hk1.
    + exact (IH _ _ _ _ _ _ H Hk1).
    + exact (IH _ _ _ _ _ _ H Hk1).
    + destruct (get c "name" (JStr "Unknown")).
      * exact (IH _ _ _ _ _ _ H (rollback_keys _ Hk1)).
      * injection H as _ <-. exact (rollback_keys _ Hk1).
Qed.

Lemma load_keys (f : file) (s s' : session) (out : outcome) :
  load_data_from_json E f s = (out, s') ->
  keys_drawn E st lo s -> keys_drawn E st lo s'.
Proof.
  unfold load_data_from_json. intros H Hk.
  destruct f as [| | |data]; try (injection H as _ <-; auto using rollback_keys).
  destruct (get data "companies" (JArr [])) as [cd|e];
    [|injection H as _ <-; auto using rollback_keys].
  destruct (negb (truthy cd)); [injection H as _ <-; auto using rollback_keys|].
  destruct (iter cd) as [items|e];
    [|injection H as _ <-; auto using rollback_keys].
  destruct (stage_all E items 0 0 [] s) as [[[[l k] errs]|e] s0] eqn:Hs;
    pose proof (stage_all_keys _ _ _ _ _ _ _ Hs Hk) as Hk0;
    [|injection H as _ <-; auto using rollback_keys].
  destruct (commit E s0) as [[[]|e] s2] eqn:Hc;
    pose proof (commit_keys _ _ _ Hc Hk0) as Hk2;
    injection H as _ <-; auto using rollback_keys.
Qed.

Lemma begin_keys : keys_drawn E st lo (begin st lo).
Proof.
  unfold keys_drawn, visible_companies, visible_products. simpl.
  rewrite !app_nil_r. split; [lia|]. split; [auto|]. split; [auto|].
  intros o [].
Qed.

End Keys.

Section KeyClaims.
Import Py Ingest.

(** C10. The endpoint answers and leaves the session exactly as it does
    on the same file with every ["id"] key removed from its company and
    product records; and every row committed by a load is a row the
    store already had or has as primary key the string of a UUID drawn
    during that load. *)
Theorem file_ids_never_become_keys
  (E : env) (f : file) (st : store) (draws : nat) (out : outcome)
  (s' : session) :
  load_data_from_json E f (begin st draws) = (out, s') ->
  load_data_from_json E (file_without_ids f) (begin st draws) = (out, s')
  /\ (forall r, In r (companies (committed s')) ->
        In r (companies st) \/ drawn E draws (uuid_draws s') (co_id r))
  /\ (forall r, In r (products (committed s')) ->
        In r (products st) \/ drawn E draws (uuid_draws s') (pr_id r)).
Proof.
  intros H. split; [rewrite load_without_ids; exact H|].
  pose proof (load_keys E st draws f _ _ _ H (begin_keys E st draws))
    as (_ & Hc & Hp & _).
  split.
  - intros r Hr. apply Hc. apply in_or_app. left. exact Hr.
  - intros r Hr. apply Hp. apply in_or_app. left. exact Hr.
Qed.

Lemma file_ids_never_become_keys_witness :
  let f := IngestSamples.input
             [IngestSamples.company "c-1" "Acme"
                [IngestSamples.product "p-1" "Ledger"]] in
  let s' := snd (load_data_from_json IngestSamples.uuids f
                   (begin IngestSamples.empty_store 0)) in
  List.map co_id (companies (committed s')) = [JStr "u0"]
  /\ List.map pr_id (products (committed s')) = [JStr "u1"]
  /\ load_data_from_json IngestSamples.uuids (file_without_ids f)
       (begin IngestSamples.empty_store 0)
     = (Created {| loaded := 1; skipped := 0; errors := None |}, s').
Proof.
  intros f s'. split; [reflexivity|]. split; [reflexivity|].
  apply (file_ids_never_become_keys IngestSamples.uuids f
           IngestSamples.empty_store 0).
  vm_compute. reflexivity.
Defined.

End KeyClaims.

(** ** Name registry: further properties *)

Section NormalForm.
Import PyStr Registry.

Lemma is_space_lower_char (c : ascii) : is_space (lower_char c) = is_space c.
Proof.
  destruct c as [b0 b1 b2 b3 b4 b5 b6 b7].
  destruct b0, b1, b2, b3, b4, b5, b6, b7; reflexivity.
Qed.

Lemma lower_char_idem (c : ascii) : lower_char (lower_char c) = lower_char c.
Proof.
  destruct c as [b0 b1 b2 b3 b4 b5 b6 b7].
  destruct b0, b1, b2, b3, b4, b5, b6, b7; reflexivity.
Qed.

Lemma lower_idem (s : string) : lower (lower s) = lower s.
Proof.
  induction s as [|c s IH]; simpl; [reflexivity|].
  rewrite lower_char_idem, IH. reflexivity.
Qed.

Lemma lower_app (a b : string) : lower (a ++ b) = (lower a ++ lower b)%string.
Proof. induction a as [|c a IH]; simpl; [reflexivity | rewrite IH; reflexivity]. Qed.

Lemma blank_lower (s : string) : blank (lower s) = blank s.
Proof.
  induction s as [|c s IH]; simpl; [reflexivity|].
  rewrite is_space_lower_char, IH. reflexivity.
Qed.

Lemma lstrip_blank (p : string) : blank p = true -> lstrip p = EmptyString.
Proof.
  induction p as [|c p IH]; simpl; [reflexivity|].
  intros H. apply andb_true_iff in H. destruct H as [Hc Hp].
  rewrite Hc. exact (IH Hp).
Qed.

Lemma rstrip_blank (q : string) : blank q = true -> rstrip q = EmptyString.
Proof.
  induction q as [|c q IH]; simpl; [reflexivity|].
  intros H. apply andb_true_iff in H. destruct H as [Hc Hq].
  rewrite (IH Hq), Hc. reflexivity.
Qed.

Lemma lstrip_blank_app (p s : string) :
  blank p = true -> lstrip (p ++ s) = lstrip s.
Proof.
  induction p as [|c p IH]; simpl; [reflexivity|].
  intros H. apply andb_true_iff in H. destruct H as [Hc Hp].
  rewrite Hc. exact (IH Hp).
Qed.

Lemma rstrip_app_blank (s q : string) :
  blank q = true -> rstrip (s ++ q) = rstrip s.
Proof.
  intros Hq. induction s as [|c s IH]; simpl.
  - apply rstrip_blank. exact Hq.
  - rewrite IH. reflexivity.
Qed.

Lemma strip_app_blank (s q : string) :
  blank q = true -> strip (s ++ q) = strip s.
Proof.
  intros Hq. unfold strip. induction s as [|c s IH].
  - change (rstrip (lstrip q) = rstrip (lstrip EmptyString)).
    rewrite (lstrip_blank q Hq). reflexivity.
  - simpl. destruct (is_space c); [exact IH|].
    change (String c (s ++ q)) with (String c s ++ q)%string.
    apply rstrip_app_blank. exact Hq.
Qed.

(** Padding with whitespace does not change the normal form. *)
Lemma strip_lower_padded (p s q : string) :
  blank p = true -> blank q = true ->
  strip (lower (p ++ s ++ q)) = strip (lower s).
Proof.
  intros Hp Hq. rewrite !lower_app.
  unfold strip at 1. rewrite lstrip_blank_app by (rewrite blank_lower; exact Hp).
  fold (strip (lower s ++ lower q)).
  apply strip_app_blank. rewrite blank_lower. exact Hq.
Qed.

Lemma lower_strip_comm (s : string) : lower (strip s) = strip (lower s).
Proof.
  unfold strip.
  assert (Hl : forall t, lower (lstrip t) = lstrip (lower t)).
  { induction t as [|c t IH]; simpl; [reflexivity|].
    rewrite is_space_lower_char. destruct (is_space c); [exact IH | reflexivity]. }
  assert (Hr : forall t, lower (rstrip t) = rstrip (lower t)).
  { induction t as [|c t IH]; simpl; [reflexivity|].
    rewrite <- IH, is_space_lower_char.
    destruct (rstrip t); simpl; [destruct (is_space c)|]; reflexivity. }
  rewrite Hr, Hl. reflexivity.
Qed.

Lemma lstrip_idem (s : string) : lstrip (lstrip s) = lstrip s.
Proof.
  induction s as [|c s IH]; simpl; [reflexivity|].
  destruct (is_space c) eqn:Hc; [exact IH|]. simpl. rewrite Hc. reflexivity.
Qed.

Lemma lstrip_rstrip_comm (s : string) : lstrip (rstrip s) = rstrip (lstrip s).
Proof.
  induction s as [|c s IH]; simpl; [reflexivity|].
  destruct (is_space c) eqn:Hc.
  - rewrite <- IH. destruct (rstrip s) eqn:Hr; simpl; rewrite ?Hc; reflexivity.
  - simpl. destruct (rstrip s); simpl; rewrite Hc; reflexivity.
Qed.

Lemma rstrip_idem (s : string) : rstrip (rstrip s) = rstrip s.
Proof.
  induction s as [|c s IH]; simpl; [reflexivity|].
  destruct (rstrip s) as [|a r] eqn:Hr.
  - destruct (is_space c) eqn:Hc; simpl; rewrite ?Hc; reflexivity.
  - cbn [rstrip]. fold rstrip. simpl in IH. simpl.
    destruct (rstrip r) eqn:Hrr.
    + destruct (is_space a) eqn:Ha; [discriminate IH | congruence].
    + congruence.
Qed.

Lemma strip_idem (s : string) : strip (strip s) = strip s.
Proof.
  unfold strip. rewrite lstrip_rstrip_comm, lstrip_idem, rstrip_idem. reflexivity.
Qed.

(** The stored form of a name is its own normal form. *)
Lemma normal_form_idem (s : string) :
  strip (lower (strip (lower s))) = strip (lower s).
Proof. rewrite <- lower_strip_comm, strip_idem, lower_strip_comm, lower_idem. reflexivity. Qed.

End NormalForm.

Section RegistryMore.
Import PyStr Registry.

(** X1. Both duplicate checks answer on a name padded with
    whitespace, and on the stored (lowercased, trimmed) form of a name,
    exactly as on the name itself. *)
Theorem duplicate_checks_ignore_padding
  (used_companies used_products : gset string) (p name q : string) :
  blank p = true -> blank q = true ->
  is_duplicate_company used_companies (p ++ name ++ q)
  = is_duplicate_company used_companies name
  /\ is_duplicate_product used_products (p ++ name ++ q)
     = is_duplicate_product used_products name
  /\ is_duplicate_company used_companies (strip (lower name))
     = is_duplicate_company used_companies name
  /\ is_duplicate_product used_products (strip (lower name))
     = is_duplicate_product used_products name.
Proof.
  intros Hp Hq. unfold is_duplicate_company, is_duplicate_product.
  rewrite (strip_lower_padded p name q Hp Hq), normal_form_idem. auto.
Qed.

Lemma duplicate_checks_ignore_padding_witness :
  is_duplicate_company {[ "acme labs" ]} "  Acme Labs " = Ok true
  /\ is_duplicate_product {[ "ledger" ]} "  LEDGER " = true.
Proof.
  destruct (duplicate_checks_ignore_padding {[ "acme labs" ]} {[ "ledger" ]}
              "  " "Acme Labs" " " eq_refl eq_refl) as (Hc & _ & _ & _).
  destruct (duplicate_checks_ignore_padding {[ "acme labs" ]} {[ "ledger" ]}
              "  " "LEDGER" " " eq_refl eq_refl) as (_ & Hp & _ & _).
  split.
  - etransitivity; [exact Hc | vm_compute; reflexivity].
  - etransitivity; [exact Hp | vm_compute; reflexivity].
Defined.

Lemma near_duplicate_sym (a b : string) :
  near_duplicate (words a) b = near_duplicate (words b) a.
Proof.
  unfold near_duplicate. rewrite overlap_ratio_comm.
  destruct (set_truthy (words a)), (set_truthy (words b)); reflexivity.
Qed.

(** X2. Near-duplicate detection is symmetric: [B] is flagged against
    a registry holding only [A] exactly when [A] is flagged against a
    registry holding only [B]. *)
Theorem near_duplicate_detection_symmetric (A B : string) :
  is_duplicate_company {[ strip (lower A) ]} B
  = is_duplicate_company {[ strip (lower B) ]} A.
Proof.
  rewrite !is_duplicate_company_eq, !elements_singleton. simpl.
  rewrite !orb_false_r, near_duplicate_sym. f_equal. f_equal.
  apply bool_decide_ext. set_solver.
Qed.

(** X3. A name flagged as duplicate stays flagged when names are
    added to the registry. *)
Theorem duplicate_stays_duplicate (used used' : gset string) (name : string) :
  used ⊆ used' ->
  is_duplicate_company used name = Ok true ->
  is_duplicate_company used' name = Ok true.
Proof.
  intros Hsub. rewrite !is_duplicate_company_eq. intros H. injection H as H.
  f_equal. apply orb_true_iff in H. apply orb_true_iff.
  destruct H as [H | H].
  - left. apply bool_decide_eq_true in H. apply bool_decide_eq_true. set_solver.
  - right. apply existsb_elements in H. apply existsb_elements.
    destruct H as (e & He & Hf). exists e. split; [set_solver | exact Hf].
Qed.

Lemma duplicate_stays_duplicate_witness :
  is_duplicate_company ({[ "globex" ]} ∪ {[ "acme labs" ]}) "Labs Acme" = Ok true.
Proof.
  apply (duplicate_stays_duplicate {[ "acme labs" ]}).
  - set_solver.
  - vm_compute. reflexivity.
Defined.

(** With at most three tokens on each side, similarity 0.7 is reached
    only by equal token sets. *)
Lemma near_duplicate_short (a : gset string) (e : string) :
  (size a <= 3)%nat -> (size (words e) <= 3)%nat ->
  near_duplicate a e = true <-> (a = words e /\ a <> ∅).
Proof.
  intros Ha He. unfold near_duplicate. split.
  - intros H. apply andb_true_iff in H. destruct H as [H Hq].
    apply andb_true_iff in H. destruct H as [Hta Hte].
    apply set_truthy_size in Hta. apply set_truthy_size in Hte.
    apply Qle_bool_iff in Hq. unfold overlap_ratio, Qle in Hq. simpl in Hq.
    assert (Hia : (size (a ∩ words e) <= size a)%nat)
      by (apply subseteq_size; set_solver).
    assert (Hie : (size (a ∩ words e) <= size (words e))%nat)
      by (apply subseteq_size; set_solver).
    assert (Hmax : (Nat.max (size a) (size (words e)) <= size (a ∩ words e))%nat).
    { destruct (Nat.max (size a) (size (words e))) as [|[|[|[|m]]]] eqn:Hm;
        simpl in Hq; lia. }
    assert (H1 : a ∩ words e = a)
      by (apply set_subseteq_size_eq; [set_solver | lia]).
    assert (H2 : a ∩ words e = words e)
      by (apply set_subseteq_size_eq; [set_solver | lia]).
    split; [congruence|]. intros ->. rewrite size_empty in Hta. lia.
  - intros [-> Hne].
    assert (Hpos : (0 < size (words e))%nat).
    { destruct (size (words e)) eqn:Hs; [|lia].
      apply size_empty_iff in Hs. destruct Hne. apply leibniz_equiv. exact Hs. }
    rewrite (proj2 (set_truthy_size _) Hpos). simpl.
    apply Qle_bool_iff. unfold overlap_ratio, Qle. simpl.
    replace (words e ∩ words e) with (words e) by (apply leibniz_equiv; set_solver).
    rewrite Nat.max_id.
    destruct (size (words e)) as [|[|[|[|m]]]]; simpl; lia.
Qed.

(** X4. For two names of at most three distinct tokens each, the
    second is flagged against the first only when their normal forms
    are equal or their token sets are equal and not empty: with so few
    tokens a similarity of 0.7 needs all of them. *)
Theorem short_names_flagged_only_on_equal_tokens (A B : string) :
  (size (words (lower A)) <= 3)%nat -> (size (words (lower B)) <= 3)%nat ->
  is_duplicate_company {[ strip (lower A) ]} B = Ok true
  <-> (strip (lower B) = strip (lower A)
       \/ (words (lower B) = words (lower A) /\ words (lower B) <> ∅)).
Proof.
  intros HA HB. rewrite is_duplicate_company_eq, elements_singleton. simpl.
  rewrite orb_false_r, !words_strip.
  rewrite <- (words_strip (lower A)) in HA.
  split.
  - intros H. injection H as H. apply orb_true_iff in H. destruct H as [H | H].
    + left. apply bool_decide_eq_true in H. set_solver.
    + right. apply near_duplicate_short in H; [|exact HB | exact HA].
      rewrite words_strip in H. exact H.
  - intros [H | H]; f_equal; apply orb_true_iff.
    + left. apply bool_decide_eq_true. set_solver.
    + right. apply near_duplicate_short; [exact HB | exact HA|].
      rewrite words_strip. exact H.
Qed.

Lemma short_names_flagged_only_on_equal_tokens_witness :
  is_duplicate_company {[ strip (lower "DataCorp Inc") ]} "DataCorp Incorporated"
  <> Ok true
  /\ is_duplicate_company {[ strip (lower "DataCorp Inc") ]} "inc  datacorp"
     = Ok true.
Proof.
  split.
  - intros H.
    apply (short_names_flagged_only_on_equal_tokens
             "DataCorp Inc" "DataCorp Incorporated") in H.
    + destruct H as [H | [H _]]; [discriminate H|].
      assert (Hin : "inc" ∈ words (lower "DataCorp Inc"))
        by (apply (bool_decide_unpack _); vm_compute; exact I).
      rewrite <- H in Hin.
      assert (Hout : bool_decide ("inc" ∈ words (lower "DataCorp Incorporated")) = false)
        by (vm_compute; reflexivity).
      apply bool_decide_eq_false in Hout. exact (Hout Hin).
    + vm_compute. lia.
    + vm_compute. lia.
  - apply (short_names_flagged_only_on_equal_tokens "DataCorp Inc" "inc  datacorp").
    + vm_compute. lia.
    + vm_compute. lia.
    + right. split.
      * vm_compute. reflexivity.
      * intros H. apply (f_equal size) in H. vm_compute in H. discriminate H.
Defined.

End RegistryMore.

(** ** Record generator: further properties *)

Section GeneratorMore.
Import PyStr Py Registry Generator Records.

Lemma bind_inv {A B} (m : M A) (k : A -> M B) (w w' : world) (r : result B) :
  bind m k w = (r, w') ->
  (exists a w1, m w = (Ok a, w1) /\ k a w1 = (r, w'))
  \/ (exists e, m w = (Raise e, w') /\ r = Raise e).
Proof.
  unfold bind. destruct (m w) as [[a|e] w1]; intros H.
  - left. eauto.
  - right. injection H as <- <-. eauto.
Qed.

Lemma lift_inv {A} (x : result A) (w w' : world) (r : result A) :
  lift x w = (r, w') -> r = x /\ w' = w.
Proof. unfold lift. intros H. injection H as <- <-. auto. Qed.

Lemma same_surroundings_refl (w : world) : same_surroundings w w.
Proof. unfold same_surroundings. auto 10. Qed.

(** The product check changes nothing, whatever its outcome; when it
    passes on the last attempt, no product was a duplicate. *)
Lemma check_products_inv (attempt : nat) (items : list json) :
  forall w w' r, check_products attempt items w = (r, w') ->
  w' = w
  /\ (r = Ok tt -> attempt = 4%nat ->
      forall s, In s (List.flat_map item_name items) ->
                is_duplicate_product (used_product_names w) s = false).
Proof.
  induction items as [|product rest IH]; intros w w' r H; simpl in H.
  - injection H as <- <-. split; [reflexivity|]. intros _ _ s [].
  - apply bind_inv in H. destruct H as [(name & w1 & Hname & H) | (e & Hname & ->)];
      apply lift_inv in Hname; destruct Hname as [Hname ->];
      [|split; [reflexivity | discriminate]].
    apply bind_inv in H. destruct H as [(dup & w1 & Hdup & H) | (e & Hdup & ->)];
      unfold is_duplicate_product_of in Hdup;
      destruct name as [| | | |s| |]; try discriminate Hdup;
      injection Hdup as <- <-; try (split; [reflexivity | discriminate]).
    assert (Hitem : item_name product = [s]).
    { unfold getitem in Hname. destruct product as [| | | | | |d]; try discriminate.
      simpl. destruct (dict_find "name" d); [|discriminate].
      injection Hname as <-. reflexivity. }
    destruct (is_duplicate_product (used_product_names w) s) eqn:Hd.
    + destruct (attempt <? 4)%nat eqn:Ha.
      * apply IH in H. destruct H as [-> _]. split; [reflexivity|].
        intros _ ->. discriminate Ha.
      * injection H as <- <-. split; [reflexivity | discriminate].
    + apply IH in H. destruct H as [-> Hrest]. split; [reflexivity|].
      intros Hr Ha x Hx. simpl in Hx. rewrite Hitem in Hx.
      destruct Hx as [<- | Hx]; [exact Hd | exact (Hrest Hr Ha x Hx)].
Qed.

(** Registering named products cannot fail, and adds their normal
    forms. *)
Lemma register_products_named (items : list json) :
  Forall named items ->
  forall w, exists w',
    register_products items w = (Ok tt, w')
    /\ used_company_names w' = used_company_names w
    /\ used_product_names w'
       = list_to_set (List.map normal (List.flat_map item_name items))
         ∪ used_product_names w
    /\ api_calls w' = api_calls w /\ slept_ms w' = slept_ms w
    /\ same_surroundings w w'.
Proof.
  intros Hall. induction Hall as [|product rest Hp _ IH]; intros w; simpl.
  - exists w. split; [reflexivity|]. split; [reflexivity|].
    split; [apply leibniz_equiv; set_solver|].
    split; [reflexivity|]. split; [reflexivity | apply same_surroundings_refl].
  - destruct Hp as (d & s & -> & Hn). unfold bind, lift. simpl. rewrite Hn. simpl.
    destruct (IH (set_used_product_names ({[strip (lower s)]} ∪ used_product_names w) w))
      as (w' & Hr & Hc & Hpn & Ha & Hs & Hsame).
    exists w'. split; [exact Hr|]. split; [exact Hc|].
    split; [rewrite Hpn; simpl; apply leibniz_equiv; unfold normal; set_solver|].
    split; [exact Ha|]. split; [exact Hs | exact Hsame].
Qed.


(** What one pass through the body of the attempt loop does. *)
Lemma attempt_try_inv (E : env) (p : prompt) (num_products attempt : nat)
  (w w' : world) (r : result control) :
  (0 < num_products)%nat ->
  attempt_try E p num_products attempt w = (r, w') ->
  api_calls w' = S (api_calls w)
  /\ slept_ms w' = slept_ms w
  /\ same_surroundings w w'
  /\ match r with
     | Ok (Return c) =>
         exists name,
           company_name c = Some name
           /\ is_duplicate_company (used_company_names w) name = Ok false
           /\ used_company_names w' = {[ normal name ]} ∪ used_company_names w
           /\ used_product_names w'
              = list_to_set (List.map normal (product_names c))
                ∪ used_product_names w
           /\ (attempt = 4%nat ->
               forall s, In s (product_names c) ->
                         is_duplicate_product (used_product_names w) s = false)
     | _ => used_company_names w' = used_company_names w
            /\ used_product_names w' = used_product_names w
     end.
Proof.
  intros Hpos H. unfold attempt_try in H.
  assert (Hfail : forall r0 : result control,
             match r0 with Ok (Return _) => False | _ => True end ->
             api_calls (count_api_call w) = S (api_calls w)
             /\ slept_ms (count_api_call w) = slept_ms w
             /\ same_surroundings w (count_api_call w)
             /\ match r0 with
                | Ok (Return c) => False
                | _ => used_company_names (count_api_call w) = used_company_names w
                       /\ used_product_names (count_api_call w) = used_product_names w
                end).
  { intros r0 Hr0. split; [reflexivity|]. split; [reflexivity|].
    split; [unfold same_surroundings; simpl; auto 10|].
    destruct r0 as [[c|]|e]; [destruct Hr0 | auto | auto]. }
  assert (Hfail' : forall r0 : result control,
             match r0 with Ok (Return _) => False | _ => True end ->
             r = r0 -> w' = count_api_call w ->
             api_calls w' = S (api_calls w)
             /\ slept_ms w' = slept_ms w
             /\ same_surroundings w w'
             /\ match r with
                | Ok (Return c) =>
                    exists name,
                      company_name c = Some name
                      /\ is_duplicate_company (used_company_names w) name = Ok false
                      /\ used_company_names w' = {[ normal name ]} ∪ used_company_names w
                      /\ used_product_names w'
                         = list_to_set (List.map normal (product_names c))
                           ∪ used_product_names w
                      /\ (attempt = 4%nat ->
                          forall s, In s (product_names c) ->
                                    is_duplicate_product (used_product_names w) s = false)
                | _ => used_company_names w' = used_company_names w
                       /\ used_product_names w' = used_product_names w
                end).
  { intros r0 Hr0 -> ->. destruct (Hfail r0 Hr0) as (H1 & H2 & H3 & H4).
    split; [exact H1|]. split; [exact H2|]. split; [exact H3|].
    destruct r0 as [[c|]|e]; [destruct Hr0 | exact H4 | exact H4]. }
  apply bind_inv in H. destruct H as [(text & w1 & Hcall & H) | (e & Hcall & ->)];
    unfold call_api in Hcall; injection Hcall as Hcall <-;
    [|apply (Hfail' (Raise e)); auto].
  apply bind_inv in H. destruct H as [(cd & w1 & Hm & H) | (e & Hm & ->)];
    apply lift_inv in Hm; destruct Hm as [Hcd ->];
    [|apply (Hfail' (Raise e)); auto].
  apply bind_inv in H. destruct H as [(u & w1 & Hm & H) | (e & Hm & ->)];
    apply lift_inv in Hm; destruct Hm as [_ ->];
    [|apply (Hfail' (Raise e)); auto].
  apply bind_inv in H. destruct H as [(prods & w1 & Hm & H) | (e & Hm & ->)];
    apply lift_inv in Hm; destruct Hm as [Hprods ->];
    [|apply (Hfail' (Raise e)); auto].
  apply bind_inv in H. destruct H as [(n & w1 & Hm & H) | (e & Hm & ->)];
    apply lift_inv in Hm; destruct Hm as [Hlen ->];
    [|apply (Hfail' (Raise e)); auto].
  destruct (n =? num_products)%nat eqn:Hn; simpl in H;
    [|injection H as <- <-; apply (Hfail' (Raise (ValueError (Expected_products num_products n)))); auto].
  apply Nat.eqb_eq in Hn. subst n.
  apply bind_inv in H. destruct H as [(name & w1 & Hm & H) | (e & Hm & ->)];
    apply lift_inv in Hm; destruct Hm as [Hname ->];
    [|apply (Hfail' (Raise e)); auto].
  apply bind_inv in H. destruct H as [(dup & w1 & Hdup & H) | (e & Hdup & ->)];
    unfold is_duplicate_company_of in Hdup;
    destruct name as [| | | |s| |];
    try (injection Hdup as _ <-; apply (Hfail' (Raise e)); auto; fail);
    try discriminate Hdup.
  injection Hdup as Hdup <-. simpl in Hdup.
  destruct dup.
  { destruct (attempt <? 4)%nat; injection H as <- <-.
    - apply (Hfail' (Ok Continue)); auto.
    - apply (Hfail' (Raise (ValueError Duplicate_company_name))); auto. }
  apply bind_inv in H. destruct H as [(items & w1 & Hm & H) | (e & Hm & ->)];
    apply lift_inv in Hm; destruct Hm as [Hiter ->];
    [|apply (Hfail' (Raise e)); auto].
  apply bind_inv in H. destruct H as [([] & w1 & Hcheck & H) | (e & Hcheck & ->)];
    [|apply check_products_inv in Hcheck; destruct Hcheck as [-> _];
      apply (Hfail' (Raise e)); auto].
  pose proof (check_products_ok _ _ _ _ Hcheck) as [_ Hnamed].
  apply check_products_inv in Hcheck. destruct Hcheck as [-> Hlast].
  symmetry in Hlen, Hiter.
  destruct (named_items_list _ _ _ Hlen Hpos Hiter Hnamed) as [-> Hlength].
  apply bind_inv in H. destruct H as [(u1 & w1 & Hrc & H) | (e & Hrc & ->)];
    unfold register_company, bind, lift in Hrc; cbn [lower_strip] in Hrc;
    [|discriminate Hrc].
  injection Hrc as _ Hw1.
  destruct (register_products_named items Hnamed w1)
    as (w2 & Hreg & Hc2 & Hp2 & Ha2 & Hs2 & Hsame2).
  apply bind_inv in H. destruct H as [(u2 & w3 & Hrp & H) | (e & Hrp & ->)];
    rewrite Hreg in Hrp; [|discriminate Hrp].
  injection Hrp as _ <-. injection H as <- <-.
  subst w1. simpl in Hc2, Hp2, Ha2, Hs2.
  unfold getitem in Hprods, Hname.
  destruct cd as [| | | | | |d]; try discriminate Hprods.
  destruct (dict_find "products" d) as [x|] eqn:Hpd; [|discriminate Hprods].
  injection Hprods as <-.
  destruct (dict_find "name" d) as [x|] eqn:Hnd; [|discriminate Hname].
  injection Hname as <-.
  split; [exact Ha2|]. split; [exact Hs2|].
  split; [destruct Hsame2 as (?&?&?&?&?); unfold same_surroundings; auto 10|].
  exists s. simpl. rewrite Hnd, Hpd.
  split; [reflexivity|]. split; [exact Hdup|].
  split; [exact Hc2|]. split; [exact Hp2|].
  intros Ha x Hx. exact (Hlast eq_refl Ha x Hx).
Qed.


(** What the attempt loop does from attempt [a] on, [k] attempts being
    left. *)
Lemma attempts_inv (E : env) (p : prompt) (num_products : nat) :
  (0 < num_products)%nat ->
  forall k a w w' r,
  (1 <= k)%nat -> (a + k = 5)%nat ->
  attempts E p num_products (List.seq a k) w = (r, w') ->
  same_surroundings w w'
  /\ (api_calls w < api_calls w' <= api_calls w + k)%nat
  /\ (slept_ms w' + 2000 <= slept_ms w + 2000 * N.of_nat k)%N
  /\ match r with
     | Raise _ =>
         api_calls w' = (api_calls w + k)%nat
         /\ used_company_names w' = used_company_names w
         /\ used_product_names w' = used_product_names w
     | Ok c =>
         exists name,
           company_name c = Some name
           /\ is_duplicate_company (used_company_names w) name = Ok false
           /\ used_company_names w' = {[ normal name ]} ∪ used_company_names w
           /\ used_product_names w'
              = list_to_set (List.map normal (product_names c))
                ∪ used_product_names w
           /\ (api_calls w' = (api_calls w + k)%nat ->
               forall s, In s (product_names c) ->
                         is_duplicate_product (used_product_names w) s = false)
     end.
Proof.
  intros Hpos. induction k as [|k IH]; intros a w w' r Hk Ha H; [lia|].
  simpl in H.
  destruct (attempt_try E p num_products a w) as [[[c|]|e] w1] eqn:Htry;
    pose proof (attempt_try_inv _ _ _ _ _ _ _ Hpos Htry)
      as (Hcalls & Hslept & Hsame & Hreg).
  - (* returned *)
    injection H as <- <-. split; [exact Hsame|]. split; [lia|]. split; [lia|].
    destruct Hreg as (name & Hn & Hd & Hc & Hp & Hlast).
    exists name. split; [exact Hn|]. split; [exact Hd|].
    split; [exact Hc|]. split; [exact Hp|].
    intros Hall. apply Hlast. lia.
  - (* continue *)
    destruct k as [|k'].
    { assert (a = 4%nat) by lia. subst a. destruct (attempt_try_last _ _ _ _ _ Htry). }
    destruct Hreg as [Hc Hp].
    apply IH in H; [|lia|lia].
    destruct H as (Hsame' & Hcalls' & Hslept' & Hr).
    rewrite Hc, Hp, Hcalls in Hr. rewrite Hcalls in Hcalls'. rewrite Hslept in Hslept'.
    split; [unfold same_surroundings in *; intuition congruence|].
    split; [lia|]. split; [lia|].
    destruct r as [c|e].
    + destruct Hr as (name & Hn & Hd & Hc' & Hp' & Hlast).
      exists name. split; [exact Hn|]. split; [exact Hd|].
      split; [exact Hc'|]. split; [exact Hp'|].
      intros Hall. apply Hlast. lia.
    + destruct Hr as (Hr1 & Hr2 & Hr3). split; [lia | auto].
  - (* raised *)
    destruct Hreg as [Hc Hp].
    destruct (a =? 4)%nat eqn:Ha4.
    + injection H as <- <-. apply Nat.eqb_eq in Ha4.
      split; [exact Hsame|]. split; [lia|]. split; [lia|].
      split; [lia | auto].
    + apply Nat.eqb_neq in Ha4. destruct k as [|k']; [lia|].
      apply IH in H; [|lia|lia].
      destruct H as (Hsame' & Hcalls' & Hslept' & Hr).
      simpl in Hcalls', Hslept', Hr.
      rewrite Hc, Hp, Hcalls in Hr. rewrite Hcalls in Hcalls'.
      rewrite Hslept in Hslept'.
      split; [unfold same_surroundings in *; simpl in Hsame'; intuition congruence|].
      split; [lia|]. split; [lia|].
      destruct r as [c|e'].
      * destruct Hr as (name & Hn & Hd & Hc' & Hp' & Hlast).
        exists name. split; [exact Hn|]. split; [exact Hd|].
        split; [exact Hc'|]. split; [exact Hp'|].
        intros Hall. apply Hlast. lia.
      * destruct Hr as (Hr1 & Hr2 & Hr3). split; [lia | auto].
Qed.

(** X5. A call of [generate_company_data] makes at least one and at
    most five API calls, exactly five when it raises; it sleeps at most
    8 seconds in all, draws once from the random source, and touches
    neither file nor the printed output. *)
Theorem generate_company_data_budget
  (E : env) (industry : string) (info : industry_info) (w w' : world)
  (r : result json) :
  generate_company_data E industry info w = (r, w') ->
  (api_calls w < api_calls w' <= api_calls w + 5)%nat
  /\ (slept_ms w' <= slept_ms w + 8000)%N
  /\ draws w' = S (draws w)
  /\ progress_file w' = progress_file w
  /\ output_file w' = output_file w
  /\ stdout w' = stdout w
  /\ (forall e, r = Raise e -> api_calls w' = (api_calls w + 5)%nat).
Proof.
  unfold generate_company_data. intros H.
  apply attempts_inv in H;
    [| destruct (choice_3_4 (random_draw E (draws w))) as [-> | ->]; lia
     | lia | reflexivity].
  destruct H as ((Hpf & Hof & Hd & _ & Hs) & Hcalls & Hslept & Hr).
  simpl in *. split; [lia|]. split; [lia|]. split; [exact Hd|].
  split; [exact Hpf|]. split; [exact Hof|]. split; [exact Hs|].
  intros e ->. tauto.
Qed.

Lemma generate_company_data_budget_witness :
  let w' := snd (generate_company_data Samples.failing_api "SaaS" Samples.saas
                   (Samples.start ∅ ∅)) in
  api_calls w' = 5%nat /\ (slept_ms w' <= 8000)%N.
Proof.
  intros w'.
  destruct (generate_company_data_budget Samples.failing_api "SaaS" Samples.saas
              (Samples.start ∅ ∅) w' (Raise (OtherError "APIConnectionError")))
    as (_ & Hs & _ & _ & _ & _ & Hr).
  - vm_compute. reflexivity.
  - split; [exact (Hr _ eq_refl) | exact Hs].
Defined.

(** What a call of the generator does to the two registries. *)
Lemma generate_company_data_inv
  (E : env) (industry : string) (info : industry_info) (w w' : world)
  (r : result json) :
  generate_company_data E industry info w = (r, w') ->
  match r with
  | Raise _ =>
      used_company_names w' = used_company_names w
      /\ used_product_names w' = used_product_names w
  | Ok c =>
      exists name,
        company_name c = Some name
        /\ is_duplicate_company (used_company_names w) name = Ok false
        /\ used_company_names w' = {[ normal name ]} ∪ used_company_names w
        /\ used_product_names w'
           = list_to_set (List.map normal (product_names c)) ∪ used_product_names w
  end.
Proof.
  unfold generate_company_data. intros H.
  apply attempts_inv in H;
    [| destruct (choice_3_4 (random_draw E (draws w))) as [-> | ->]; lia
     | lia | reflexivity].
  destruct H as (_ & _ & _ & Hr). simpl in Hr.
  destruct r as [c|e]; [|tauto].
  destruct Hr as (name & Hn & Hd & Hc & Hp & _). exists name. auto.
Qed.

(** X6. A call of [generate_company_data] that raises leaves both
    registries as they were. A call that returns a record returns one
    whose name was not a duplicate, and adds to the registries exactly
    the normal form of that name and the normal forms of the record's
    product names. *)
Theorem generate_company_data_registers
  (E : env) (industry : string) (info : industry_info) (w w' : world)
  (r : result json) :
  generate_company_data E industry info w = (r, w') ->
  match r with
  | Raise _ =>
      used_company_names w' = used_company_names w
      /\ used_product_names w' = used_product_names w
  | Ok c =>
      exists name,
        company_name c = Some name
        /\ is_duplicate_company (used_company_names w) name = Ok false
        /\ used_company_names w' = {[ normal name ]} ∪ used_company_names w
        /\ used_product_names w'
           = list_to_set (List.map normal (product_names c)) ∪ used_product_names w
  end.
Proof. apply generate_company_data_inv. Qed.

Lemma generate_company_data_registers_witness :
  let c := Samples.company "Acme Labs" ["Ledger"; "Payroll"; "Taxes"] in
  let w' := snd (generate_company_data (Samples.constant_api c) "SaaS"
                   Samples.saas (Samples.start ∅ ∅)) in
  exists name,
    company_name c = Some name
    /\ is_duplicate_company ∅ name = Ok false
    /\ used_company_names w' = {[ normal name ]} ∪ ∅
    /\ used_product_names w'
       = list_to_set (List.map normal (product_names c)) ∪ ∅.
Proof.
  intros c w'.
  apply (generate_company_data_registers (Samples.constant_api c) "SaaS"
           Samples.saas (Samples.start ∅ ∅) w' (Ok c)).
  vm_compute. reflexivity.
Defined.

(** X8. A record returned on the fifth API call has no product whose
    normal form was registered before the call: on the last attempt the
    duplicate-product check does reject. *)
Theorem fifth_attempt_rejects_duplicate_products
  (E : env) (industry : string) (info : industry_info) (w w' : world)
  (c : json) :
  generate_company_data E industry info w = (Ok c, w') ->
  api_calls w' = (api_calls w + 5)%nat ->
  forall s, In s (product_names c) -> normal s ∉ used_product_names w.
Proof.
  unfold generate_company_data. intros H Hcalls s Hs.
  apply attempts_inv in H;
    [| destruct (choice_3_4 (random_draw E (draws w))) as [-> | ->]; lia
     | lia | reflexivity].
  destruct H as (_ & _ & _ & name & _ & _ & _ & _ & Hlast). simpl in Hlast.
  specialize (Hlast Hcalls s Hs). unfold is_duplicate_product in Hlast.
  apply bool_decide_eq_false in Hlast. exact Hlast.
Qed.

(** X7. When two calls of [generate_company_data] both return a
    record, the registry not having lost a name in between, the two
    company names have different normal forms and a token-overlap ratio
    below 0.7. *)
Theorem successive_companies_differ
  (E : env) (industry1 industry2 : string) (info1 info2 : industry_info)
  (w w1 w2 w3 : world) (c1 c2 : json) :
  generate_company_data E industry1 info1 w = (Ok c1, w1) ->
  used_company_names w1 ⊆ used_company_names w2 ->
  generate_company_data E industry2 info2 w2 = (Ok c2, w3) ->
  exists name1 name2,
    company_name c1 = Some name1 /\ company_name c2 = Some name2
    /\ normal name2 <> normal name1
    /\ ~ (7 # 10 <= overlap_ratio (words (lower name1)) (words (lower name2)))%Q.
Proof.
  intros H1 Hsub H2.
  apply generate_company_data_inv in H1.
  apply generate_company_data_inv in H2.
  destruct H1 as (name1 & Hn1 & _ & Hc1 & _).
  destruct H2 as (name2 & Hn2 & Hd2 & _).
  exists name1, name2. split; [exact Hn1|]. split; [exact Hn2|].
  assert (Hin : normal name1 ∈ used_company_names w2)
    by (apply Hsub; rewrite Hc1; set_solver).
  rewrite is_duplicate_company_eq in Hd2. injection Hd2 as Hd2.
  apply orb_false_iff in Hd2. destruct Hd2 as [Hex Hnear].
  apply bool_decide_eq_false in Hex. split.
  - intros Heq. apply Hex. unfold normal in Heq. rewrite Heq. exact Hin.
  - intros Hratio.
    assert (Hex2 : List.existsb (near_duplicate (words (strip (lower name2))))
                                (elements (used_company_names w2)) = true).
    { apply existsb_elements. exists (normal name1). split; [exact Hin|].
      unfold near_duplicate, normal. rewrite !words_strip.
      rewrite overlap_ratio_comm.
      destruct (overlap_ratio_truthy _ _ Hratio) as [Ha Hb].
      rewrite Ha, Hb. simpl. apply Qle_bool_iff. exact Hratio. }
    congruence.
Qed.

Lemma fifth_attempt_rejects_duplicate_products_witness :
  let c := Samples.company "Acme" ["Invoices"; "Payroll"; "Taxes"] in
  let w := Samples.start ∅ {[ "ledger" ]} in
  List.Forall (fun s => normal s ∉ used_product_names w) (product_names c).
Proof.
  intros c w. apply List.Forall_forall.
  apply (fifth_attempt_rejects_duplicate_products (MoreSamples.late_api c)
           "SaaS" Samples.saas w
           (snd (generate_company_data (MoreSamples.late_api c) "SaaS"
                   Samples.saas w)) c).
  - vm_compute. reflexivity.
  - reflexivity.
Defined.

Lemma successive_companies_differ_witness :
  let c1 := Samples.company "Acme" ["Ledger"; "Payroll"; "Taxes"] in
  let c2 := Samples.company "Globex" ["Invoices"; "Budget"; "Audit"] in
  exists name1 name2,
    company_name c1 = Some name1 /\ company_name c2 = Some name2
    /\ normal name2 <> normal name1
    /\ ~ (7 # 10 <= overlap_ratio (words (lower name1)) (words (lower name2)))%Q.
Proof.
  intros c1 c2.
  set (E := MoreSamples.scripted_api c1 c2).
  set (w := Samples.start ∅ ∅).
  set (w1 := snd (generate_company_data E "SaaS" Samples.saas w)).
  set (w3 := snd (generate_company_data E "SaaS" Samples.saas w1)).
  apply (successive_companies_differ E "SaaS" "SaaS" Samples.saas Samples.saas
           w w1 w1 w3 c1 c2).
  - vm_compute. reflexivity.
  - reflexivity.
  - vm_compute. reflexivity.
Defined.

End GeneratorMore.

(** ** Response cleaning *)

Section CleanResponse.
Import PyStr Py Generator.

Lemma append_cons (c : ascii) (s t : string) :
  (String c s ++ t)%string = String c (s ++ t)%string.
Proof. reflexivity. Qed.

Lemma append_nil_r (s : string) : (s ++ EmptyString)%string = s.
Proof.
  induction s as [|c s IH]; [reflexivity|]. rewrite append_cons, IH. reflexivity.
Qed.

Lemma append_assoc (a b c : string) : ((a ++ b) ++ c)%string = (a ++ (b ++ c))%string.
Proof.
  induction a as [|x a IH]; [reflexivity|]. rewrite !append_cons, IH. reflexivity.
Qed.

Lemma split_on_free (sep : ascii) (s : string) :
  free_of sep s = true -> forall piece, split_on sep piece s = [(piece ++ s)%string].
Proof.
  induction s as [|c s IH]; intros H piece.
  - simpl. rewrite append_nil_r. reflexivity.
  - simpl in H. apply andb_true_iff in H. destruct H as [Hc Hs].
    apply negb_true_iff in Hc. cbn [split_on]. rewrite Hc, (IH Hs), append_assoc.
    reflexivity.
Qed.

Lemma split_on_first (sep : ascii) (a b : string) :
  free_of sep a = true ->
  forall piece, split_on sep piece (a ++ String sep b)
                = (piece ++ a)%string :: split_on sep EmptyString b.
Proof.
  induction a as [|c a IH]; intros H piece.
  - change (EmptyString ++ String sep b)%string with (String sep b).
    cbn [split_on]. rewrite Ascii.eqb_refl, append_nil_r. reflexivity.
  - simpl in H. apply andb_true_iff in H. destruct H as [Hc Ha].
    apply negb_true_iff in Hc. rewrite append_cons. cbn [split_on].
    rewrite Hc, (IH Ha), append_assoc. reflexivity.
Qed.

Lemma split_on_last (sep : ascii) (t : string) :
  free_of sep t = true ->
  forall b piece, split_on sep piece (b ++ String sep t)
                  = split_on sep piece b ++ [t].
Proof.
  intros Ht. induction b as [|c b IH]; intros piece.
  - change (EmptyString ++ String sep t)%string with (String sep t).
    cbn [split_on]. rewrite Ascii.eqb_refl, (split_on_free sep t Ht). reflexivity.
  - rewrite append_cons. cbn [split_on].
    destruct (Ascii.eqb c sep); rewrite IH; reflexivity.
Qed.

Lemma split_on_nonempty (sep : ascii) (s : string) :
  forall piece, split_on sep piece s <> [].
Proof.
  induction s as [|c s IH]; intros piece; cbn [split_on]; [discriminate|].
  destruct (Ascii.eqb c sep); [discriminate | apply IH].
Qed.

Lemma join_cons (sep a : string) (l : list string) :
  l <> [] -> join sep (a :: l) = (a ++ sep ++ join sep l)%string.
Proof. destruct l; [congruence | reflexivity]. Qed.

(** Joining the pieces with the separator gives the string back. *)
Lemma join_split_on (sep : ascii) (s : string) :
  forall piece, join (String sep EmptyString) (split_on sep piece s)
                = (piece ++ s)%string.
Proof.
  induction s as [|c s IH]; intros piece; cbn [split_on].
  - simpl. rewrite append_nil_r. reflexivity.
  - destruct (Ascii.eqb c sep) eqn:Hc.
    + apply Ascii.eqb_eq in Hc. subst c.
      rewrite join_cons by apply split_on_nonempty.
      rewrite IH. reflexivity.
    + rewrite IH, append_assoc. reflexivity.
Qed.

Lemma rstrip_ends_nonspace (s : string) (c : ascii) :
  is_space c = false ->
  rstrip (s ++ String c EmptyString) = (s ++ String c EmptyString)%string.
Proof.
  intros Hc. induction s as [|x s IH].
  - simpl. rewrite Hc. reflexivity.
  - rewrite append_cons. cbn [rstrip]. rewrite IH.
    destruct (s ++ String c EmptyString)%string eqn:Hs;
      [destruct s; discriminate | reflexivity].
Qed.


Lemma free_of_app (sep : ascii) (a b : string) :
  free_of sep (a ++ b) = free_of sep a && free_of sep b.
Proof.
  induction a as [|c a IH]; [reflexivity|].
  rewrite append_cons. simpl. rewrite IH, andb_assoc. reflexivity.
Qed.

(** X9. A response made of a fence line, a body and a closing fence
    line is cleaned to its body, verbatim; only a body that itself
    starts with "json" loses those four characters and is trimmed. *)
Theorem clean_response_unwraps_fence (tag body : string) :
  free_of newline tag = true ->
  clean_response
    (("```" ++ tag) ++ String newline (body ++ String newline "```"))
  = if is_prefix "json" body then strip (drop 4 body) else body.
Proof.
  intros Htag. unfold clean_response.
  set (text := (("```" ++ tag) ++ String newline (body ++ String newline "```"))%string).
  assert (Hstrip : strip text = text).
  { unfold strip.
    assert (Hl : lstrip text = text) by reflexivity.
    rewrite Hl.
    assert (Hend : text = ((("```" ++ tag) ++ String newline (body ++ String newline "``"))
                           ++ String "`" EmptyString)%string).
    { unfold text. rewrite !append_assoc. do 3 f_equal.
      rewrite !append_cons. f_equal. rewrite append_assoc. reflexivity. }
    rewrite Hend. apply rstrip_ends_nonspace. reflexivity. }
  rewrite Hstrip.
  assert (Hprefix : is_prefix "```" text = true) by reflexivity.
  rewrite Hprefix. unfold text.
  rewrite split_on_first
    by (rewrite free_of_app, Htag; reflexivity).
  rewrite (split_on_last newline "```" eq_refl).
  cbn [tl]. rewrite removelast_last, join_split_on. reflexivity.
Qed.

Lemma clean_response_unwraps_fence_witness :
  clean_response
    (("```" ++ "json") ++ String newline ("[1, 2]" ++ String newline "```"))
  = "[1, 2]".
Proof.
  exact (clean_response_unwraps_fence "json" "[1, 2]" eq_refl).
Defined.

(** X10. A fenced response on a single line is cleaned to the empty
    string: its first and last line are the same line, and both are
    dropped. *)
Theorem clean_response_drops_one_line_fence (text : string) :
  is_prefix "```" (strip text) = true ->
  free_of newline (strip text) = true ->
  clean_response text = EmptyString.
Proof.
  intros Hp Hf. unfold clean_response. rewrite Hp, (split_on_free _ _ Hf).
  reflexivity.
Qed.

Lemma clean_response_drops_one_line_fence_witness :
  clean_response "```[1, 2]```" = EmptyString.
Proof.
  apply clean_response_drops_one_line_fence; reflexivity.
Defined.

End CleanResponse.

(** ** Checkpoint and orchestrator: further properties *)

Section OrchestratorMore.
Import PyStr Py Registry Generator.

Lemma set_used_company_names_same (w : world) :
  set_used_company_names (used_company_names w) w = w.
Proof. destruct w. reflexivity. Qed.

Lemma set_used_product_names_same (w : world) :
  set_used_product_names (used_product_names w) w = w.
Proof. destruct w. reflexivity. Qed.



Lemma generated_company_shape (E : env) (industry : string)
  (info : industry_info) (w w' : world) (c : json) :
  generate_company_data E industry info w = (Ok c, w') ->
  three_or_four c
  /\ exists name prods n,
       getitem c "name" = Ok name /\ getitem c "products" = Ok prods
       /\ len prods = Ok n.
Proof.
  intros H. split; [|exact (generate_company_data_shape _ _ _ _ _ _ H)].
  unfold generate_company_data in H.
  apply attempts_return in H; [|simpl; tauto].
  destruct H as (attempt & w1 & _ & H).
  destruct (choice_3_4 (random_draw E (draws w))) as [Hn | Hn];
    rewrite Hn in H; apply attempt_try_return in H; try lia;
    destruct H as [H _]; [left | right]; exact H.
Qed.

(** One pass of the loop body over a list. *)
Lemma iteration_on_list (E : env) (i : Z) (l : list json) (w : world)
  (all' : json) (w' : world) :
  iteration E i (JArr l, w) = (all', w') ->
  (all' = JArr l /\ checkpoint_of (progress_file w') = Some (all', JNum i))
  \/ (exists c, all' = JArr (l ++ [c]) /\ three_or_four c
                /\ checkpoint_of (progress_file w') = Some (all', JNum (i + 1))).
Proof.
  unfold iteration. destruct (pick_industry E w) as [industry info].
  unfold iteration_try.
  destruct (generate_company_data E industry info _) as [[company|e] w1] eqn:Hg.
  - pose proof (generated_company_shape _ _ _ _ _ _ Hg) as (Hwf & name & prods & n & Hn & Hp & Hl).
    cbn [append]. rewrite Hn, Hp, Hl. intros H. injection H as <- <-.
    right. exists company. auto.
  - intros H. injection H as <- <-. left. auto.
Qed.


Lemma iterations_on_list (E : env) (indices : list Z) :
  forall l w all' w',
  iterations E indices (JArr l, w) = (all', w') ->
  exists added,
    all' = JArr (l ++ added)
    /\ (List.length added <= List.length indices)%nat
    /\ Forall three_or_four added
    /\ (indices <> [] ->
        checkpoint_of (progress_file w')
        = Some (all', JNum (List.last indices 0%Z))
        \/ checkpoint_of (progress_file w')
           = Some (all', JNum (List.last indices 0%Z + 1))).
Proof.
  induction indices as [|i rest IH]; intros l w all' w' H.
  - simpl in H. injection H as <- <-. exists []. rewrite app_nil_r.
    split; [reflexivity|]. split; [simpl; lia|]. split; [constructor|].
    intros Hne. congruence.
  - cbn [iterations] in H.
    destruct (iteration E i (JArr l, w)) as [all1 w1] eqn:Hi.
    apply iteration_on_list in Hi.
    assert (Hstep : exists added1,
               all1 = JArr (l ++ added1)
               /\ (List.length added1 <= 1)%nat /\ Forall three_or_four added1
               /\ (checkpoint_of (progress_file w1) = Some (all1, JNum i)
                   \/ checkpoint_of (progress_file w1) = Some (all1, JNum (i + 1)))).
    { destruct Hi as [[-> Hc] | (c & -> & Hwf & Hc)].
      - exists []. rewrite app_nil_r. simpl. auto 10.
      - exists [c]. simpl. auto 10. }
    destruct Hstep as (added1 & -> & Hlen1 & Hwf1 & Hc1).
    destruct rest as [|j rest'].
    + simpl in H. injection H as <- <-. exists added1.
      split; [reflexivity|]. split; [simpl; lia|]. split; [exact Hwf1|].
      intros _. simpl. exact Hc1.
    + apply IH in H. destruct H as (added & -> & Hlen & Hwf & Hc).
      exists (added1 ++ added). rewrite app_assoc.
      split; [reflexivity|].
      split; [rewrite length_app; simpl in *; lia|].
      split; [apply Forall_app; auto|].
      intros _.
      change (List.last (i :: j :: rest') 0%Z) with (List.last (j :: rest') 0%Z).
      apply Hc. discriminate.
Qed.

Lemma sum_products_ok (l : list json) :
  Forall three_or_four l -> exists total, sum_products l = Ok total.
Proof.
  intros H. induction H as [|c rest Hc _ IH]; simpl; [eauto|].
  destruct IH as (m & Hm).
  assert (Hp : exists ps, getitem c "products" = Ok (JArr ps)).
  { unfold three_or_four, product_count in Hc.
    destruct c as [| | | | | |d]; try (destruct Hc; discriminate).
    simpl. destruct (dict_find "products" d) as [[| | | | |ps|]|];
      try (destruct Hc; discriminate). eauto. }
  destruct Hp as (ps & ->). simpl. rewrite Hm. eauto.
Qed.


Lemma generation_fresh (E : env) (w : world) :
  exists l w1,
    generation E false w = Some (Ok (JArr l), w1)
    /\ (List.length l <= 10)%nat
    /\ Forall three_or_four l
    /\ exists_file (progress_file w1) = true
    /\ (checkpoint_of (progress_file w1) = Some (JArr l, JNum 9)
        \/ checkpoint_of (progress_file w1) = Some (JArr l, JNum 10)).
Proof.
  unfold generation, resume_check. cbn [truthy as_index].
  destruct (iterations E (range 0 (Z.of_nat TOTAL_COMPANIES))
              (JArr [], print Generating_total (print Banner w)))
    as [all' w1] eqn:Hit.
  pose proof (iterations_save E (range 0 (Z.of_nat TOTAL_COMPANIES))
                (JArr [], print Generating_total (print Banner w))
                (or_introl (range_nonempty 0 10 eq_refl))) as Hex.
  rewrite Hit in Hex. cbn [snd] in Hex.
  apply iterations_on_list in Hit.
  destruct Hit as (added & -> & Hlen & Hwf & Hc).
  exists added, w1. split; [reflexivity|]. split; [exact Hlen|].
  split; [exact Hwf|]. split; [exact Hex|].
  apply Hc. discriminate.
Qed.

End OrchestratorMore.

(** ** Ingestion endpoint: further properties *)

Section IngestMore.
Import Py Ingest.
Variable E : env.

Lemma stage_all_counts (items : list json) :
  forall l k errs s l' k' errs' s',
  stage_all E items l k errs s = (Ok (l', k', errs'), s') ->
  (l' + k' + List.length errs' = l + k + List.length errs + List.length items)%nat.
Proof.
  induction items as [|c rest IH]; intros l k errs s l' k' errs' s' H; simpl in H.
  - injection H as <- <- <- _. simpl. lia.
  - destruct (stage_company E c s) as [[[|]|e] s1].
    + apply IH in H. simpl. lia.
    + apply IH in H. simpl. lia.
    + destruct (get c "name" (JStr "Unknown")); [|discriminate H].
      apply IH in H. rewrite length_app in H. simpl in *. lia.
Qed.

(** *** The committed rows change only at the commit *)

Lemma insert_company_committed (attrs : list (string * json)) (s s' : session)
  (r : result json) :
  insert_company E attrs s = (r, s') -> committed s' = committed s.
Proof.
  unfold insert_company, primary_key.
  destruct (is_null (column "id" attrs));
    destruct (check_values company_required attrs);
    repeat (destruct (List.existsb _ _));
    intros H; injection H as _ <-; reflexivity.
Qed.

Lemma insert_product_committed (cid : json) (attrs : list (string * json))
  (s s' : session) (r : result unit) :
  insert_product E cid attrs s = (r, s') -> committed s' = committed s.
Proof.
  unfold insert_product, primary_key.
  destruct (is_null (column "id" attrs));
    destruct (check_values product_required attrs);
    repeat (destruct (List.existsb _ _)); simpl;
    intros H; injection H as _ <-; reflexivity.
Qed.

Lemma insert_all_committed (objs : list pending_object) :
  forall s s' r, insert_all E objs s = (r, s') -> committed s' = committed s.
Proof.
  induction objs as [|o rest IH]; intros s s' r H; simpl in H.
  - injection H as _ <-. reflexivity.
  - destruct o as [attrs | cid attrs].
    + destruct (insert_company E attrs s) as [[id|e] s1] eqn:Hi;
        apply insert_company_committed in Hi.
      * destruct (insert_all E rest s1) as [[ids|e] s2] eqn:Hr;
          apply IH in Hr; injection H as _ <-; congruence.
      * injection H as _ <-. exact Hi.
    + destruct (insert_product E cid attrs s) as [[[]|e] s1] eqn:Hi;
        apply insert_product_committed in Hi.
      * apply IH in H. congruence.
      * injection H as _ <-. exact Hi.
Qed.

Lemma flush_committed (s s' : session) (r : result (list json)) :
  flush E s = (r, s') -> committed s' = committed s.
Proof.
  unfold flush. destruct (insert_all E _ s) as [[ids|e] s1] eqn:Hi;
    apply insert_all_committed in Hi; intros H; injection H as _ <-; exact Hi.
Qed.

Lemma company_exists_committed (v : json) (s s' : session) (r : result bool) :
  company_exists E v s = (r, s') -> committed s' = committed s.
Proof.
  unfold company_exists. destruct (autoflush E).
  - destruct (flush E s) as [[ids|e] s1] eqn:Hf; apply flush_committed in Hf.
    + destruct (negb (bindable v)); intros H; injection H as _ <-; exact Hf.
    + intros H; injection H as _ <-; exact Hf.
  - destruct (negb (bindable v)); intros H; injection H as _ <-; reflexivity.
Qed.

Lemma add_products_committed (cid : json) (items : list json) :
  forall s s' r, add_products E cid items s = (r, s') -> committed s' = committed s.
Proof.
  induction items as [|item rest IH]; intros s s' r H; simpl in H.
  - injection H as _ <-. reflexivity.
  - destruct item; try (injection H as _ <-; reflexivity).
    destruct (dict_find "company_id" _); [injection H as _ <-; reflexivity|].
    destruct (construct E product_columns ["company"] _);
      [|injection H as _ <-; reflexivity].
    apply IH in H. exact H.
Qed.

Lemma stage_company_committed (c : json) (s s' : session) (r : result staged) :
  stage_company E c s = (r, s') -> committed s' = committed s.
Proof.
  unfold stage_company. intros H.
  destruct c as [| | | | | |d]; try (injection H as _ <-; reflexivity).
  destruct (dict_find "name" d) as [v|]; [|injection H as _ <-; reflexivity].
  destruct (company_exists E v s) as [[[|]|e] s1] eqn:Hq;
    apply company_exists_committed in Hq;
    try (injection H as _ <-; exact Hq).
  destruct (construct E company_columns ["products"] _) as [attrs|e];
    [|injection H as _ <-; exact Hq].
  destruct (flush E (add (NewCompany attrs) s1)) as [[ids|e] s2] eqn:Hf;
    apply flush_committed in Hf; simpl in Hf;
    [|injection H as _ <-; congruence].
  destruct (iter _) as [items|e]; [|injection H as _ <-; congruence].
  destruct (add_products E _ items s2) as [[[]|e] s3] eqn:Ha;
    apply add_products_committed in Ha; injection H as _ <-; congruence.
Qed.

Lemma stage_all_committed (items : list json) :
  forall l k errs s r s',
  stage_all E items l k errs s = (r, s') -> committed s' = committed s.
Proof.
  induction items as [|c rest IH]; intros l k errs s r s' H; simpl in H.
  - injection H as _ <-. reflexivity.
  - destruct (stage_company E c s) as [[[|]|e] s1] eqn:Hc;
      apply stage_company_committed in Hc.
    + apply IH in H. congruence.
    + apply IH in H. congruence.
    + destruct (get c "name" (JStr "Unknown")).
      * apply IH in H. simpl in H. congruence.
      * injection H as _ <-. exact Hc.
Qed.


(** *** Companies inserted in the open transaction *)

Lemma insert_company_count (attrs : list (string * json)) (s s' : session) (id : json) :
  insert_company E attrs s = (Ok id, s') ->
  List.length (companies (inserted s')) = S (List.length (companies (inserted s)))
  /\ pending s' = pending s.
Proof.
  unfold insert_company. destruct (primary_key E attrs s) as [id0 s1].
  destruct (check_values company_required attrs) as [[]|e]; [|discriminate].
  destruct (List.existsb _ _); [discriminate|].
  destruct (List.existsb _ _); [discriminate|].
  intros H. injection H as _ <-. simpl. rewrite length_app. simpl. split; [lia | reflexivity].
Qed.

Lemma insert_product_count (cid : json) (attrs : list (string * json))
  (s s' : session) :
  insert_product E cid attrs s = (Ok tt, s') ->
  companies (inserted s') = companies (inserted s) /\ pending s' = pending s.
Proof.
  unfold insert_product. destruct (primary_key E attrs s) as [id0 s1].
  destruct (check_values product_required attrs) as [[]|e]; [|discriminate].
  destruct (List.existsb _ _); [discriminate|].
  destruct (negb _); [discriminate|].
  intros H. injection H as <-. simpl. auto.
Qed.

Lemma insert_all_products_count (objs : list pending_object) :
  Forall (fun o => is_new_company o = false) objs ->
  forall s s' ids, insert_all E objs s = (Ok ids, s') ->
  companies (inserted s') = companies (inserted s) /\ pending s' = pending s.
Proof.
  intros Hall. induction Hall as [|o rest Ho _ IH]; intros s s' ids H; simpl in H.
  - injection H as _ <-. auto.
  - destruct o as [attrs | cid attrs]; [discriminate Ho|].
    destruct (insert_product E cid attrs s) as [[[]|e] s1] eqn:Hi; [|discriminate H].
    apply insert_product_count in Hi. apply IH in H.
    destruct Hi, H. split; congruence.
Qed.

Lemma filter_none {A} (f : A -> bool) (l : list A) :
  Forall (fun x => f x = false) l -> List.filter f l = [].
Proof.
  intros H. induction H as [|x l Hx _ IH]; simpl; [reflexivity|].
  rewrite Hx. exact IH.
Qed.

Lemma filter_all {A} (f : A -> bool) (l : list A) :
  Forall (fun x => f x = false) l -> List.filter (fun x => negb (f x)) l = l.
Proof.
  intros H. induction H as [|x l Hx _ IH]; simpl; [reflexivity|].
  rewrite Hx. simpl. rewrite IH. reflexivity.
Qed.

(** Flushing products only inserts no company. *)
Lemma flush_products_count (s s' : session) (ids : list json) :
  only_products_pending s ->
  flush E s = (Ok ids, s') ->
  companies (inserted s') = companies (inserted s) /\ pending s' = [].
Proof.
  unfold only_products_pending, flush. intros Hp.
  rewrite (filter_none _ _ Hp), (filter_all _ _ Hp). simpl.
  destruct (insert_all E (pending s) s) as [[ids'|e] s1] eqn:Hi; [|discriminate].
  intros H. injection H as _ <-. simpl.
  apply (insert_all_products_count _ Hp) in Hi. tauto.
Qed.

(** Flushing one new company among products inserts exactly one. *)
Lemma flush_company_count (attrs : list (string * json)) (s s' : session)
  (ids : list json) :
  only_products_pending s ->
  flush E (add (NewCompany attrs) s) = (Ok ids, s') ->
  List.length (companies (inserted s')) = S (List.length (companies (inserted s)))
  /\ pending s' = [].
Proof.
  unfold only_products_pending, flush. intros Hp. simpl.
  rewrite !List.filter_app, (filter_none _ _ Hp), (filter_all _ _ Hp). simpl.
  rewrite app_nil_r.
  destruct (insert_company E attrs (add (NewCompany attrs) s)) as [[id|e] s1] eqn:Hc;
    [|discriminate].
  destruct (insert_all E (pending s) s1) as [[ids'|e] s2] eqn:Hi; [|discriminate].
  intros H. injection H as _ <-. simpl.
  apply insert_company_count in Hc. apply (insert_all_products_count _ Hp) in Hi.
  destruct Hc as [Hc _], Hi as [Hi _]. simpl in Hc. split; [congruence | reflexivity].
Qed.

Lemma company_exists_count (v : json) (s s' : session) (b : bool) :
  only_products_pending s ->
  company_exists E v s = (Ok b, s') ->
  companies (inserted s') = companies (inserted s) /\ only_products_pending s'.
Proof.
  unfold company_exists. intros Hp. destruct (autoflush E).
  - destruct (flush E s) as [[ids|e] s1] eqn:Hf; [|discriminate].
    apply (flush_products_count _ _ _ Hp) in Hf. destruct Hf as [Hc Hpe].
    destruct (negb (bindable v)); [discriminate|].
    intros H. injection H as _ <-. split; [exact Hc|].
    unfold only_products_pending. rewrite Hpe. constructor.
  - destruct (negb (bindable v)); [discriminate|].
    intros H. injection H as _ <-. auto.
Qed.

Lemma add_products_count (cid : json) (items : list json) :
  forall s s', add_products E cid items s = (Ok tt, s') ->
  only_products_pending s ->
  companies (inserted s') = companies (inserted s) /\ only_products_pending s'.
Proof.
  induction items as [|item rest IH]; intros s s' H Hp; simpl in H.
  - injection H as <-. auto.
  - destruct item; try discriminate H.
    destruct (dict_find "company_id" _); [discriminate H|].
    destruct (construct E product_columns ["company"] _) as [attrs|]; [|discriminate H].
    apply IH in H.
    + simpl in H. exact H.
    + unfold only_products_pending. simpl. apply Forall_app. split; [exact Hp|].
      constructor; [reflexivity | constructor].
Qed.

Lemma stage_company_count (c : json) (s s' : session) (st : staged) :
  only_products_pending s ->
  stage_company E c s = (Ok st, s') ->
  only_products_pending s'
  /\ List.length (companies (inserted s'))
     = (List.length (companies (inserted s))
        + match st with Loaded => 1 | Skipped => 0 end)%nat.
Proof.
  unfold stage_company. intros Hp.
  destruct c as [| | | | | |d]; try discriminate.
  destruct (dict_find "name" d) as [v|]; [|discriminate].
  destruct (company_exists E v s) as [[[|]|e] s1] eqn:Hq; [| |discriminate];
    apply (company_exists_count _ _ _ _ Hp) in Hq; destruct Hq as [Hc Hp1].
  - intros H. injection H as <- <-. split; [exact Hp1 | rewrite Hc; lia].
  - destruct (construct E company_columns ["products"] _) as [attrs|e]; [|discriminate].
    destruct (flush E (add (NewCompany attrs) s1)) as [[ids|e] s2] eqn:Hf;
      [|discriminate].
    apply (flush_company_count _ _ _ _ Hp1) in Hf. destruct Hf as [Hc2 Hpe2].
    destruct (iter _) as [items|e]; [|discriminate].
    destruct (add_products E _ items s2) as [[[]|e] s3] eqn:Ha; [|discriminate].
    apply add_products_count in Ha;
      [|unfold only_products_pending; rewrite Hpe2; constructor].
    destruct Ha as [Hc3 Hp3].
    intros H. injection H as <- <-. split; [exact Hp3|].
    rewrite Hc3, Hc2, Hc. lia.
Qed.

(** The companies inserted and not rolled back never outnumber the
    count of loaded companies, and match its growth when no error
    occurs. *)
Lemma stage_all_count (items : list json) :
  forall l k errs s l' k' errs' s',
  stage_all E items l k errs s = (Ok (l', k', errs'), s') ->
  only_products_pending s ->
  (List.length (companies (inserted s)) <= l)%nat ->
  only_products_pending s'
  /\ (List.length (companies (inserted s')) <= l')%nat
  /\ (errs' = errs ->
      (List.length (companies (inserted s')) + l
       = List.length (companies (inserted s)) + l')%nat).
Proof.
  induction items as [|c rest IH]; intros l k errs s l' k' errs' s' H Hp Hle;
    simpl in H.
  - injection H as <- _ _ <-. split; [exact Hp|]. split; [exact Hle | lia].
  - destruct (stage_company E c s) as [[st|e] s1] eqn:Hc.
    + apply (stage_company_count _ _ _ _ Hp) in Hc. destruct Hc as [Hp1 Hc1].
      destruct st.
      * apply IH in H; [|exact Hp1|lia]. destruct H as (Hp' & Hle' & Heq).
        split; [exact Hp'|]. split; [exact Hle'|].
        intros He. specialize (Heq He). lia.
      * apply IH in H; [|exact Hp1|lia]. destruct H as (Hp' & Hle' & Heq).
        split; [exact Hp'|]. split; [exact Hle'|].
        intros He. specialize (Heq He). lia.
    + destruct (get c "name" (JStr "Unknown")); [|discriminate H].
      pose proof (stage_all_errors_grow E _ _ _ _ _ _ _ _ _ H) as Hgrow.
      apply IH in H; [|constructor|simpl; lia].
      destruct H as (Hp' & Hle' & _).
      split; [exact Hp'|]. split; [exact Hle'|].
      intros ->. rewrite length_app in Hgrow. simpl in Hgrow. lia.
Qed.

Lemma commit_companies (s s' : session) :
  only_products_pending s ->
  commit E s = (Ok tt, s') ->
  companies (committed s') = companies (committed s) ++ companies (inserted s).
Proof.
  unfold commit. intros Hp.
  destruct (flush E s) as [[ids|e] s1] eqn:Hf; [|discriminate].
  pose proof (flush_committed _ _ _ Hf) as Hc.
  apply (flush_products_count _ _ _ Hp) in Hf. destruct Hf as [Hi _].
  intros H. injection H as <-. simpl. unfold visible_companies.
  rewrite Hc, Hi. reflexivity.
Qed.

End IngestMore.

Section IngestMoreClaims.
Import Py Ingest.

(** X14. In a 201 answer, the numbers of loaded, skipped and reported
    companies add up to the number of companies of the file. *)
Theorem every_company_is_counted_once
  (E : env) (f : file) (s s' : session) (body : response) :
  load_data_from_json E f s = (Created body, s') ->
  (loaded body + skipped body + error_count body
   = List.length (file_companies f))%nat.
Proof.
  unfold load_data_from_json, file_companies, error_count.
  destruct f as [| | |data]; try discriminate.
  destruct (get data "companies" (JArr [])) as [cd|e]; [|discriminate].
  destruct (negb (truthy cd)); [discriminate|].
  destruct (iter cd) as [items|e]; [|discriminate].
  destruct (stage_all E items 0 0 [] s) as [[[[l k] errs]|e] s0] eqn:Hs;
    [|discriminate].
  destruct (commit E s0) as [[[]|e] s2]; [|discriminate].
  intros H. injection H as <- _. simpl.
  apply stage_all_counts in Hs. simpl in Hs.
  destruct errs; simpl in *; lia.
Qed.

Lemma every_company_is_counted_once_witness :
  let E := IngestSamples.uuids in
  let f := IngestSamples.input
             [IngestSamples.company "c1" "Acme" [IngestSamples.product "p1" "Ledger"];
              IngestSamples.nameless;
              IngestSamples.company "c2" "Acme" []] in
  let s := begin IngestSamples.empty_store 0 in
  exists body,
    fst (load_data_from_json E f s) = Created body
    /\ (loaded body + skipped body + error_count body = 3)%nat.
Proof.
  intros E f s.
  destruct (load_data_from_json E f s) as [o s'] eqn:Hl.
  assert (Ho : exists body, o = Created body).
  { vm_compute in Hl. injection Hl as <- _. eexists. reflexivity. }
  destruct Ho as [body ->]. exists body. split; [reflexivity|].
  apply (every_company_is_counted_once E f s s' body Hl).
Defined.

(** X15. A load that answers 201 leaves the company rows the store had
    in place and appends new ones: never more than the [loaded] count it
    reports, and exactly that many when it reports no error. *)
Theorem persisted_companies_bounded_by_loaded
  (E : env) (f : file) (st : store) (draws : nat) (s' : session)
  (body : response) :
  load_data_from_json E f (begin st draws) = (Created body, s') ->
  exists added,
    companies (committed s') = companies st ++ added
    /\ (List.length added <= loaded body)%nat
    /\ (errors body = None -> List.length added = loaded body).
Proof.
  unfold load_data_from_json.
  destruct f as [| | |data]; try discriminate.
  destruct (get data "companies" (JArr [])) as [cd|e]; [|discriminate].
  destruct (negb (truthy cd)); [discriminate|].
  destruct (iter cd) as [items|e]; [|discriminate].
  destruct (stage_all E items 0 0 [] (begin st draws))
    as [[[[l k] errs]|e] s0] eqn:Hs; [|discriminate].
  destruct (commit E s0) as [[[]|e] s2] eqn:Hc; [|discriminate].
  intros H. injection H as <- <-. simpl.
  pose proof (stage_all_committed E _ _ _ _ _ _ _ Hs) as Hcom.
  apply stage_all_count in Hs; [|constructor|simpl; lia].
  destruct Hs as (Hp & Hle & Heq).
  apply (commit_companies E _ _ Hp) in Hc.
  exists (companies (inserted s0)). rewrite Hc, Hcom. split; [reflexivity|].
  split; [exact Hle|].
  intros Hnone. destruct errs; [|discriminate Hnone].
  specialize (Heq eq_refl). simpl in Heq. lia.
Qed.

Lemma persisted_companies_bounded_by_loaded_witness :
  let E := IngestSamples.uuids in
  let f := IngestSamples.input
             [IngestSamples.company "c1" "Acme" [IngestSamples.product "p1" "Ledger"];
              IngestSamples.company "c2" "Bolt" []] in
  exists body s',
    load_data_from_json E f (begin IngestSamples.empty_store 0) = (Created body, s')
    /\ exists added,
         companies (committed s') = companies IngestSamples.empty_store ++ added
         /\ (List.length added <= loaded body)%nat
         /\ (errors body = None -> List.length added = loaded body).
Proof.
  intros E f.
  destruct (load_data_from_json E f (begin IngestSamples.empty_store 0))
    as [o s'] eqn:Hl.
  assert (Ho : exists body, o = Created body).
  { vm_compute in Hl. injection Hl as <- _. eexists. reflexivity. }
  destruct Ho as [body ->]. exists body, s'. split; [reflexivity|].
  apply (persisted_companies_bounded_by_loaded E f IngestSamples.empty_store 0
           s' body Hl).
Defined.

(** X16. An error answer commits nothing. Its status is 404 exactly
    for a missing file, 400 exactly for a file that is not JSON, and 500
    in every other case, in which the session has been rolled back. *)
Theorem error_answers_commit_nothing
  (E : env) (f : file) (s s' : session) (status : nat) :
  load_data_from_json E f s = (HttpError status, s') ->
  committed s' = committed s
  /\ (status = 404%nat <-> f = Absent)
  /\ (status = 400%nat <-> f = Undecodable)
  /\ (status = 404%nat \/ status = 400%nat
      \/ (status = 500%nat /\ s' = rollback s')).
Proof.
  unfold load_data_from_json.
  assert (Hfin : forall data s1, committed s1 = committed s ->
             committed (rollback s1) = committed s
             /\ (500%nat = 404%nat <-> Holds data = Absent)
             /\ (500%nat = 400%nat <-> Holds data = Undecodable)
             /\ (500%nat = 404%nat \/ 500%nat = 400%nat
                 \/ (500%nat = 500%nat /\ rollback s1 = rollback (rollback s1)))).
  { intros data s1 H1. repeat split; try discriminate; try exact H1.
    right. right. split; reflexivity. }
  destruct f as [| | |data].
  - intros H. injection H as <- <-. repeat split; try congruence. auto.
  - intros H. injection H as <- <-. repeat split; try congruence.
    right. right. split; reflexivity.
  - intros H. injection H as <- <-. repeat split; try congruence. auto.
  - destruct (get data "companies" (JArr [])) as [cd|e].
    2:{ intros H. injection H as <- <-. apply Hfin. reflexivity. }
    destruct (negb (truthy cd)).
    { intros H. injection H as <- <-. apply Hfin. reflexivity. }
    destruct (iter cd) as [items|e].
    2:{ intros H. injection H as <- <-. apply Hfin. reflexivity. }
    destruct (stage_all E items 0 0 [] s) as [[[[l k] errs]|e] s0] eqn:Hs;
      pose proof (stage_all_committed E _ _ _ _ _ _ _ Hs) as Hcom.
    2:{ intros H. injection H as <- <-. apply Hfin. exact Hcom. }
    destruct (commit E s0) as [[[]|e] s2] eqn:Hc; [discriminate|].
    intros H. injection H as <- <-.
    assert (Hc2 : committed s2 = committed s).
    { unfold commit in Hc. destruct (flush E s0) as [[ids|e'] s3] eqn:Hf;
        [discriminate|]. injection Hc as _ <-.
      apply flush_committed in Hf. congruence. }
    apply (Hfin data (rollback s2)). exact Hc2.
Qed.

Lemma error_answers_commit_nothing_witness :
  let E := IngestSamples.uuids in
  let s := begin IngestSamples.empty_store 0 in
  load_data_from_json E (Holds (JObj [("companies", JArr [])])) s
  = (HttpError 500, rollback s)
  /\ committed (rollback s) = committed s.
Proof.
  intros E s. split; [reflexivity|].
  apply (error_answers_commit_nothing E (Holds (JObj [("companies", JArr [])]))
           s (rollback s) 500).
  reflexivity.
Defined.

(** X17. A file that decodes but holds no company to process (no
    ["companies"] key, an empty list, or a value that cannot be iterated) is
    answered with status 500: the 400 raised for an empty list is caught by
    the endpoint's own catch-all handler. *)
Theorem no_companies_is_a_500
  (E : env) (data : json) (s : session) :
  file_companies (Holds data) = [] ->
  fst (load_data_from_json E (Holds data) s) = HttpError 500.
Proof.
  unfold load_data_from_json, file_companies.
  destruct (get data "companies" (JArr [])) as [cd|e]; [|reflexivity].
  destruct (iter cd) as [items|e] eqn:Hit.
  - intros ->.
    assert (Hf : truthy cd = false).
    { destruct cd as [| | | |str|l|d]; simpl in Hit; try discriminate Hit.
      - destruct str; [reflexivity|]. simpl in Hit. discriminate Hit.
      - injection Hit as ->. reflexivity.
      - destruct d; [reflexivity|]. simpl in Hit. discriminate Hit. }
    rewrite Hf. reflexivity.
  - intros _. destruct (negb (truthy cd)); reflexivity.
Qed.

Lemma no_companies_is_a_500_witness :
  let E := IngestSamples.uuids in
  file_companies (Holds (JObj [])) = []
  /\ fst (load_data_from_json E (Holds (JObj []))
                              (begin IngestSamples.empty_store 0))
     = HttpError 500.
Proof.
  intros E. split; [reflexivity|].
  apply (no_companies_is_a_500 E (JObj []) (begin IngestSamples.empty_store 0)).
  reflexivity.
Defined.

End IngestMoreClaims.

(** ** The list endpoints *)

Section Pages.
Import Py Ingest Crud.

Lemma ceil_div_bounds (t n : Z) :
  (0 < n)%Z -> ((ceil_div t n - 1) * n < t <= ceil_div t n * n)%Z.
Proof.
  intros Hn. unfold ceil_div.
  pose proof (Z.div_mod (- t) n ltac:(lia)) as Hd.
  pose proof (Z.mod_pos_bound (- t) n Hn) as Hm.
  nia.
Qed.

Lemma ceil_div_nonneg (t n : Z) :
  (0 < n)%Z -> (0 <= t)%Z -> (0 <= ceil_div t n)%Z.
Proof.
  intros Hn Ht. pose proof (ceil_div_bounds t n Hn). nia.
Qed.

(** Consecutive slices of width [m] cover a list. *)
Lemma slices_concat {A} (m : nat) :
  forall (k : nat) (q : list A),
  (List.length q <= k * m)%nat ->
  List.concat (List.map (fun i => List.firstn m (List.skipn (i * m) q))
                        (List.seq 0 k)) = q.
Proof.
  induction k as [|k IH]; intros q Hlen.
  - simpl in *. destruct q; [reflexivity | simpl in Hlen; lia].
  - change (List.seq 0 (S k)) with (0%nat :: List.seq 1 k).
    rewrite <- List.seq_shift. cbn [List.map List.concat].
    rewrite List.map_map. change (0 * m)%nat with 0%nat. cbn [List.skipn].
    transitivity (List.firstn m q ++ List.skipn m q);
      [|apply List.firstn_skipn].
    f_equal. etransitivity; [|apply (IH (List.skipn m q))].
    + f_equal. apply List.map_ext. intros i.
      rewrite List.skipn_skipn. do 2 f_equal. lia.
    + rewrite List.length_skipn. simpl in Hlen. lia.
Qed.

Lemma paginate_offset (p n : Z) :
  (1 <= p)%Z -> (1 <= n)%Z ->
  Z.to_nat ((p - 1) * n) = (Z.to_nat (p - 1) * Z.to_nat n)%nat.
Proof. intros Hp Hn. rewrite Z2Nat.inj_mul; lia. Qed.

(** The pages [1 .. total_pages] of a query, one after the other, are
    its rows. *)
Lemma paginate_concat {A} (n : Z) (q : list A) :
  (1 <= n)%Z ->
  List.concat
    (List.map (fun p => rows (paginate p n q))
              (range 1 (ceil_div (Z.of_nat (List.length q)) n + 1))) = q.
Proof.
  intros Hn. unfold range. rewrite List.map_map. simpl rows.
  replace (ceil_div (Z.of_nat (List.length q)) n + 1 - 1)%Z
    with (ceil_div (Z.of_nat (List.length q)) n) by lia.
  etransitivity;
    [|apply (slices_concat (Z.to_nat n)
               (Z.to_nat (ceil_div (Z.of_nat (List.length q)) n)) q)].
  - f_equal. apply List.map_ext. intros i.
    rewrite paginate_offset; [|lia|lia].
    do 3 f_equal. lia.
  - pose proof (ceil_div_bounds (Z.of_nat (List.length q)) n ltac:(lia)) as Hb.
    pose proof (ceil_div_nonneg (Z.of_nat (List.length q)) n ltac:(lia) ltac:(lia)).
    nia.
Qed.

(** The size of one page. *)
Lemma paginate_rows {A} (p n : Z) (q : list A) :
  (1 <= p)%Z -> (1 <= n)%Z ->
  let r := paginate p n q in
  (Z.of_nat (List.length (rows r)) <= n)%Z
  /\ ((p < total_pages r)%Z -> Z.of_nat (List.length (rows r)) = n)
  /\ ((p <= total_pages r)%Z -> rows r <> [])
  /\ ((total_pages r < p)%Z -> rows r = []).
Proof.
  intros Hp Hn. simpl.
  pose proof (ceil_div_bounds (Z.of_nat (List.length q)) n ltac:(lia)) as Hb.
  set (k := ceil_div (Z.of_nat (List.length q)) n) in *.
  rewrite paginate_offset by lia.
  set (o := (Z.to_nat (p - 1) * Z.to_nat n)%nat).
  assert (Ho : Z.of_nat o = ((p - 1) * n)%Z) by (unfold o; nia).
  rewrite List.length_firstn, List.length_skipn.
  split; [lia|]. split; [intros Hlt; nia|]. split.
  - intros Hle Hnil. apply (f_equal (@List.length A)) in Hnil.
    rewrite List.length_firstn, List.length_skipn in Hnil. simpl in Hnil. nia.
  - intros Hlt. rewrite List.skipn_all2 by nia. apply List.firstn_nil.
Qed.

End Pages.

Section PageClaims.
Import Py Ingest Crud.

Lemma autoflushed_clean (E : env) (s : session) :
  pending s = [] -> autoflushed E s = (Ok tt, s).
Proof.
  intros Hp. unfold autoflushed. rewrite (flush_nothing E s Hp).
  destruct (autoflush E); reflexivity.
Qed.

Lemma visible_companies_begin (st : store) (draws : nat) :
  visible_companies (begin st draws) = companies st.
Proof. unfold visible_companies. simpl. apply app_nil_r. Qed.

Lemma visible_products_begin (st : store) (draws : nat) :
  visible_products (begin st draws) = products st.
Proof. unfold visible_products. simpl. apply app_nil_r. Qed.

Lemma page_bounds_ok (p n : Z) :
  (1 <= p)%Z -> (1 <= n <= 1000)%Z -> page_bounds p n = true.
Proof.
  intros Hp Hn. unfold page_bounds.
  rewrite !andb_true_iff, !Z.leb_le. lia.
Qed.

Lemma range_from_one (n p : Z) : In p (range 1 n) -> (1 <= p)%Z.
Proof.
  unfold range. rewrite List.in_map_iff. intros (k & <- & _). lia.
Qed.

(** X18. Asked page by page, [get_companies] answers every page from 1
    on whose offset [(page - 1) * per_page] is below 2^63: the pages 1 to
    [total_pages] are non-empty and, one after the other, list every
    company matching the industry filter once, in table order; a later
    page is empty, not an error. *)
Theorem company_pages_partition
  (E : env) (st : store) (draws : nat) (per_page : Z) (industry : option string) :
  (1 <= per_page <= 1000)%Z ->
  let ask := fun p => fst (get_companies E p per_page industry (begin st draws)) in
  let matching := filter_if industry has_industry (companies st) in
  let n := ceil_div (Z.of_nat (List.length matching)) per_page in
  List.concat (List.map (fun p => rows_of (ask p)) (range 1 (n + 1))) = matching
  /\ forall p, (1 <= p)%Z -> ((p - 1) * per_page < 2 ^ 63)%Z ->
       exists r, ask p = Returns r
                 /\ total r = List.length matching
                 /\ total_pages r = n
                 /\ (Z.of_nat (List.length (rows r)) <= per_page)%Z
                 /\ ((p <= n)%Z -> rows r <> [])
                 /\ ((n < p)%Z -> rows r = []).
Proof.
  intros Hn ask matching n.
  assert (Hask : forall p, (1 <= p)%Z ->
            ask p = Returns (paginate p per_page matching)).
  { intros p Hp. unfold ask, get_companies.
    rewrite (page_bounds_ok p per_page Hp Hn). simpl negb. cbv iota.
    rewrite (autoflushed_clean E (begin st draws) eq_refl).
    rewrite visible_companies_begin. reflexivity. }
  split.
  - etransitivity; [|apply (paginate_concat per_page matching); lia].
    f_equal. apply List.map_ext_in. intros p Hp.
    rewrite (Hask p (range_from_one _ _ Hp)). reflexivity.
  - intros p Hp _. exists (paginate p per_page matching).
    split; [apply Hask; exact Hp|].
    split; [reflexivity|]. split; [reflexivity|].
    destruct (paginate_rows p per_page matching Hp ltac:(lia)) as (H1 & _ & H3 & H4).
    split; [exact H1|]. split; [exact H3 | exact H4].
Qed.

Lemma company_pages_partition_witness :
  let E := IngestSamples.uuids in
  let row := fun id name industry =>
    {| co_id := JStr id;
       co_attrs := [("name", JStr name); ("industry", JStr industry)] |} in
  let st := {| companies := [row "u1" "Acme" "SaaS"; row "u2" "Bolt" "FinTech";
                             row "u3" "Cato" "SaaS"; row "u4" "Dune" "SaaS"];
               products := [] |} in
  let ask := fun p => fst (get_companies E p 2 (Some "SaaS") (begin st 0)) in
  List.concat (List.map (fun p => rows_of (ask p)) (range 1 3))
  = [row "u1" "Acme" "SaaS"; row "u3" "Cato" "SaaS"; row "u4" "Dune" "SaaS"].
Proof.
  intros E row st ask.
  apply (company_pages_partition E st 0 2 (Some "SaaS")). lia.
Defined.

(** X19. [get_products] selects the products that meet both filters
    given (an empty string counts as no filter) and cuts them into pages:
    pages 1 to [total_pages], one after the other, are exactly the
    selected products; every page but the last is full. *)
Theorem product_pages_partition
  (E : env) (st : store) (draws : nat) (per_page : Z)
  (company_id pricing_model : option string) :
  (1 <= per_page <= 1000)%Z ->
  let ask := fun p =>
    fst (get_products E p per_page company_id pricing_model (begin st draws)) in
  let selected :=
    filter_if pricing_model has_pricing_model
              (filter_if company_id of_company (products st)) in
  let n := ceil_div (Z.of_nat (List.length selected)) per_page in
  List.concat (List.map (fun p => rows_of (ask p)) (range 1 (n + 1))) = selected
  /\ forall p, (1 <= p < n)%Z ->
       Z.of_nat (List.length (rows_of (ask p))) = per_page.
Proof.
  intros Hn ask selected n.
  assert (Hask : forall p, (1 <= p)%Z ->
            ask p = Returns (paginate p per_page selected)).
  { intros p Hp. unfold ask, get_products.
    rewrite (page_bounds_ok p per_page Hp Hn). simpl negb. cbv iota.
    rewrite (autoflushed_clean E (begin st draws) eq_refl).
    rewrite visible_products_begin. reflexivity. }
  split.
  - etransitivity; [|apply (paginate_concat per_page selected); lia].
    f_equal. apply List.map_ext_in. intros p Hp.
    rewrite (Hask p (range_from_one _ _ Hp)). reflexivity.
  - intros p [Hp Hlt]. rewrite (Hask p Hp). simpl rows_of.
    destruct (paginate_rows p per_page selected Hp ltac:(lia)) as (_ & H2 & _).
    apply H2. exact Hlt.
Qed.

Lemma product_pages_partition_witness :
  let E := IngestSamples.uuids in
  let row := fun id cid model =>
    {| pr_id := JStr id; pr_company_id := JStr cid;
       pr_attrs := [("name", JStr "Ledger"); ("pricing_model", JStr model)] |} in
  let st := {| companies := [];
               products := [row "p1" "u1" "Free"; row "p2" "u2" "Free";
                            row "p3" "u1" "Enterprise"; row "p4" "u1" "Free";
                            row "p5" "u1" "Free"] |} in
  let ask := fun p =>
    fst (get_products E p 2 (Some "u1") (Some "Free") (begin st 0)) in
  List.concat (List.map (fun p => rows_of (ask p)) (range 1 3))
  = [row "p1" "u1" "Free"; row "p4" "u1" "Free"; row "p5" "u1" "Free"].
Proof.
  intros E row st ask.
  apply (product_pages_partition E st 0 2 (Some "u1") (Some "Free")). lia.
Defined.

End PageClaims.

(** ** The writing endpoints *)

Section Writes.
Import Py Ingest Crud.
Variable E : env.

Lemma first_company_begin (p : company_row -> bool) (st : store) (draws : nat) :
  first_company E p (begin st draws)
  = (Ok (List.find p (companies st)), begin st draws).
Proof.
  unfold first_company. rewrite (autoflushed_clean E (begin st draws) eq_refl).
  rewrite visible_companies_begin. reflexivity.
Qed.

Lemma first_product_begin (p : product_row -> bool) (st : store) (draws : nat) :
  first_product E p (begin st draws)
  = (Ok (List.find p (products st)), begin st draws).
Proof.
  unfold first_product. rewrite (autoflushed_clean E (begin st draws) eq_refl).
  rewrite visible_products_begin. reflexivity.
Qed.

Lemma find_none_existsb {A} (p : A -> bool) (l : list A) :
  List.find p l = None <-> List.existsb p l = false.
Proof.
  induction l as [|x l IH]; simpl; [tauto|].
  destruct (p x); simpl; [split; discriminate | exact IH].
Qed.

Lemma find_some_existsb {A} (p : A -> bool) (l : list A) (x : A) :
  List.find p l = Some x -> List.existsb p l = true.
Proof.
  intros H. destruct (List.existsb p l) eqn:He; [reflexivity|].
  apply find_none_existsb in He. congruence.
Qed.

Lemma construct_company_dump (c : CompanyCreate) :
  construct E company_columns ["products"] (company_model_dump c)
  = Ok (company_model_dump c).
Proof. reflexivity. Qed.

Lemma check_values_company_dump (c : CompanyCreate) :
  check_values company_required (company_model_dump c) = Ok tt.
Proof. destruct c as [? ? ? ? ? ? ? [w|]]; reflexivity. Qed.

Lemma insert_company_dump (c : CompanyCreate) (s : session) :
  insert_company E (company_model_dump c) s
  = if List.existsb (has_id (uuid4 E (uuid_draws s))) (visible_companies s)
    then (Raise IntegrityError, with_draw s)
    else if List.existsb (has_name (cc_name c)) (visible_companies s)
    then (Raise IntegrityError, with_draw s)
    else
      (Ok (JStr (uuid4 E (uuid_draws s))),
       {| committed := committed s;
          inserted :=
            {| companies := companies (inserted s) ++ [created E c (uuid_draws s)];
               products := products (inserted s) |};
          pending := pending s; uuid_draws := S (uuid_draws s) |}).
Proof.
  unfold insert_company.
  change (primary_key E (company_model_dump c) s)
    with (JStr (uuid4 E (uuid_draws s)), with_draw s).
  rewrite check_values_company_dump. reflexivity.
Qed.

Lemma create_company_begin (c : CompanyCreate) (st : store) (draws : nat) :
  create_company E c (begin st draws)
  = if List.existsb (has_name (cc_name c)) (companies st)
    then (HTTPException 400, begin st draws)
    else if List.existsb (has_id (uuid4 E draws)) (companies st)
    then (HTTPException 500, begin st (S draws))
    else (Returns (created E c draws),
          begin {| companies := companies st ++ [created E c draws];
                   products := products st |} (S draws)).
Proof.
  unfold create_company. rewrite first_company_begin.
  destruct (List.find _ _) as [r|] eqn:Hf.
  - rewrite (find_some_existsb _ _ _ Hf). reflexivity.
  - apply find_none_existsb in Hf. rewrite Hf.
    rewrite construct_company_dump.
    unfold commit, flush.
    cbn [pending add begin List.filter List.app is_new_company negb].
    cbn [insert_all]. rewrite insert_company_dump.
    unfold visible_companies at 1 2.
    cbn [committed inserted add begin companies uuid_draws].
    rewrite app_nil_r, Hf.
    destruct (List.existsb (has_id (uuid4 E draws)) (companies st)); [reflexivity|].
    unfold visible_companies, visible_products, clear_pending.
    cbn [committed inserted companies products uuid_draws pending List.app].
    rewrite app_nil_r, List.rev_app_distr. reflexivity.
Qed.

Lemma commit_change_begin (f : store -> result store) (st : store) (draws : nat) :
  commit_change E f (begin st draws)
  = match f st with
    | Raise e => (Raise e, begin st draws)
    | Ok st' => (Ok tt, begin st' draws)
    end.
Proof.
  unfold commit_change.
  rewrite (commit_nothing E (begin st draws) eq_refl eq_refl).
  simpl. destruct (f st); reflexivity.
Qed.

Lemma delete_company_begin (company_id : string) (st : store) (draws : nat) :
  delete_company E company_id (begin st draws)
  = match List.find (has_id company_id) (companies st) with
    | None => (HTTPException 404, begin st draws)
    | Some company =>
        (Returns {| company_name := column "name" (co_attrs company);
                    deleted_products :=
                      List.length
                        (List.filter
                           (fun r => sql_eq (pr_company_id r) (co_id company))
                           (products st)) |},
         begin (without_company company st) draws)
    end.
Proof.
  unfold delete_company. rewrite first_company_begin.
  destruct (List.find _ _) as [company|]; [|reflexivity].
  rewrite (autoflushed_clean E (begin st draws) eq_refl).
  rewrite commit_change_begin. unfold products_of.
  rewrite visible_products_begin. reflexivity.
Qed.

Lemma insert_product_dump (p : ProductCreate) (s : session) :
  insert_product E (JStr (pc_company_id p))
                 (dict_without "company_id" (product_model_dump p)) s
  = if List.existsb (product_has_id (uuid4 E (uuid_draws s))) (visible_products s)
    then (Raise IntegrityError, with_draw s)
    else if negb (List.existsb (has_id (pc_company_id p)) (visible_companies s))
    then (Raise IntegrityError, with_draw s)
    else
      (Ok tt,
       {| committed := committed s;
          inserted :=
            {| companies := companies (inserted s);
               products := products (inserted s)
                           ++ [created_product E p (uuid_draws s)] |};
          pending := pending s; uuid_draws := S (uuid_draws s) |}).
Proof. reflexivity. Qed.

Lemma create_product_begin (p : ProductCreate) (st : store) (draws : nat) :
  create_product E p (begin st draws)
  = match List.find (has_id (pc_company_id p)) (companies st) with
    | None => (HTTPException 404, begin st draws)
    | Some company =>
        if List.existsb (product_has_id (uuid4 E draws)) (products st)
        then (HTTPException 500, begin st (S draws))
        else (Returns (created_product E p draws),
              begin {| companies := companies st;
                       products := products st ++ [created_product E p draws] |}
                    (S draws))
    end.
Proof.
  unfold create_product. rewrite first_company_begin.
  destruct (List.find _ _) as [company|] eqn:Hf; [|reflexivity].
  apply find_some_existsb in Hf.
  change (construct E product_columns ["company"]
            (dict_without "company_id" (product_model_dump p)))
    with (Ok (dict_without "company_id" (product_model_dump p))).
  change (column "company_id" (product_model_dump p))
    with (JStr (pc_company_id p)).
  unfold commit, flush.
  cbn [pending add begin List.filter List.app is_new_company negb].
  cbn [insert_all]. rewrite insert_product_dump.
  unfold visible_companies at 1. unfold visible_products at 1.
  cbn [committed inserted add begin companies products uuid_draws].
  rewrite !app_nil_r, Hf. cbn [negb].
  destruct (List.existsb (product_has_id (uuid4 E draws)) (products st));
    [reflexivity|].
  unfold visible_companies, visible_products, clear_pending.
  cbn [committed inserted companies products uuid_draws pending List.app].
  rewrite app_nil_r, List.rev_app_distr. reflexivity.
Qed.

Lemma delete_product_begin (product_id : string) (st : store) (draws : nat) :
  delete_product E product_id (begin st draws)
  = match List.find (product_has_id product_id) (products st) with
    | None => (HTTPException 404, begin st draws)
    | Some product =>
        (Returns (column "name" (pr_attrs product)),
         begin (without_product product st) draws)
    end.
Proof.
  unfold delete_product. rewrite first_product_begin.
  destruct (List.find _ _) as [product|]; [|reflexivity].
  rewrite commit_change_begin. reflexivity.
Qed.

Lemma get_company_by_id_begin (company_id : string) (st : store) (draws : nat) :
  get_company_by_id E company_id (begin st draws)
  = match List.find (has_id company_id) (companies st) with
    | None => (HTTPException 404, begin st draws)
    | Some company => (Returns company, begin st draws)
    end.
Proof.
  unfold get_company_by_id. rewrite first_company_begin.
  destruct (List.find _ _); reflexivity.
Qed.

Lemma get_product_by_id_begin (product_id : string) (st : store) (draws : nat) :
  get_product_by_id E product_id (begin st draws)
  = match List.find (product_has_id product_id) (products st) with
    | None => (HTTPException 404, begin st draws)
    | Some product => (Returns product, begin st draws)
    end.
Proof.
  unfold get_product_by_id. rewrite first_product_begin.
  destruct (List.find _ _); reflexivity.
Qed.

Lemma health_check_begin (st : store) (draws : nat) :
  health_check E (begin st draws)
  = (Returns (List.length (companies st), List.length (products st)),
     begin st draws).
Proof.
  unfold health_check. rewrite (autoflushed_clean E (begin st draws) eq_refl).
  rewrite visible_companies_begin, visible_products_begin. reflexivity.
Qed.

End Writes.

Section WriteFacts.
Import Py Ingest Crud.

Lemma sql_eq_str (v : json) (x : string) : sql_eq v (JStr x) = true -> v = JStr x.
Proof.
  destruct v; simpl; try discriminate. intros H.
  apply String.eqb_eq in H. congruence.
Qed.

Lemma sql_eq_str_refl (x : string) : sql_eq (JStr x) (JStr x) = true.
Proof. simpl. apply String.eqb_refl. Qed.

Lemma find_app_last {A} (p : A -> bool) (l : list A) (x : A) :
  List.existsb p l = false -> p x = true -> List.find p (l ++ [x]) = Some x.
Proof.
  intros Hl Hx. induction l as [|y l IH]; simpl in *.
  - rewrite Hx. reflexivity.
  - apply orb_false_iff in Hl. destruct Hl as [Hy Hl]. rewrite Hy. auto.
Qed.

Lemma filter_none_id {A} (p : A -> bool) (l : list A) :
  List.existsb p l = false -> List.filter (fun x => negb (p x)) l = l.
Proof.
  induction l as [|y l IH]; simpl; [reflexivity|].
  intros H. apply orb_false_iff in H. destruct H as [Hy Hl].
  rewrite Hy. simpl. rewrite (IH Hl). reflexivity.
Qed.

Lemma filter_none_nil {A} (p : A -> bool) (l : list A) :
  List.existsb p l = false -> List.filter p l = [].
Proof.
  induction l as [|y l IH]; simpl; [reflexivity|].
  intros H. apply orb_false_iff in H. destruct H as [Hy Hl].
  rewrite Hy. exact (IH Hl).
Qed.

Lemma filter_split_length {A} (p : A -> bool) (l : list A) :
  List.length l
  = (List.length (List.filter (fun x => negb (p x)) l)
     + List.length (List.filter p l))%nat.
Proof.
  induction l as [|y l IH]; simpl; [reflexivity|].
  destruct (p y); simpl; lia.
Qed.

Lemma existsb_filter_negb {A} (p : A -> bool) (l : list A) :
  List.existsb p (List.filter (fun x => negb (p x)) l) = false.
Proof.
  induction l as [|y l IH]; simpl; [reflexivity|].
  destruct (p y) eqn:Hy; simpl; [exact IH|]. rewrite Hy. exact IH.
Qed.

Lemma found_company_key (company_id : string) (l : list company_row)
  (company : company_row) :
  List.find (has_id company_id) l = Some company ->
  co_id company = JStr company_id.
Proof.
  intros H. apply List.find_some in H. destruct H as [_ H].
  apply sql_eq_str in H. exact H.
Qed.

Lemma found_product_key (product_id : string) (l : list product_row)
  (product : product_row) :
  List.find (product_has_id product_id) l = Some product ->
  pr_id product = JStr product_id.
Proof.
  intros H. apply List.find_some in H. destruct H as [_ H].
  apply sql_eq_str in H. exact H.
Qed.

End WriteFacts.

Section WriteClaims.
Import Py Ingest Crud.

(** X20. [create_company] answers 400 exactly when a company of that
    name is stored. When it returns a row, the row carries the fields of
    the body and is the one row added to the store; with any other
    answer the store is as it was. *)
Theorem create_company_outcomes
  (E : env) (c : CompanyCreate) (st : store) (draws : nat)
  (a : answer company_row) (s' : session) :
  create_company E c (begin st draws) = (a, s') ->
  (a = HTTPException 400
   <-> List.existsb (has_name (cc_name c)) (companies st) = true)
  /\ match a with
     | Returns row =>
         co_attrs row = company_model_dump c
         /\ companies (committed s') = companies st ++ [row]
         /\ products (committed s') = products st
     | _ => committed s' = st
     end.
Proof.
  rewrite create_company_begin.
  destruct (List.existsb (has_name (cc_name c)) (companies st)).
  - intros H. injection H as <- <-. simpl. split; [tauto | reflexivity].
  - destruct (List.existsb (has_id (uuid4 E draws)) (companies st));
      intros H; injection H as <- <-; simpl.
    + split; [split; discriminate | reflexivity].
    + split; [split; discriminate | auto].
Qed.

Lemma create_company_outcomes_witness :
  let E := IngestSamples.uuids in
  let c := {| cc_name := "Acme"; cc_tagline := "Simple books";
              cc_description := "A bookkeeping startup for small teams that hate paperwork.";
              cc_industry := "SaaS"; cc_founded_year := 2020;
              cc_employee_count := 12; cc_headquarters := "Pune, India";
              cc_website_url := None |} in
  let st := IngestSamples.empty_store in
  companies (committed (snd (create_company E c (begin st 0))))
  = [created E c 0].
Proof.
  intros E c st.
  destruct (create_company_outcomes E c st 0 (Returns (created E c 0))
              (snd (create_company E c (begin st 0))) eq_refl)
    as (_ & _ & H & _).
  exact H.
Defined.

(** X21. A company that [create_company] returned is found again under
    its key by [get_company_by_id], and a second [create_company] with
    the same body is answered 400. *)
Theorem created_company_is_found
  (E : env) (c : CompanyCreate) (st : store) (draws : nat)
  (row : company_row) (s' : session) :
  create_company E c (begin st draws) = (Returns row, s') ->
  let next := begin (committed s') (uuid_draws s') in
  exists company_id,
    co_id row = JStr company_id
    /\ fst (get_company_by_id E company_id next) = Returns row
    /\ fst (create_company E c next) = HTTPException 400.
Proof.
  rewrite create_company_begin.
  destruct (List.existsb (has_name (cc_name c)) (companies st)) eqn:Hn;
    [discriminate|].
  destruct (List.existsb (has_id (uuid4 E draws)) (companies st)) eqn:Hi;
    [discriminate|].
  intros H. injection H as <- <-. intros next. exists (uuid4 E draws).
  split; [reflexivity|]. unfold next. simpl committed. simpl uuid_draws.
  rewrite get_company_by_id_begin, create_company_begin. simpl companies.
  rewrite (find_app_last _ _ (created E c draws) Hi (sql_eq_str_refl (uuid4 E draws))).
  split; [reflexivity|].
  rewrite List.existsb_app. simpl.
  unfold has_name at 2. simpl. rewrite String.eqb_refl, orb_true_r.
  reflexivity.
Qed.

Lemma created_company_is_found_witness :
  let E := IngestSamples.uuids in
  let c := {| cc_name := "Acme"; cc_tagline := "Simple books";
              cc_description := "A bookkeeping startup for small teams that hate paperwork.";
              cc_industry := "SaaS"; cc_founded_year := 2020;
              cc_employee_count := 12; cc_headquarters := "Pune, India";
              cc_website_url := Some "www.acme.com" |} in
  let s' := snd (create_company E c (begin IngestSamples.empty_store 0)) in
  exists company_id,
    co_id (created E c 0) = JStr company_id
    /\ fst (get_company_by_id E company_id
              (begin (committed s') (uuid_draws s'))) = Returns (created E c 0)
    /\ fst (create_company E c (begin (committed s') (uuid_draws s')))
       = HTTPException 400.
Proof.
  intros E c s'.
  apply (created_company_is_found E c IngestSamples.empty_store 0
           (created E c 0) s').
  reflexivity.
Defined.

(** X22. [delete_company] answers 404 exactly when no company has the
    key, and then changes nothing. Otherwise it removes the companies
    with that key and the products that refer to it, and nothing else:
    the key is no longer found, and the product count of [health_check]
    drops by the [deleted_products] it reports. *)
Theorem delete_company_effects
  (E : env) (company_id : string) (st : store) (draws : nat)
  (a : answer deleted) (s' : session) :
  delete_company E company_id (begin st draws) = (a, s') ->
  let next := begin (committed s') (uuid_draws s') in
  (a = HTTPException 404
   <-> List.existsb (has_id company_id) (companies st) = false)
  /\ match a with
     | Returns body =>
         companies (committed s')
         = List.filter (fun r => negb (has_id company_id r)) (companies st)
         /\ products (committed s')
            = List.filter (fun r => negb (of_company company_id r)) (products st)
         /\ fst (get_company_by_id E company_id next) = HTTPException 404
         /\ exists total_companies total_products,
              fst (health_check E next)
              = Returns (total_companies, total_products)
              /\ fst (health_check E (begin st draws))
                 = Returns (List.length (companies st),
                            (total_products + deleted_products body)%nat)
              /\ (total_companies < List.length (companies st))%nat
     | _ => committed s' = st
     end.
Proof.
  rewrite delete_company_begin.
  destruct (List.find (has_id company_id) (companies st)) as [company|] eqn:Hf.
  - pose proof (found_company_key _ _ _ Hf) as Hk.
    pose proof (find_some_existsb _ _ _ Hf) as He.
    intros H. injection H as <- <-. intros next. rewrite He.
    split; [split; discriminate|].
    unfold next. simpl committed. simpl uuid_draws.
    unfold without_company. rewrite Hk. simpl companies. simpl products.
    split; [reflexivity|]. split; [reflexivity|].
    rewrite get_company_by_id_begin, !health_check_begin. simpl companies.
    simpl products.
    assert (Hgone : List.find (has_id company_id)
              (List.filter (fun r => negb (sql_eq (co_id r) (JStr company_id)))
                           (companies st)) = None).
    { apply find_none_existsb. apply (existsb_filter_negb (has_id company_id)). }
    rewrite Hgone. split; [reflexivity|].
    eexists _, _. split; [reflexivity|]. simpl deleted_products. split.
    + simpl fst. do 2 f_equal.
      apply (filter_split_length (fun r => sql_eq (pr_company_id r) (JStr company_id))).
    + pose proof (filter_split_length (has_id company_id) (companies st)) as Hlen.
      assert (Hpos : (0 < List.length (List.filter (has_id company_id)
                                                   (companies st)))%nat).
      { apply List.find_some in Hf. destruct Hf as [Hin Hp].
        assert (Hin' : In company (List.filter (has_id company_id) (companies st)))
          by (apply List.filter_In; auto).
        destruct (List.filter (has_id company_id) (companies st));
          [destruct Hin' | simpl; lia]. }
      unfold has_id in Hlen at 1. lia.
  - intros H. injection H as <- <-. intros next.
    apply find_none_existsb in Hf. rewrite Hf. simpl.
    split; [tauto | reflexivity].
Qed.

Lemma delete_company_effects_witness :
  let E := IngestSamples.uuids in
  let st := {| companies := [{| co_id := JStr "u1";
                                co_attrs := [("name", JStr "Acme")] |};
                             {| co_id := JStr "u2";
                                co_attrs := [("name", JStr "Bolt")] |}];
               products := [{| pr_id := JStr "p1"; pr_company_id := JStr "u1";
                               pr_attrs := [("name", JStr "Ledger")] |};
                            {| pr_id := JStr "p2"; pr_company_id := JStr "u2";
                               pr_attrs := [("name", JStr "Vault")] |};
                            {| pr_id := JStr "p3"; pr_company_id := JStr "u1";
                               pr_attrs := [("name", JStr "Tally")] |}] |} in
  let s' := snd (delete_company E "u1" (begin st 0)) in
  fst (delete_company E "u1" (begin st 0))
  = Returns {| company_name := JStr "Acme"; deleted_products := 2 |}
  /\ fst (get_company_by_id E "u1" (begin (committed s') (uuid_draws s')))
     = HTTPException 404.
Proof.
  intros E st s'. split; [reflexivity|].
  destruct (delete_company_effects E "u1" st 0
              (Returns {| company_name := JStr "Acme"; deleted_products := 2 |})
              s' eq_refl) as (_ & _ & _ & H & _).
  exact H.
Defined.

(** X23. In a store whose products all refer to stored companies,
    creating a company and deleting it again under the key it was given
    leaves the store as it was before; the deletion reports no deleted
    product. *)
Theorem create_then_delete_restores
  (E : env) (c : CompanyCreate) (st : store) (draws : nat)
  (row : company_row) (s1 : session) :
  referential st ->
  create_company E c (begin st draws) = (Returns row, s1) ->
  exists company_id s2,
    co_id row = JStr company_id
    /\ delete_company E company_id (begin (committed s1) (uuid_draws s1))
       = (Returns {| company_name := JStr (cc_name c); deleted_products := 0 |},
          s2)
    /\ committed s2 = st.
Proof.
  intros Href. rewrite create_company_begin.
  destruct (List.existsb (has_name (cc_name c)) (companies st)) eqn:Hn;
    [discriminate|].
  destruct (List.existsb (has_id (uuid4 E draws)) (companies st)) eqn:Hi;
    [discriminate|].
  intros H. injection H as <- <-.
  exists (uuid4 E draws). eexists. split; [reflexivity|].
  simpl committed. simpl uuid_draws.
  rewrite delete_company_begin. simpl companies. simpl products.
  rewrite (find_app_last _ _ (created E c draws) Hi
             (sql_eq_str_refl (uuid4 E draws))).
  assert (Hnone : List.existsb
            (fun r => sql_eq (pr_company_id r) (JStr (uuid4 E draws)))
            (products st) = false).
  { destruct (List.existsb _ (products st)) eqn:Hp; [|reflexivity].
    apply List.existsb_exists in Hp. destruct Hp as (p & Hin & Hp).
    apply sql_eq_str in Hp. specialize (Href p Hin). rewrite Hp in Href.
    unfold has_id in Hi. congruence. }
  simpl co_id. rewrite (filter_none_nil _ _ Hnone).
  split; [reflexivity|].
  simpl committed. unfold without_company. simpl co_id. simpl companies.
  simpl products. rewrite (filter_none_id _ _ Hnone).
  rewrite List.filter_app. simpl. rewrite String.eqb_refl. simpl.
  rewrite app_nil_r.
  pose proof (filter_none_id (has_id (uuid4 E draws)) _ Hi) as Hc.
  unfold has_id in Hc at 1. rewrite Hc.
  destruct st; reflexivity.
Qed.

Lemma create_then_delete_restores_witness :
  let E := IngestSamples.uuids in
  let c := {| cc_name := "Acme"; cc_tagline := "Simple books";
              cc_description := "A bookkeeping startup for small teams that hate paperwork.";
              cc_industry := "SaaS"; cc_founded_year := 2020;
              cc_employee_count := 12; cc_headquarters := "Pune, India";
              cc_website_url := None |} in
  let st := {| companies := [{| co_id := JStr "k1";
                                co_attrs := [("name", JStr "Bolt")] |}];
               products := [{| pr_id := JStr "p1"; pr_company_id := JStr "k1";
                               pr_attrs := [("name", JStr "Vault")] |}] |} in
  let s1 := snd (create_company E c (begin st 0)) in
  exists company_id s2,
    co_id (created E c 0) = JStr company_id
    /\ delete_company E company_id (begin (committed s1) (uuid_draws s1))
       = (Returns {| company_name := JStr "Acme"; deleted_products := 0 |}, s2)
    /\ committed s2 = st.
Proof.
  intros E c st s1.
  apply (create_then_delete_restores E c st 0 (created E c 0) s1).
  - intros p [<- | []]. reflexivity.
  - reflexivity.
Defined.

(** X24. [create_product] answers 404 exactly when no company has the
    [company_id] of the body. When it returns a row, the row refers to
    that company, carries the fields of the body, and is the one row
    added to the store; with any other answer the store is as it was. *)
Theorem create_product_outcomes
  (E : env) (p : ProductCreate) (st : store) (draws : nat)
  (a : answer product_row) (s' : session) :
  create_product E p (begin st draws) = (a, s') ->
  (a = HTTPException 404
   <-> List.existsb (has_id (pc_company_id p)) (companies st) = false)
  /\ match a with
     | Returns row =>
         pr_company_id row = JStr (pc_company_id p)
         /\ (forall k, k <> "company_id" ->
               column k (pr_attrs row) = column k (product_model_dump p))
         /\ products (committed s') = products st ++ [row]
         /\ companies (committed s') = companies st
     | _ => committed s' = st
     end.
Proof.
  rewrite create_product_begin.
  destruct (List.find (has_id (pc_company_id p)) (companies st))
    as [company|] eqn:Hf.
  - rewrite (find_some_existsb _ _ _ Hf).
    destruct (List.existsb (product_has_id (uuid4 E draws)) (products st));
      intros H; injection H as <- <-.
    + split; [split; discriminate | reflexivity].
    + split; [split; discriminate|].
      unfold created_product.
      cbn [pr_company_id pr_attrs committed begin products companies].
      split; [reflexivity|].
      split; [|auto]. intros k Hk. unfold column.
      rewrite (dict_find_without k "company_id"); [reflexivity | exact Hk].
  - apply find_none_existsb in Hf. rewrite Hf.
    intros H. injection H as <- <-. simpl. split; [tauto | reflexivity].
Qed.

Lemma create_product_outcomes_witness :
  let E := IngestSamples.uuids in
  let p := {| pc_name := "Ledger"; pc_description := "Tracks invoices.";
              pc_target_audience := "SMBs with 20-150 employees";
              pc_key_features := "Feature 1, Feature 2";
              pc_pricing_model := "Subscription"; pc_company_id := "k9" |} in
  let st := {| companies := [{| co_id := JStr "k1";
                                co_attrs := [("name", JStr "Bolt")] |}];
               products := [] |} in
  fst (create_product E p (begin st 0)) = HTTPException 404
  /\ committed (snd (create_product E p (begin st 0))) = st.
Proof.
  intros E p st. split; [reflexivity|].
  destruct (create_product_outcomes E p st 0 (HTTPException 404)
              (snd (create_product E p (begin st 0))) eq_refl) as [_ H].
  exact H.
Defined.

(** X25. A product created for a company goes with it: deleting the
    company after the product was added leaves the same store as deleting
    it before, and reports one more deleted product. *)
Theorem created_product_goes_with_company
  (E : env) (p : ProductCreate) (st : store) (draws : nat)
  (row : product_row) (s1 : session) (body : deleted) (s2 : session) :
  create_product E p (begin st draws) = (Returns row, s1) ->
  delete_company E (pc_company_id p) (begin st draws) = (Returns body, s2) ->
  exists s3,
    delete_company E (pc_company_id p) (begin (committed s1) (uuid_draws s1))
    = (Returns {| company_name := company_name body;
                  deleted_products := S (deleted_products body) |}, s3)
    /\ committed s3 = committed s2.
Proof.
  rewrite create_product_begin, delete_company_begin.
  destruct (List.find (has_id (pc_company_id p)) (companies st))
    as [company|] eqn:Hf; [|discriminate].
  pose proof (found_company_key _ _ _ Hf) as Hk.
  destruct (List.existsb (product_has_id (uuid4 E draws)) (products st));
    [discriminate|].
  intros H1 H2. injection H1 as <- <-. injection H2 as <- <-.
  eexists. simpl committed. simpl uuid_draws.
  rewrite delete_company_begin. simpl companies. rewrite Hf. simpl products.
  rewrite List.filter_app, length_app. simpl List.filter.
  rewrite Hk, String.eqb_refl. simpl List.length. simpl company_name.
  simpl deleted_products. rewrite Nat.add_1_r. split; [reflexivity|].
  simpl committed. unfold without_company. simpl companies. simpl products.
  rewrite List.filter_app. simpl List.filter. rewrite Hk, String.eqb_refl.
  simpl. rewrite app_nil_r. reflexivity.
Qed.

Lemma created_product_goes_with_company_witness :
  let E := IngestSamples.uuids in
  let p := {| pc_name := "Ledger"; pc_description := "Tracks invoices.";
              pc_target_audience := "SMBs with 20-150 employees";
              pc_key_features := "Feature 1, Feature 2";
              pc_pricing_model := "Subscription"; pc_company_id := "k1" |} in
  let st := {| companies := [{| co_id := JStr "k1";
                                co_attrs := [("name", JStr "Bolt")] |}];
               products := [{| pr_id := JStr "p1"; pr_company_id := JStr "k1";
                               pr_attrs := [("name", JStr "Vault")] |}] |} in
  let s1 := snd (create_product E p (begin st 0)) in
  exists s3,
    delete_company E "k1" (begin (committed s1) (uuid_draws s1))
    = (Returns {| company_name := JStr "Bolt"; deleted_products := 2 |}, s3)
    /\ committed s3 = IngestSamples.empty_store.
Proof.
  intros E p st s1.
  apply (created_product_goes_with_company E p st 0 (created_product E p 0) s1
           {| company_name := JStr "Bolt"; deleted_products := 1 |}
           (begin IngestSamples.empty_store 0)).
  - reflexivity.
  - reflexivity.
Defined.

(** X26. A product that [create_product] returned is found again under
    its key by [get_product_by_id]; deleting it under that key leaves the
    store as it was before the creation, and the key is then answered
    404. *)
Theorem create_then_delete_product_restores
  (E : env) (p : ProductCreate) (st : store) (draws : nat)
  (row : product_row) (s1 : session) :
  create_product E p (begin st draws) = (Returns row, s1) ->
  let next := begin (committed s1) (uuid_draws s1) in
  exists product_id s2,
    pr_id row = JStr product_id
    /\ fst (get_product_by_id E product_id next) = Returns row
    /\ delete_product E product_id next = (Returns (JStr (pc_name p)), s2)
    /\ committed s2 = st
    /\ fst (get_product_by_id E product_id
              (begin (committed s2) (uuid_draws s2))) = HTTPException 404.
Proof.
  rewrite create_product_begin.
  destruct (List.find (has_id (pc_company_id p)) (companies st))
    as [company|] eqn:Hf; [|discriminate].
  destruct (List.existsb (product_has_id (uuid4 E draws)) (products st)) eqn:Hi;
    [discriminate|].
  intros H. injection H as <- <-. intros next.
  exists (uuid4 E draws). eexists. split; [reflexivity|].
  unfold next. simpl committed. simpl uuid_draws.
  rewrite get_product_by_id_begin, delete_product_begin. simpl products.
  rewrite (find_app_last _ _ (created_product E p draws) Hi
             (sql_eq_str_refl (uuid4 E draws))).
  split; [reflexivity|]. split; [reflexivity|].
  simpl committed. simpl uuid_draws. unfold without_product.
  simpl companies. simpl products. simpl pr_id.
  rewrite List.filter_app. simpl. rewrite String.eqb_refl. simpl.
  rewrite app_nil_r.
  pose proof (filter_none_id (product_has_id (uuid4 E draws)) _ Hi) as Hc.
  unfold product_has_id in Hc at 1. rewrite Hc.
  split; [destruct st; reflexivity|].
  rewrite get_product_by_id_begin. simpl products.
  apply find_none_existsb in Hi. rewrite Hi. reflexivity.
Qed.

Lemma create_then_delete_product_restores_witness :
  let E := IngestSamples.uuids in
  let p := {| pc_name := "Ledger"; pc_description := "Tracks invoices.";
              pc_target_audience := "SMBs with 20-150 employees";
              pc_key_features := "Feature 1, Feature 2";
              pc_pricing_model := "Subscription"; pc_company_id := "k1" |} in
  let st := {| companies := [{| co_id := JStr "k1";
                                co_attrs := [("name", JStr "Bolt")] |}];
               products := [] |} in
  let s1 := snd (create_product E p (begin st 0)) in
  exists product_id s2,
    pr_id (created_product E p 0) = JStr product_id
    /\ fst (get_product_by_id E product_id
              (begin (committed s1) (uuid_draws s1)))
       = Returns (created_product E p 0)
    /\ delete_product E product_id (begin (committed s1) (uuid_draws s1))
       = (Returns (JStr "Ledger"), s2)
    /\ committed s2 = st
    /\ fst (get_product_by_id E product_id
              (begin (committed s2) (uuid_draws s2))) = HTTPException 404.
Proof.
  intros E p st s1.
  apply (create_then_delete_product_restores E p st 0 (created_product E p 0) s1).
  reflexivity.
Defined.

End WriteClaims.

(** ** Updates *)

Section Updates.
Import Py Ingest Crud.

Lemma column_setattr (attrs : list (string * json)) (k k' : string) (v : json) :
  column k (setattr attrs k' v) = if String.eqb k' k then v else column k attrs.
Proof.
  unfold column. induction attrs as [|[k0 v0] attrs IH]; simpl.
  - destruct (String.eqb k' k); reflexivity.
  - destruct (String.eqb k0 k') eqn:H0; simpl.
    + apply String.eqb_eq in H0. subst k0.
      destruct (String.eqb k' k); reflexivity.
    + destruct (String.eqb k0 k) eqn:H1; [|exact IH].
      apply String.eqb_eq in H1. subst k0. rewrite String.eqb_sym, H0.
      reflexivity.
Qed.

Lemma dict_find_not_in (k : string) (d : list (string * json)) :
  ~ In k (List.map fst d) -> dict_find k d = None.
Proof.
  induction d as [|[k0 v0] d IH]; simpl; [reflexivity|].
  intros H. destruct (String.eqb k0 k) eqn:H0.
  - apply String.eqb_eq in H0. tauto.
  - apply IH. tauto.
Qed.

(** Each assigned field takes its new value; the others keep theirs. *)
Lemma column_setattrs (k : string) (update_data : list (string * json)) :
  NoDup (List.map fst update_data) ->
  forall attrs,
  column k (setattrs attrs update_data)
  = match dict_find k update_data with
    | Some v => v
    | None => column k attrs
    end.
Proof.
  unfold setattrs.
  induction update_data as [|[k0 v0] rest IH]; intros Hnd attrs; simpl;
    [reflexivity|].
  simpl in Hnd. apply NoDup_cons in Hnd. destruct Hnd as [Hnotin Hnd].
  rewrite list_elem_of_In in Hnotin. rewrite (IH Hnd). rewrite column_setattr.
  destruct (String.eqb k0 k) eqn:H0; [|reflexivity].
  apply String.eqb_eq in H0. subst k0.
  rewrite (dict_find_not_in k rest Hnotin). reflexivity.
Qed.

Lemma dump_field_keys {A} (key : string) (to_json : A -> json) (f : field A) :
  List.map fst (dump_field key to_json f) `sublist_of` [key].
Proof.
  destruct f; simpl; [apply sublist_nil_l | reflexivity | reflexivity].
Qed.

Lemma company_update_dump_keys (u : CompanyUpdate) :
  NoDup (List.map fst (company_update_dump u)).
Proof.
  apply (sublist_NoDup _
           ["name"; "tagline"; "description"; "industry"; "founded_year";
            "employee_count"; "headquarters"; "website_url"]).
  - apply (bool_decide_unpack _). vm_compute. reflexivity.
  - unfold company_update_dump. rewrite !List.map_app.
    repeat (apply (sublist_app _ [_]); [apply dump_field_keys|]).
    apply dump_field_keys.
Qed.

Lemma product_update_dump_keys (u : ProductUpdate) :
  NoDup (List.map fst (product_update_dump u)).
Proof.
  apply (sublist_NoDup _
           ["name"; "description"; "target_audience"; "key_features";
            "pricing_model"]).
  - apply (bool_decide_unpack _). vm_compute. reflexivity.
  - unfold product_update_dump. rewrite !List.map_app.
    repeat (apply (sublist_app _ [_]); [apply dump_field_keys|]).
    apply dump_field_keys.
Qed.

Lemma find_map_preserved {A} (p : A -> bool) (f : A -> A) (l : list A) :
  (forall x, p (f x) = p x) ->
  List.find p (List.map f l) = option_map f (List.find p l).
Proof.
  intros Hp. induction l as [|x l IH]; simpl; [reflexivity|].
  rewrite Hp. destruct (p x); [reflexivity | exact IH].
Qed.

(** The condition of lines 246-248: the body renames the company to a
    name that another row carries. *)
Lemma update_company_begin (E : env) (company_id : string) (u : CompanyUpdate)
  (st : store) (draws : nat) (company : company_row) :
  List.find (has_id company_id) (companies st) = Some company ->
  update_company E company_id u (begin st draws)
  = if match field_truthy (cu_name u) with
       | Some name =>
           negb (is_str name (column "name" (co_attrs company)))
           && List.existsb (has_name name) (companies st)
       | None => false
       end
    then (HTTPException 400, begin st draws)
    else
      match with_company company (company_update_dump u) st with
      | Raise e => (HTTPException 500, begin st draws)
      | Ok st' =>
          (Returns {| co_id := co_id company;
                      co_attrs := setattrs (co_attrs company)
                                           (company_update_dump u) |},
           begin st' draws)
      end.
Proof.
  intros Hf. pose proof (found_company_key _ _ _ Hf) as Hk.
  unfold update_company. rewrite first_company_begin, Hf.
  assert (Hgo :
    match commit_change E (with_company company (company_update_dump u))
                        (begin st draws) with
    | (Raise e, s3) => (HTTPException 500, rollback s3)
    | (Ok _, s3) =>
        match List.find (has_id company_id) (companies (committed s3)) with
        | Some company' => (Returns company', s3)
        | None => (HTTPException 500, rollback s3)
        end
    end
    = match with_company company (company_update_dump u) st with
      | Raise e => (HTTPException 500, begin st draws)
      | Ok st' =>
          (Returns {| co_id := co_id company;
                      co_attrs := setattrs (co_attrs company)
                                           (company_update_dump u) |},
           begin st' draws)
      end).
  { rewrite commit_change_begin.
    destruct (with_company company (company_update_dump u) st) as [st'|e] eqn:Hw;
      [|reflexivity].
    unfold with_company in Hw.
    destruct (nulls_required _ _); [discriminate|].
    destruct (_ && _); [discriminate|].
    injection Hw as <-. simpl committed. simpl companies.
    rewrite find_map_preserved.
    - rewrite Hf. cbn [option_map]. rewrite Hk, sql_eq_str_refl. reflexivity.
    - intros x. unfold has_id.
      destruct (sql_eq (co_id x) (co_id company)); reflexivity. }
  destruct (field_truthy (cu_name u)) as [name|]; [|exact Hgo].
  destruct (negb (is_str name (column "name" (co_attrs company)))); [|exact Hgo].
  rewrite first_company_begin. simpl andb.
  destruct (List.find (has_name name) (companies st)) as [existing|] eqn:Hn.
  - rewrite (find_some_existsb _ _ _ Hn). reflexivity.
  - apply find_none_existsb in Hn. rewrite Hn. exact Hgo.
Qed.

Lemma update_product_begin (E : env) (product_id : string) (u : ProductUpdate)
  (st : store) (draws : nat) :
  update_product E product_id u (begin st draws)
  = match List.find (product_has_id product_id) (products st) with
    | None => (HTTPException 404, begin st draws)
    | Some product =>
        match with_product product (product_update_dump u) st with
        | Raise e => (HTTPException 500, begin st draws)
        | Ok st' =>
            (Returns {| pr_id := pr_id product;
                        pr_company_id := pr_company_id product;
                        pr_attrs := setattrs (pr_attrs product)
                                             (product_update_dump u) |},
             begin st' draws)
        end
    end.
Proof.
  unfold update_product. rewrite first_product_begin.
  destruct (List.find _ _) as [product|] eqn:Hf; [|reflexivity].
  pose proof (found_product_key _ _ _ Hf) as Hk.
  rewrite commit_change_begin.
  destruct (with_product product (product_update_dump u) st) as [st'|e] eqn:Hw;
    [|reflexivity].
  unfold with_product in Hw.
  destruct (nulls_required _ _); [discriminate|].
  injection Hw as <-. simpl committed. simpl products.
  rewrite find_map_preserved.
  - rewrite Hf. cbn [option_map]. rewrite Hk, sql_eq_str_refl. reflexivity.
  - intros x. unfold product_has_id.
    destruct (sql_eq (pr_id x) (pr_id product)); reflexivity.
Qed.

Lemma is_str_iff (name : string) (v : json) : is_str name v = true <-> v = JStr name.
Proof.
  destruct v; simpl; try (split; [discriminate | congruence]).
  rewrite String.eqb_eq. split; congruence.
Qed.

End Updates.

Section UpdateClaims.
Import Py Ingest Crud.

(** X27. An update body that gives [null] for a column declared
    [nullable=False] is never applied: for a stored company the answer is
    an error, 500 unless the rename check answers 400 first, and the
    store is as it was. *)
Theorem null_for_required_column_is_refused
  (E : env) (company_id : string) (u : CompanyUpdate) (st : store)
  (draws : nat) (a : answer company_row) (s' : session) :
  List.existsb (has_id company_id) (companies st) = true ->
  nulls_required company_required (company_update_dump u) = true ->
  update_company E company_id u (begin st draws) = (a, s') ->
  committed s' = st
  /\ (a = HTTPException 400 \/ a = HTTPException 500)
  /\ (field_truthy (cu_name u) = None -> a = HTTPException 500).
Proof.
  intros Hex Hnull.
  destruct (List.find (has_id company_id) (companies st)) as [company|] eqn:Hf.
  2:{ apply find_none_existsb in Hf. congruence. }
  rewrite (update_company_begin E _ u st draws company Hf).
  unfold with_company. rewrite Hnull.
  destruct (field_truthy (cu_name u)) as [name|].
  - destruct (_ && _); intros H; injection H as <- <-;
      (split; [reflexivity|]); (split; [auto | discriminate]).
  - intros H. injection H as <- <-. auto.
Qed.

Lemma null_for_required_column_is_refused_witness :
  let E := IngestSamples.uuids in
  let u := {| cu_name := Null; cu_tagline := Given "Books, simply";
              cu_description := Unset; cu_industry := Unset;
              cu_founded_year := Unset; cu_employee_count := Unset;
              cu_headquarters := Unset; cu_website_url := Unset |} in
  let st := {| companies := [{| co_id := JStr "k1";
                                co_attrs := [("name", JStr "Bolt");
                                             ("tagline", JStr "Fast bolts")] |}];
               products := [] |} in
  fst (update_company E "k1" u (begin st 0)) = HTTPException 500
  /\ committed (snd (update_company E "k1" u (begin st 0))) = st.
Proof.
  intros E u st. split; [reflexivity|].
  destruct (null_for_required_column_is_refused E "k1" u st 0
              (HTTPException 500) (snd (update_company E "k1" u (begin st 0)))
              eq_refl eq_refl eq_refl) as [H _].
  exact H.
Defined.

(** X28. When [update_company] returns a row for the company stored
    under a key, the row keeps that key; each of its columns holds the
    value the body gave it, or what was stored if the body left the field
    out. No row is added or removed, the other companies and all products
    are untouched, and [get_company_by_id] then returns the same row. *)
Theorem update_company_changes_given_fields
  (E : env) (company_id : string) (u : CompanyUpdate) (st : store)
  (draws : nat) (company row : company_row) (s' : session) :
  List.find (has_id company_id) (companies st) = Some company ->
  update_company E company_id u (begin st draws) = (Returns row, s') ->
  co_id row = JStr company_id
  /\ (forall k,
        column k (co_attrs row)
        = match dict_find k (company_update_dump u) with
          | Some v => v
          | None => column k (co_attrs company)
          end)
  /\ products (committed s') = products st
  /\ List.length (companies (committed s')) = List.length (companies st)
  /\ (forall r, In r (companies st) -> has_id company_id r = false ->
        In r (companies (committed s')))
  /\ fst (get_company_by_id E company_id
             (begin (committed s') (uuid_draws s'))) = Returns row.
Proof.
  intros Hf. pose proof (found_company_key _ _ _ Hf) as Hk.
  rewrite (update_company_begin E _ u st draws company Hf).
  destruct (match field_truthy (cu_name u) with Some _ => _ | None => _ end);
    [discriminate|].
  destruct (with_company company (company_update_dump u) st) as [st'|e] eqn:Hw;
    [|discriminate].
  intros H. injection H as <- <-. simpl co_id. simpl co_attrs.
  simpl committed. simpl uuid_draws.
  unfold with_company in Hw.
  destruct (nulls_required _ _); [discriminate|].
  destruct (_ && _); [discriminate|].
  injection Hw as <-. simpl companies. simpl products.
  split; [exact Hk|].
  split; [intros k; apply column_setattrs, company_update_dump_keys|].
  split; [reflexivity|]. split; [apply List.length_map|]. split.
  - intros r Hin Hr. apply List.in_map_iff. exists r. split; [|exact Hin].
    unfold has_id in Hr. rewrite Hk, Hr. reflexivity.
  - rewrite get_company_by_id_begin. simpl companies.
    rewrite find_map_preserved.
    + rewrite Hf. cbn [option_map]. rewrite Hk, sql_eq_str_refl. reflexivity.
    + intros x. unfold has_id.
      destruct (sql_eq (co_id x) (co_id company)); reflexivity.
Qed.

Lemma update_company_changes_given_fields_witness :
  let E := IngestSamples.uuids in
  let u := {| cu_name := Unset; cu_tagline := Given "Books, simply";
              cu_description := Unset; cu_industry := Unset;
              cu_founded_year := Unset; cu_employee_count := Unset;
              cu_headquarters := Unset; cu_website_url := Null |} in
  let company := {| co_id := JStr "k1";
                    co_attrs := [("name", JStr "Bolt");
                                 ("tagline", JStr "Fast bolts");
                                 ("website_url", JStr "www.bolt.io")] |} in
  let st := {| companies := [company]; products := [] |} in
  let row := {| co_id := JStr "k1";
                co_attrs := [("name", JStr "Bolt");
                             ("tagline", JStr "Books, simply");
                             ("website_url", JNull)] |} in
  fst (update_company E "k1" u (begin st 0)) = Returns row
  /\ column "name" (co_attrs row) = JStr "Bolt".
Proof.
  intros E u company st row. split; [reflexivity|].
  destruct (update_company_changes_given_fields E "k1" u st 0 company row
              (snd (update_company E "k1" u (begin st 0))) eq_refl eq_refl)
    as (_ & H & _).
  exact (H "name").
Defined.

(** X29. A rename is refused with 400 exactly when the new name is not
    the company's own and some stored company already carries it. *)
Theorem rename_refused_iff_name_taken
  (E : env) (company_id : string) (u : CompanyUpdate) (st : store)
  (draws : nat) (company : company_row) (name : string) :
  List.find (has_id company_id) (companies st) = Some company ->
  cu_name u = Given name ->
  name <> EmptyString ->
  (fst (update_company E company_id u (begin st draws)) = HTTPException 400
   <-> column "name" (co_attrs company) <> JStr name
       /\ List.existsb (has_name name) (companies st) = true).
Proof.
  intros Hf Hname Hne.
  rewrite (update_company_begin E _ u st draws company Hf).
  unfold field_truthy. rewrite Hname.
  destruct (String.eqb name EmptyString) eqn:He; [apply String.eqb_eq in He; tauto|].
  destruct (is_str name (column "name" (co_attrs company))) eqn:Hs.
  - apply is_str_iff in Hs. simpl.
    destruct (with_company company (company_update_dump u) st); simpl;
      (split; [discriminate | tauto]).
  - assert (Hd : column "name" (co_attrs company) <> JStr name).
    { intros Heq. apply is_str_iff in Heq. congruence. }
    simpl. destruct (List.existsb (has_name name) (companies st)).
    + simpl. tauto.
    + destruct (with_company company (company_update_dump u) st); simpl;
        (split; [discriminate | intros [_ H]; discriminate H]).
Qed.

Lemma rename_refused_iff_name_taken_witness :
  let E := IngestSamples.uuids in
  let u := {| cu_name := Given "Acme"; cu_tagline := Unset;
              cu_description := Unset; cu_industry := Unset;
              cu_founded_year := Unset; cu_employee_count := Unset;
              cu_headquarters := Unset; cu_website_url := Unset |} in
  let company := {| co_id := JStr "k1"; co_attrs := [("name", JStr "Bolt")] |} in
  let st := {| companies := [company;
                             {| co_id := JStr "k2";
                                co_attrs := [("name", JStr "Acme")] |}];
               products := [] |} in
  fst (update_company E "k1" u (begin st 0)) = HTTPException 400.
Proof.
  intros E u company st.
  apply (rename_refused_iff_name_taken E "k1" u st 0 company "Acme").
  - reflexivity.
  - reflexivity.
  - discriminate.
  - split; [discriminate | reflexivity].
Defined.

(** X30. [update_product] answers 404 exactly when no product has the
    key, and 500 exactly when the product is stored and the body gives
    [null] for a [nullable=False] column; in both cases nothing changes.
    Otherwise the row it returns keeps its key and its company, and each
    column holds the value the body gave it, or what was stored. *)
Theorem update_product_outcomes
  (E : env) (product_id : string) (u : ProductUpdate) (st : store)
  (draws : nat) (a : answer product_row) (s' : session) :
  update_product E product_id u (begin st draws) = (a, s') ->
  (a = HTTPException 404
   <-> List.existsb (product_has_id product_id) (products st) = false)
  /\ (a = HTTPException 500
      <-> List.existsb (product_has_id product_id) (products st) = true
          /\ nulls_required product_required (product_update_dump u) = true)
  /\ match a with
     | Returns row =>
         exists product,
           List.find (product_has_id product_id) (products st) = Some product
           /\ pr_id row = pr_id product
           /\ pr_company_id row = pr_company_id product
           /\ (forall k,
                 column k (pr_attrs row)
                 = match dict_find k (product_update_dump u) with
                   | Some v => v
                   | None => column k (pr_attrs product)
                   end)
           /\ companies (committed s') = companies st
           /\ List.length (products (committed s')) = List.length (products st)
     | _ => committed s' = st
     end.
Proof.
  rewrite update_product_begin.
  destruct (List.find (product_has_id product_id) (products st))
    as [product|] eqn:Hf.
  - rewrite (find_some_existsb _ _ _ Hf). unfold with_product.
    destruct (nulls_required product_required (product_update_dump u));
      intros H; injection H as <- <-.
    + split; [split; discriminate|]. split; [tauto | reflexivity].
    + split; [split; discriminate|].
      split; [split; [discriminate | intros [_ H]; discriminate H]|].
      exists product. split; [reflexivity|]. split; [reflexivity|].
      split; [reflexivity|].
      split; [intros k; apply column_setattrs, product_update_dump_keys|].
      split; [reflexivity|]. simpl. apply List.length_map.
  - apply find_none_existsb in Hf. rewrite Hf.
    intros H. injection H as <- <-.
    split; [tauto|]. split; [|reflexivity].
    split; [discriminate | intros [H _]; discriminate H].
Qed.

Lemma update_product_outcomes_witness :
  let E := IngestSamples.uuids in
  let u := {| pu_name := Unset; pu_description := Unset;
              pu_target_audience := Unset; pu_key_features := Unset;
              pu_pricing_model := Null |} in
  let st := {| companies := [{| co_id := JStr "k1";
                                co_attrs := [("name", JStr "Bolt")] |}];
               products := [{| pr_id := JStr "p1"; pr_company_id := JStr "k1";
                               pr_attrs := [("name", JStr "Vault");
                                            ("pricing_model", JStr "Free")] |}] |} in
  fst (update_product E "p1" u (begin st 0)) = HTTPException 500
  /\ committed (snd (update_product E "p1" u (begin st 0))) = st.
Proof.
  intros E u st. split; [reflexivity|].
  destruct (update_product_outcomes E "p1" u st 0 (HTTPException 500)
              (snd (update_product E "p1" u (begin st 0))) eq_refl)
    as (_ & _ & H).
  exact H.
Defined.

End UpdateClaims.

(** ** The orchestrator with failing writes *)

Section Utf8Facts.
Import PyStr Py Registry Generator.
Variable utf8 : string -> bool.

Lemma dumps_members (d : list (string * json)) :
  Utf8.dumps utf8 (JObj d)
  = List.forallb (fun kv => utf8 (fst kv) && Utf8.dumps utf8 (snd kv)) d.
Proof.
  induction d as [|[k x] d IH]; [reflexivity|].
  simpl in *. rewrite IH. reflexivity.
Qed.

Lemma dumps_all : (forall s, utf8 s = true) -> forall v, Utf8.dumps utf8 v = true.
Proof.
  intros Hall. fix IH 1. intros v. destruct v as [| | | | s | items | members];
    try reflexivity.
  - apply Hall.
  - simpl. induction items as [|x items IHl]; [reflexivity|].
    simpl. rewrite (IH x), IHl. reflexivity.
  - rewrite dumps_members. induction members as [|[k x] members IHl];
      [reflexivity|].
    simpl. rewrite Hall, (IH x), IHl. reflexivity.
Qed.

Lemma checkpoint_dumps_all (companies : json) (w : world) :
  (forall s, utf8 s = true) -> Utf8.checkpoint_dumps utf8 companies w = true.
Proof.
  intros Hall. unfold Utf8.checkpoint_dumps. rewrite (dumps_all Hall).
  rewrite !andb_true_iff. repeat split; apply List.forallb_forall; auto.
Qed.

Lemma dumps_append (l : list json) (c : json) :
  Utf8.dumps utf8 (JArr (l ++ [c]))
  = Utf8.dumps utf8 (JArr l) && Utf8.dumps utf8 c.
Proof. simpl. rewrite List.forallb_app. simpl. rewrite andb_true_r. reflexivity. Qed.

Lemma dumps_member (d : list (string * json)) (k : string) (v : json) :
  Utf8.dumps utf8 (JObj d) = true -> dict_find k d = Some v ->
  Utf8.dumps utf8 v = true.
Proof.
  rewrite dumps_members. induction d as [|[k0 x] d IH]; simpl; [discriminate|].
  intros H Hf. apply andb_true_iff in H. destruct H as [Hx Hd].
  apply andb_true_iff in Hx. destruct Hx as [_ Hx].
  destruct (String.eqb k0 k); [injection Hf as <-; exact Hx | auto].
Qed.

Lemma generated_record (E : env) (industry : string) (info : industry_info)
  (w w' : world) (c : json) :
  generate_company_data E industry info w = (Ok c, w') ->
  exists d s ps, c = JObj d /\ dict_find "name" d = Some (JStr s)
                 /\ dict_find "products" d = Some (JArr ps).
Proof.
  unfold generate_company_data. intros H.
  apply attempts_return in H; [|simpl; tauto].
  destruct H as (attempt & w1 & _ & H).
  apply attempt_try_return in H;
    [|destruct (choice_3_4 (random_draw E (draws w))) as [-> | ->]; lia].
  destruct H as (_ & d & s & ps & Hc & Hn & Hp & _).
  exists d, s, ps. auto.
Qed.

Lemma checkpoint_dumps_frame (companies : json) (w w' : world) :
  used_company_names w' = used_company_names w ->
  used_product_names w' = used_product_names w ->
  Utf8.checkpoint_dumps utf8 companies w' = Utf8.checkpoint_dumps utf8 companies w.
Proof. intros Hc Hp. unfold Utf8.checkpoint_dumps. rewrite Hc, Hp. reflexivity. Qed.

Lemma generate_company_data_files (E : env) (industry : string)
  (info : industry_info) (w w' : world) (r : result json) :
  generate_company_data E industry info w = (r, w') ->
  progress_file w' = progress_file w /\ output_file w' = output_file w.
Proof.
  unfold generate_company_data. intros H.
  apply attempts_inv in H;
    [| destruct (choice_3_4 (random_draw E (draws w))) as [-> | ->]; lia
     | lia | reflexivity].
  destruct H as ((Hpf & Hof & _) & _). simpl in *. auto.
Qed.

(** A checkpoint that can be dumped holds no record with a name that
    cannot be printed. *)
Lemma checkpoint_dumps_name (items : list json) (d : list (string * json))
  (s : string) (w : world) :
  dict_find "name" d = Some (JStr s) ->
  Utf8.checkpoint_dumps utf8 (JArr (items ++ [JObj d])) w = true ->
  utf8 s = true.
Proof.
  intros Hn H. unfold Utf8.checkpoint_dumps in H.
  rewrite !andb_true_iff in H. destruct H as [[H _] _].
  rewrite dumps_append in H. apply andb_true_iff in H. destruct H as [_ H].
  exact (dumps_member d "name" (JStr s) H Hn).
Qed.

(** The [except] block of lines 234-237, on the list as it stands. *)
Lemma handler_cases (E : env) (i : Z) (e : exn) (all : json) (w1 : world) :
  match Utf8.print utf8 (Failed e) w1 with
  | (Raise e', w2) => (Raise e', w2)
  | (Ok _, w2) =>
      match Utf8.save_progress utf8 E all i w2 with
      | (Raise e', w3) => (Raise e', w3)
      | (Ok _, w3) => (Ok all, w3)
      end
  end
  = if Utf8.checkpoint_dumps utf8 all w1
    then (Ok all, save_progress E all i (print (Failed e) w1))
    else (Raise Utf8.UnicodeEncodeError,
          set_progress_file Undecodable
            (count_clock_read (print (Failed e) w1))).
Proof.
  unfold Utf8.print, Utf8.save_progress. cbn [Utf8.printable].
  change (Utf8.checkpoint_dumps utf8 all (print (Failed e) w1))
    with (Utf8.checkpoint_dumps utf8 all w1).
  destruct (Utf8.checkpoint_dumps utf8 all w1); reflexivity.
Qed.

(** One pass of the loop body: it ends as the pass whose writes succeed
    does when the checkpoint that pass writes can be encoded, and
    otherwise raises out of the loop, leaving a truncated checkpoint. *)
Lemma iteration_cases (E : env) (i : Z) (all : json) (w : world) :
  let old := iteration E i (all, w) in
  match Utf8.iteration utf8 E i (all, w) with
  | (Ok all', w') =>
      Utf8.checkpoint_dumps utf8 (fst old) (snd old) = true
      /\ all' = fst old /\ w' = snd old
  | (Raise e, wf) =>
      Utf8.checkpoint_dumps utf8 (fst old) (snd old) = false
      /\ e = Utf8.UnicodeEncodeError
      /\ progress_file wf = Undecodable
      /\ output_file wf = output_file w
      /\ generating_positions (stdout wf)
         = generating_positions (stdout w) ++ [(i + 1)%Z]
  end.
Proof.
  unfold iteration, Utf8.iteration.
  destruct (pick_industry E w) as [industry info].
  unfold Utf8.print at 1. cbn [Utf8.printable].
  set (w0 := print (Generating (i + 1) industry) (count_draw w)).
  assert (H0 : generating_positions (stdout w0)
               = generating_positions (stdout w) ++ [(i + 1)%Z]).
  { unfold w0. rewrite stdout_print, generating_positions_app. reflexivity. }
  assert (Hout0 : output_file w0 = output_file w) by reflexivity.
  unfold iteration_try, Utf8.iteration_try.
  pose proof (quiet_generate_company_data E industry info w0) as Hq.
  destruct (generate_company_data E industry info w0) as [[company|e] w1] eqn:Hg;
    simpl in Hq;
    pose proof (proj2 (generate_company_data_files _ _ _ _ _ _ Hg)) as Hfiles.
  - destruct (generated_record _ _ _ _ _ _ Hg) as (d & s & ps & -> & Hn & Hp).
    destruct (append all (JObj d)) as [all'|e] eqn:Ha.
    + destruct all as [| | | | |items|]; try discriminate Ha.
      injection Ha as <-.
      cbn [getitem]. rewrite Hn, Hp. cbn [len fst snd].
      change (Utf8.checkpoint_dumps utf8 (JArr (items ++ [JObj d]))
                (sleep 1200
                   (save_progress E (JArr (items ++ [JObj d])) (i + 1)
                      (print (Generated (JStr s) (List.length ps)) w1))))
        with (Utf8.checkpoint_dumps utf8 (JArr (items ++ [JObj d])) w1).
      unfold Utf8.print at 1. cbn [Utf8.printable].
      destruct (utf8 s) eqn:Hs.
      * unfold Utf8.save_progress at 1.
        change (Utf8.checkpoint_dumps utf8 (JArr (items ++ [JObj d]))
                  (print (Generated (JStr s) (List.length ps)) w1))
          with (Utf8.checkpoint_dumps utf8 (JArr (items ++ [JObj d])) w1).
        destruct (Utf8.checkpoint_dumps utf8 (JArr (items ++ [JObj d])) w1) eqn:Hd.
        -- split; [reflexivity|]. split; reflexivity.
        -- rewrite handler_cases.
           change (Utf8.checkpoint_dumps utf8 (JArr (items ++ [JObj d]))
                     (set_progress_file Undecodable
                        (count_clock_read
                           (print (Generated (JStr s) (List.length ps)) w1))))
             with (Utf8.checkpoint_dumps utf8 (JArr (items ++ [JObj d])) w1).
           rewrite Hd. split; [reflexivity|]. split; [reflexivity|].
           split; [reflexivity|]. split; [simpl; congruence|].
           simpl stdout. rewrite !generating_positions_app. simpl.
           rewrite !app_nil_r, Hq. exact H0.
      * assert (Hd : Utf8.checkpoint_dumps utf8 (JArr (items ++ [JObj d])) w1
                     = false).
        { destruct (Utf8.checkpoint_dumps utf8 _ w1) eqn:Hd; [|reflexivity].
          rewrite (checkpoint_dumps_name items d s w1 Hn Hd) in Hs.
          discriminate Hs. }
        rewrite handler_cases, Hd.
        split; [reflexivity|]. split; [reflexivity|].
        split; [reflexivity|]. split; [simpl; congruence|].
        simpl stdout. rewrite !generating_positions_app. simpl.
        rewrite !app_nil_r, Hq. exact H0.
    + rewrite handler_cases. cbn [fst snd].
      change (Utf8.checkpoint_dumps utf8 all
                (save_progress E all i (print (Failed e) w1)))
        with (Utf8.checkpoint_dumps utf8 all w1).
      destruct (Utf8.checkpoint_dumps utf8 all w1) eqn:Hd.
      * split; [reflexivity|]. split; reflexivity.
      * split; [reflexivity|]. split; [reflexivity|].
        split; [reflexivity|]. split; [simpl; congruence|].
        simpl stdout. rewrite !generating_positions_app. simpl.
        rewrite !app_nil_r, Hq. exact H0.
  - rewrite handler_cases. cbn [fst snd].
    change (Utf8.checkpoint_dumps utf8 all
              (save_progress E all i (print (Failed e) w1)))
      with (Utf8.checkpoint_dumps utf8 all w1).
    destruct (Utf8.checkpoint_dumps utf8 all w1) eqn:Hd.
    + split; [reflexivity|]. split; reflexivity.
    + split; [reflexivity|]. split; [reflexivity|].
      split; [reflexivity|]. split; [simpl; congruence|].
      simpl stdout. rewrite !generating_positions_app. simpl.
      rewrite !app_nil_r, Hq. exact H0.
Qed.

Lemma iteration_output_file (E : env) (i : Z) (st : json * world) :
  output_file (snd (iteration E i st)) = output_file (snd st).
Proof.
  destruct st as [all w]. unfold iteration.
  destruct (pick_industry E w) as [industry info].
  set (w0 := print (Generating (i + 1) industry) (count_draw w)).
  unfold iteration_try.
  destruct (generate_company_data E industry info w0) as [[company|e] w1] eqn:Hg;
    pose proof (proj2 (generate_company_data_files _ _ _ _ _ _ Hg)) as Hfiles;
    [|exact Hfiles].
  destruct (append all company); [|exact Hfiles].
  destruct (getitem company "name"); [|exact Hfiles].
  destruct (getitem company "products") as [prods|]; [|exact Hfiles].
  destruct (len prods); exact Hfiles.
Qed.

Lemma firstn_S_cons {A} (m : nat) (x : A) (l : list A) :
  List.firstn (S m) (x :: l) = x :: List.firstn m l.
Proof. reflexivity. Qed.

(** The loop: it ends as the loop whose writes succeed does, or is left
    by a [UnicodeEncodeError] after a pass that announced its position,
    the passes before it having ended. *)
Lemma iterations_cases (E : env) (indices : list Z) :
  forall st,
  match Utf8.iterations utf8 E indices st with
  | (Ok all', w') =>
      all' = fst (iterations E indices st) /\ w' = snd (iterations E indices st)
      /\ (indices <> [] -> Utf8.checkpoint_dumps utf8 all' w' = true)
  | (Raise e, wf) =>
      e = Utf8.UnicodeEncodeError
      /\ progress_file wf = Undecodable
      /\ output_file wf = output_file (snd st)
      /\ exists m, (m < List.length indices)%nat
           /\ generating_positions (stdout wf)
              = generating_positions (stdout (snd st))
                ++ List.map (fun i => (i + 1)%Z) (List.firstn (S m) indices)
  end.
Proof.
  induction indices as [|i rest IH]; intros st.
  - simpl. split; [reflexivity|]. split; [reflexivity|]. congruence.
  - cbn [Utf8.iterations iterations]. destruct st as [all w].
    pose proof (iteration_cases E i all w) as Hc. cbv zeta in Hc.
    destruct (Utf8.iteration utf8 E i (all, w)) as [[all1|e] w1].
    + destruct Hc as (Hd1 & Hall & Hw).
      assert (Hold : iteration E i (all, w) = (all1, w1)).
      { rewrite Hall, Hw. destruct (iteration E i (all, w)); reflexivity. }
      rewrite Hold in *. cbn [fst snd] in Hd1. specialize (IH (all1, w1)).
      destruct (Utf8.iterations utf8 E rest (all1, w1)) as [[all2|e] w2].
      { destruct IH as (H1 & H2 & H3). split; [exact H1|]. split; [exact H2|].
        intros _. destruct rest as [|j rest'].
        - simpl in H1, H2. subst. exact Hd1.
        - apply H3. discriminate. }
      destruct IH as (He & Hp & Ho & m & Hm & Hpos).
      split; [exact He|]. split; [exact Hp|]. split.
      * rewrite Ho. cbn [snd].
        change w1 with (snd (all1, w1)). rewrite <- Hold.
        apply iteration_output_file.
      * exists (S m). split; [simpl; lia|].
        rewrite Hpos. cbn [snd].
        change w1 with (snd (all1, w1)). rewrite <- Hold.
        rewrite iteration_positions. cbn [snd].
        rewrite firstn_S_cons. simpl List.map. rewrite <- app_assoc.
        reflexivity.
    + destruct Hc as (_ & He & Hp & Ho & Hpos).
      split; [exact He|]. split; [exact Hp|]. split; [exact Ho|].
      exists 0%nat. split; [simpl; lia|]. exact Hpos.
Qed.

(** With text that can always be encoded no write fails. *)
Lemma iterations_encodable (E : env) (indices : list Z) (st : json * world) :
  (forall s, utf8 s = true) ->
  Utf8.iterations utf8 E indices st
  = (Ok (fst (iterations E indices st)), snd (iterations E indices st)).
Proof.
  intros Hall. revert st. induction indices as [|i rest IH]; intros st.
  - reflexivity.
  - cbn [Utf8.iterations iterations]. destruct st as [all w].
    pose proof (iteration_cases E i all w) as Hc. cbv zeta in Hc.
    destruct (Utf8.iteration utf8 E i (all, w)) as [[all1|e] w1].
    + destruct Hc as (_ & Hall1 & Hw).
      assert (Hold : iteration E i (all, w) = (all1, w1)).
      { rewrite Hall1, Hw. destruct (iteration E i (all, w)); reflexivity. }
      rewrite Hold. apply IH.
    + destruct Hc as (Hd & _). rewrite (checkpoint_dumps_all _ _ Hall) in Hd.
      discriminate Hd.
Qed.

(** One pass of the loop whose writes succeed, on a list. *)
Lemma iteration_outcome (E : env) (i : Z) (l : list json) (w : world) :
  let st' := iteration E i (JArr l, w) in
  match generate_company_data E (fst (pick_industry E w)) (snd (pick_industry E w))
          (print (Generating (i + 1) (fst (pick_industry E w))) (count_draw w)) with
  | (Ok company, w1) =>
      fst st' = JArr (l ++ [company])
      /\ checkpoint_of (progress_file (snd st'))
         = Some (JArr (l ++ [company]), JNum (i + 1))
      /\ used_company_names (snd st') = used_company_names w1
      /\ used_product_names (snd st') = used_product_names w1
  | (Raise _, w1) =>
      fst st' = JArr l
      /\ checkpoint_of (progress_file (snd st')) = Some (JArr l, JNum i)
      /\ used_company_names (snd st') = used_company_names w1
      /\ used_product_names (snd st') = used_product_names w1
  end.
Proof.
  unfold iteration. cbv zeta.
  destruct (pick_industry E w) as [industry info]. cbn [fst snd].
  unfold iteration_try.
  destruct (generate_company_data E industry info _) as [[company|e] w1] eqn:Hg.
  - destruct (generate_company_data_shape _ _ _ _ _ _ Hg)
      as (name & prods & n & Hn & Hp & Hl).
    cbn [append]. rewrite Hn, Hp, Hl. cbn. auto.
  - cbn. auto.
Qed.

(** The resume check of a run that goes on from a loaded checkpoint. *)
Lemma resume_check_continues (E : env) (w w1 : world) (l : list json) (k : Z) :
  load_progress (print Banner w) = Some ((JArr l, JNum k), w1) ->
  l = [] \/ lower (strip (input_line E)) = "y" ->
  exists w2,
    resume_check E true w = Some (Ok (JArr l, JNum k), w2)
    /\ generating_positions (stdout w2) = generating_positions (stdout w).
Proof.
  intros Hload Hans.
  destruct (resume_check E true w) as [[[[ex si]|e] w2]|] eqn:Hrc.
  - pose proof (resume_check_frame _ _ _ _ _ _ Hrc) as [_ Hs].
    exists w2. split; [|exact Hs].
    unfold resume_check in Hrc. rewrite Hload in Hrc.
    destruct l as [|c l]; cbn [truthy len] in Hrc.
    + injection Hrc as <- <- _. reflexivity.
    + destruct Hans as [Hans | Hans]; [discriminate Hans|].
      rewrite Hans in Hrc. cbn in Hrc. injection Hrc as <- <- _. reflexivity.
  - exfalso. unfold resume_check in Hrc. rewrite Hload in Hrc.
    destruct l as [|c l]; cbn [truthy len] in Hrc; [discriminate Hrc|].
    destruct (negb _); discriminate Hrc.
  - exfalso. unfold resume_check in Hrc. rewrite Hload in Hrc.
    destruct l as [|c l]; cbn [truthy len] in Hrc; [discriminate Hrc|].
    destruct (negb _); discriminate Hrc.
Qed.

Lemma completion_positions (all_companies : json) (w : world) :
  generating_positions (stdout (snd (Utf8.completion utf8 all_companies w)))
  = generating_positions (stdout w).
Proof.
  unfold Utf8.completion. destruct (Utf8.dumps utf8 all_companies).
  - apply completion_frame.
  - reflexivity.
Qed.

End Utf8Facts.

Section Utf8Claims.
Import PyStr Py Registry Generator.

(** C6, as the code has it. One pass of the loop at index [i] over the
    list [l]: when the generator returns a company and the checkpoint
    with [l ++ [company]] can be encoded, the list becomes
    [l ++ [company]] and the checkpoint written holds it with
    [current_index = i + 1]; when the generator raises and the checkpoint
    with [l] can be encoded, the list is unchanged and the checkpoint
    holds [current_index = i]. In both cases the loop goes on with the
    remaining indices. When the checkpoint cannot be encoded the pass
    raises [UnicodeEncodeError] out of the loop and leaves a truncated
    checkpoint. A run that resumes from a loaded checkpoint whose index is
    [k] announces positions of the indices k..N-1 only, in order from
    k: all of them when it returns or when all text can be encoded. *)
Theorem checkpoint_index_follows_written_outcome
  (utf8 : string -> bool) (E : env) :
  (forall (i : Z) (l : list json) (w : world),
     match generate_company_data E (fst (pick_industry E w)) (snd (pick_industry E w))
             (print (Generating (i + 1) (fst (pick_industry E w))) (count_draw w)) with
     | (Ok company, w1) =>
         if Utf8.checkpoint_dumps utf8 (JArr (l ++ [company])) w1
         then exists w',
                Utf8.iteration utf8 E i (JArr l, w)
                = (Ok (JArr (l ++ [company])), w')
                /\ checkpoint_of (progress_file w')
                   = Some (JArr (l ++ [company]), JNum (i + 1))
         else exists w',
                Utf8.iteration utf8 E i (JArr l, w)
                = (Raise Utf8.UnicodeEncodeError, w')
                /\ progress_file w' = Undecodable
     | (Raise _, w1) =>
         if Utf8.checkpoint_dumps utf8 (JArr l) w1
         then exists w',
                Utf8.iteration utf8 E i (JArr l, w) = (Ok (JArr l), w')
                /\ checkpoint_of (progress_file w') = Some (JArr l, JNum i)
         else exists w',
                Utf8.iteration utf8 E i (JArr l, w)
                = (Raise Utf8.UnicodeEncodeError, w')
                /\ progress_file w' = Undecodable
     end)
  /\ (forall (i : Z) (rest : list Z) (st : json * world),
     Utf8.iterations utf8 E (i :: rest) st
     = match Utf8.iteration utf8 E i st with
       | (Ok all_companies, w') => Utf8.iterations utf8 E rest (all_companies, w')
       | (Raise e, w') => (Raise e, w')
       end)
  /\ (forall (w w1 : world) (l : list json) (k : Z),
     load_progress (print Banner w) = Some ((JArr l, JNum k), w1) ->
     l = [] \/ lower (strip (input_line E)) = "y" ->
     exists r w' m,
       Utf8.generate_all_data utf8 E true w = Some (r, w')
       /\ generating_positions (stdout w')
          = generating_positions (stdout w)
            ++ List.map (fun i => (i + 1)%Z)
                        (List.firstn m (range k (Z.of_nat TOTAL_COMPANIES)))
       /\ (r = Ok tt \/ (forall s, utf8 s = true) ->
           List.firstn m (range k (Z.of_nat TOTAL_COMPANIES))
           = range k (Z.of_nat TOTAL_COMPANIES))
       /\ forall i, In i (range k (Z.of_nat TOTAL_COMPANIES))
                    <-> (k <= i < Z.of_nat TOTAL_COMPANIES)%Z).
Proof.
  split; [|split].
  - intros i l w.
    pose proof (iteration_outcome E i l w) as Ho.
    pose proof (iteration_cases utf8 E i (JArr l) w) as Hc.
    cbv zeta in Ho, Hc.
    destruct (generate_company_data E _ _ _) as [[company|e] w1].
    + destruct Ho as (Hf & Hck & Hcn & Hpn).
      rewrite Hf, (checkpoint_dumps_frame utf8 _ w1 _ Hcn Hpn) in Hc.
      destruct (Utf8.iteration utf8 E i (JArr l, w)) as [[all'|e'] w'].
      * destruct Hc as (Hd & -> & ->). rewrite Hd. eauto.
      * destruct Hc as (Hd & -> & Hp & _). rewrite Hd. eauto.
    + destruct Ho as (Hf & Hck & Hcn & Hpn).
      rewrite Hf, (checkpoint_dumps_frame utf8 _ w1 _ Hcn Hpn) in Hc.
      destruct (Utf8.iteration utf8 E i (JArr l, w)) as [[all'|e'] w'].
      * destruct Hc as (Hd & -> & ->). rewrite Hd. eauto.
      * destruct Hc as (Hd & -> & Hp & _). rewrite Hd. eauto.
  - intros i rest st. cbn [Utf8.iterations].
    destruct (Utf8.iteration utf8 E i st) as [[all'|e] w']; reflexivity.
  - intros w w1 l k Hload Hans.
    destruct (resume_check_continues E w w1 l k Hload Hans) as (w2 & Hrc & Hs).
    unfold Utf8.generate_all_data, Utf8.generation. rewrite Hrc. cbn [as_index].
    pose proof (iterations_cases utf8 E (range k (Z.of_nat TOTAL_COMPANIES))
                  (JArr l, w2)) as Hc.
    pose proof (iterations_encodable utf8 E (range k (Z.of_nat TOTAL_COMPANIES))
                  (JArr l, w2)) as Henc.
    destruct (Utf8.iterations utf8 E _ (JArr l, w2)) as [[all'|e] w3].
    + destruct Hc as (-> & -> & _).
      exists (fst (Utf8.completion utf8
                     (fst (iterations E (range k (Z.of_nat TOTAL_COMPANIES)) (JArr l, w2)))
                     (snd (iterations E (range k (Z.of_nat TOTAL_COMPANIES)) (JArr l, w2))))),
             (snd (Utf8.completion utf8
                     (fst (iterations E (range k (Z.of_nat TOTAL_COMPANIES)) (JArr l, w2)))
                     (snd (iterations E (range k (Z.of_nat TOTAL_COMPANIES)) (JArr l, w2))))),
             (List.length (range k (Z.of_nat TOTAL_COMPANIES))).
      split; [destruct (Utf8.completion utf8 _ _); reflexivity|].
      rewrite List.firstn_all.
      split; [|split; [reflexivity | intros i; apply range_spec]].
      rewrite completion_positions, iterations_positions. cbn [snd].
      rewrite Hs. reflexivity.
    + destruct Hc as (-> & _ & _ & m & Hm & Hpos).
      exists (Raise Utf8.UnicodeEncodeError), w3, (S m).
      split; [reflexivity|]. split; [rewrite Hpos; cbn [snd]; rewrite Hs; reflexivity|].
      split; [|intros i; apply range_spec].
      intros [Hr | Hall]; [discriminate Hr|].
      specialize (Henc Hall). discriminate Henc.
Qed.

Lemma checkpoint_index_follows_written_outcome_witness :
  let checkpoint :=
    JObj [("companies", JArr [Samples.company "Globex" ["Ledger"]]);
          ("current_index", JNum 8)] in
  let w := set_progress_file (Holds checkpoint) (Samples.start ∅ ∅) in
  exists w',
    Utf8.generate_all_data Utf8.no_surrogate Samples.failing_api true w
    = Some (Ok tt, w')
    /\ generating_positions (stdout w') = [9; 10]%Z.
Proof.
  intros checkpoint w.
  destruct (proj2 (proj2 (checkpoint_index_follows_written_outcome
                            Utf8.no_surrogate Samples.failing_api))
              w (print Banner w) [Samples.company "Globex" ["Ledger"]] 8%Z)
    as (r & w' & m & Hrun & Hpos & Hfull & _).
  - reflexivity.
  - right. reflexivity.
  - assert (Hr : r = Ok tt).
    { assert (Hfst : option_map fst
                       (Utf8.generate_all_data Utf8.no_surrogate
                          Samples.failing_api true w) = Some (Ok tt))
        by (vm_compute; reflexivity).
      rewrite Hrun in Hfst. simpl in Hfst. congruence. }
    subst r. exists w'. split; [exact Hrun|].
    rewrite Hpos, (Hfull (or_introl eq_refl)). reflexivity.
Defined.

(** C6 as stated fails when a record holds text that cannot be encoded:
    the generator returns the company, yet the pass writes no checkpoint
    with [current_index = 1] or [0], the loop is left, and of the ten
    positions only the first is announced. *)
Lemma unencodable_record_ends_the_loop :
  let E := Samples.constant_api Utf8Samples.company in
  let w := Samples.start ∅ ∅ in
  (exists w1,
     generate_company_data E (fst (pick_industry E w)) (snd (pick_industry E w))
       (print (Generating 1 (fst (pick_industry E w))) (count_draw w))
     = (Ok Utf8Samples.company, w1))
  /\ (exists w',
        Utf8.iteration Utf8.no_surrogate E 0 (JArr [], w)
        = (Raise Utf8.UnicodeEncodeError, w')
        /\ checkpoint_of (progress_file w') = None)
  /\ (exists w',
        Utf8.generate_all_data Utf8.no_surrogate E false w
        = Some (Raise Utf8.UnicodeEncodeError, w')
        /\ progress_file w' = Undecodable
        /\ output_file w' = Absent
        /\ generating_positions (stdout w') = [1%Z]).
Proof.
  intros E w. split; [|split].
  - eexists. vm_compute. reflexivity.
  - eexists. split; [vm_compute; reflexivity | reflexivity].
  - eexists. split; [vm_compute; reflexivity|].
    split; [reflexivity|]. split; reflexivity.
Qed.

(** X12. A run without resume is left by no exception but a
    [UnicodeEncodeError]: then a checkpoint write failed, the checkpoint is
    truncated and no output file is written. Otherwise, whatever the API
    does, the run ends with an output file holding a list of at most 10
    companies, each with 3 or 4 products, and without a checkpoint exactly
    when the list has 10. It does so whenever all text can be encoded. *)
Theorem fresh_run_raises_only_on_unencodable_text
  (utf8 : string -> bool) (E : env) (w : world) :
  exists r w',
    Utf8.generate_all_data utf8 E false w = Some (r, w')
    /\ match r with
       | Ok _ =>
           exists l,
             output_file w' = Holds (JObj [("companies", JArr l)])
             /\ (List.length l <= 10)%nat
             /\ Forall three_or_four l
             /\ (progress_file w' = Absent <-> List.length l = 10%nat)
       | Raise e =>
           e = Utf8.UnicodeEncodeError
           /\ progress_file w' = Undecodable
           /\ output_file w' = output_file w
       end
    /\ ((forall s, utf8 s = true) -> r = Ok tt).
Proof.
  destruct (generation_fresh E w) as (l & w1 & Hgen & Hlen & Hwf & Hex & _).
  unfold generation, resume_check in Hgen. cbn [truthy as_index] in Hgen.
  unfold Utf8.generate_all_data, Utf8.generation, resume_check.
  cbn [truthy as_index].
  set (w0 := print Generating_total (print Banner w)) in *.
  pose proof (iterations_cases utf8 E (range 0 (Z.of_nat TOTAL_COMPANIES))
                (JArr [], w0)) as Hc.
  pose proof (iterations_encodable utf8 E (range 0 (Z.of_nat TOTAL_COMPANIES))
                (JArr [], w0)) as Henc.
  destruct (iterations E (range 0 (Z.of_nat TOTAL_COMPANIES)) (JArr [], w0))
    as [all1 w1'] eqn:Hit.
  injection Hgen as -> ->.
  destruct (Utf8.iterations utf8 E _ (JArr [], w0)) as [[all'|e] w3].
  - destruct Hc as (Hall & Hw & Hd). cbn [fst snd] in Hall, Hw. subst all' w3.
    assert (Hdump : Utf8.dumps utf8 (JArr l) = true).
    { specialize (Hd (range_nonempty 0 10 eq_refl)).
      unfold Utf8.checkpoint_dumps in Hd. rewrite !andb_true_iff in Hd. tauto. }
    unfold Utf8.completion. rewrite Hdump.
    destruct (completion_frame (JArr l) w1) as (Hout & _ & Hpf).
    destruct (sum_products_ok l Hwf) as (total & Htotal).
    assert (Hok : fst (completion (JArr l) w1) = Ok tt).
    { unfold completion. cbn [len iter]. rewrite Htotal. reflexivity. }
    exists (Ok tt), (snd (completion (JArr l) w1)).
    split; [destruct (completion (JArr l) w1); simpl in Hok; subst; reflexivity|].
    split; [|reflexivity].
    exists l. split; [exact Hout|]. split; [exact Hlen|]. split; [exact Hwf|].
    rewrite Hpf. cbn [len].
    destruct (List.length l =? TOTAL_COMPANIES)%nat eqn:Hn.
    + apply Nat.eqb_eq in Hn. split; [intros _; exact Hn | reflexivity].
    + apply Nat.eqb_neq in Hn. split; [|intros H; destruct (Hn H)].
      intros Ha. rewrite Ha in Hex. discriminate Hex.
  - destruct Hc as (-> & Hp & Ho & _).
    exists (Raise Utf8.UnicodeEncodeError), w3.
    split; [reflexivity|]. split; [auto|].
    intros Hall. specialize (Henc Hall). discriminate Henc.
Qed.

(** X13. When the loop of a run without resume has ended, the
    checkpoint on disk holds the accumulated list with [current_index]
    9 or 10, however many generations failed: the cursor moves past a
    failed slot with the next iteration. *)
Theorem cursor_passes_failed_slots
  (utf8 : string -> bool) (E : env) (w w1 : world) (all_companies : json) :
  Utf8.generation utf8 E false w = Some (Ok all_companies, w1) ->
  exists l idx,
    all_companies = JArr l
    /\ checkpoint_of (progress_file w1) = Some (JArr l, JNum idx)
    /\ (idx = 9%Z \/ idx = 10%Z).
Proof.
  destruct (generation_fresh E w) as (l & w2 & Hgen & _ & _ & _ & Hc).
  unfold generation, resume_check in Hgen. cbn [truthy as_index] in Hgen.
  unfold Utf8.generation, resume_check. cbn [truthy as_index].
  set (w0 := print Generating_total (print Banner w)) in *.
  pose proof (iterations_cases utf8 E (range 0 (Z.of_nat TOTAL_COMPANIES))
                (JArr [], w0)) as Hcases.
  destruct (iterations E (range 0 (Z.of_nat TOTAL_COMPANIES)) (JArr [], w0))
    as [all1 w1'] eqn:Hit.
  injection Hgen as -> ->.
  destruct (Utf8.iterations utf8 E _ (JArr [], w0)) as [[all'|e] w3];
    [|discriminate].
  destruct Hcases as (Hall & Hw & _). cbn [fst snd] in Hall, Hw. subst all' w3.
  intros H. injection H as <- <-.
  destruct Hc as [Hc | Hc]; [exists l, 9%Z | exists l, 10%Z]; auto.
Qed.

Lemma cursor_passes_failed_slots_witness :
  let w := Samples.start ∅ ∅ in
  let w1 := match Utf8.generation Utf8.no_surrogate Samples.failing_api false w with
            | Some (_, w1) => w1
            | None => w
            end in
  exists l idx,
    JArr [] = JArr l
    /\ checkpoint_of (progress_file w1) = Some (JArr l, JNum idx)
    /\ (idx = 9%Z \/ idx = 10%Z).
Proof.
  intros w w1.
  apply (cursor_passes_failed_slots Utf8.no_surrogate Samples.failing_api w w1
           (JArr [])).
  vm_compute. reflexivity.
Defined.

End Utf8Claims.
